(** * ProjectSaver (Introjucer, "Project Saving/jucer_ProjectSaver.h")

    A shallow embedding of the class [ProjectSaver] and of the properties
    its specification states about it.  The members of the class are
    embedded one by one, under their own names; the collaborators the
    header only calls (File, Project, Project::Item, LibraryModule,
    ProjectExporter, FileHelpers, ResourceFile) are modelled next to the
    member that uses them, each with a note saying so. *)

From Stdlib Require Import String Ascii List Bool Arith ZArith Lia Permutation.
Import ListNotations.
Open Scope string_scope.
Set Warnings "-register-all".

(* ===================================================================== *)
(** * Files and the disk *)
(* ===================================================================== *)

(** Modelled from the spec: [File] (juce_File.h is not part of the
    sources): an absolute path, held as the list of its components; the
    empty path stands for [File::nonexistent]. *)
Definition File : Type := list string.

Fixpoint File_eqb (a b : File) : bool :=
  match a, b with
  | [], [] => true
  | x :: a', y :: b' => String.eqb x y && File_eqb a' b'
  | _, _ => false
  end.

(** Modelled from the spec: [File::getFullPathName]. *)
Fixpoint getFullPathName (f : File) : string :=
  match f with
  | [] => EmptyString
  | c :: rest => "/" ++ c ++ getFullPathName rest
  end.

(** Modelled from the spec: [File::getChildFile], for a relative path of
    one component. *)
Definition getChildFile (parent : File) (relativePath : string) : File :=
  (parent ++ [relativePath])%list.

(** What a directory holds: files with their bytes, and sub-directories. *)
Inductive FsNode : Type :=
| FsFile (name : string) (data : string)
| FsDir (name : string) (entries : list FsNode).

Definition getFileName (n : FsNode) : string :=
  match n with
  | FsFile name _ => name
  | FsDir name _ => name
  end.

Definition isFolder (n : FsNode) : bool :=
  match n with
  | FsFile _ _ => false
  | FsDir _ _ => true
  end.

Definition dirEntries (n : FsNode) : list FsNode :=
  match n with
  | FsFile _ _ => []
  | FsDir _ entries => entries
  end.

(** Induction on a directory tree, with the hypothesis available for every
    entry of a directory. *)
Fixpoint FsNode_forall_ind (P : FsNode -> Prop)
  (Hfile : forall name data, P (FsFile name data))
  (Hdir : forall name entries, Forall P entries -> P (FsDir name entries))
  (n : FsNode) {struct n} : P n :=
  match n with
  | FsFile name data => Hfile name data
  | FsDir name entries =>
      Hdir name entries
        ((fix all (l : list FsNode) : Forall P l :=
            match l with
            | [] => Forall_nil P
            | x :: l' => Forall_cons x (FsNode_forall_ind P Hfile Hdir x) (all l')
            end) entries)
  end.

(* ===================================================================== *)
(** * Clearing out the generated-code folder *)
(* ===================================================================== *)

(** The table [filesToKeep] of [shouldFileBeKept]. *)
Definition filesToKeep : list string := [".svn"; ".cvs"; "CMakeLists.txt"].

(** The loop of [shouldFileBeKept] over the table, from index 0. *)
Fixpoint shouldFileBeKept_loop (table : list string) (filename : string) : bool :=
  match table with
  | [] => false
  | k :: rest =>
      if String.eqb filename k then true else shouldFileBeKept_loop rest filename
  end.

Definition shouldFileBeKept (filename : string) : bool :=
  shouldFileBeKept_loop filesToKeep filename.

(** The body of the loop of [deleteNonHiddenFilesIn], on the entry [f] of
    [parent]; [recurse] is the nested call.  It gives what the entry does to
    [folderIsNowEmpty], what it adds to [filesToDelete], what it leaves in
    the directory, and what the nested call deleted. *)
Definition visitEntry (recurse : File -> FsNode -> bool * list FsNode * list File)
  (parent : File) (f : FsNode) : bool * list File * list FsNode * list File :=
  let path := getChildFile parent (getFileName f) in
  if shouldFileBeKept (getFileName f) then (false, [], [f], [])
  else
    match f with
    | FsDir name _ =>
        let '(empty, sub, g) := recurse path f in
        if empty then (true, [path], [], g)
        else (false, [], [FsDir name sub], g)
    | FsFile _ _ => (true, [path], [], [])
    end.

(** The loop as a whole, over the entries the directory iterator yields. *)
Definition visitEntries (recurse : File -> FsNode -> bool * list FsNode * list File)
  (parent : File) : list FsNode -> bool * list File * list FsNode * list File :=
  fix iterate (es : list FsNode) :=
    match es with
    | [] => (true, [], [], [])
    | f :: more =>
        let '(e1, d1, l1, g1) := visitEntry recurse parent f in
        let '(e2, d2, l2, g2) := iterate more in
        (e1 && e2, d1 ++ d2, l1 ++ l2, g1 ++ g2)%list
    end.

(** [deleteNonHiddenFilesIn parent], run on the directory [folder] found at
    the path [parent].  The directory iterator yields the entries in the
    order of the list.  The result is the returned [folderIsNowEmpty], the
    entries left in the directory, and the paths deleted, in the order of
    their deletion: a nested call deletes while the loop runs, the entries
    collected in [filesToDelete] are deleted after the loop, last one first.
    A deletion is taken to succeed (the code ignores its result). *)
Fixpoint deleteNonHiddenFilesIn (parent : File) (folder : FsNode) {struct folder}
  : bool * list FsNode * list File :=
  match folder with
  | FsFile _ _ => (true, [], [])
  | FsDir _ entries =>
      let '(folderIsNowEmpty, filesToDelete, remaining, nested) :=
        visitEntries deleteNonHiddenFilesIn parent entries in
      (folderIsNowEmpty, remaining, (nested ++ rev filesToDelete)%list)
  end.

(** The three parts of the result. *)
Definition resetFlag (r : bool * list FsNode * list File) : bool := fst (fst r).
Definition resetLeft (r : bool * list FsNode * list File) : list FsNode := snd (fst r).
Definition resetLog (r : bool * list FsNode * list File) : list File := snd r.

(** ** The specification's reading of the reset *)

(** [containsKept n]: the entry [n] is on the keep-list, or it is a folder
    that holds such an entry at some depth. *)
Fixpoint containsKept (n : FsNode) : bool :=
  shouldFileBeKept (getFileName n) ||
  match n with
  | FsFile _ _ => false
  | FsDir _ entries => existsb containsKept entries
  end.

(** [keptPart n]: what the reset leaves of the entry [n]: an entry on the
    keep-list as it is, a folder that holds a kept entry with its own
    entries reset, nothing else. *)
Fixpoint keptPart (n : FsNode) : list FsNode :=
  if shouldFileBeKept (getFileName n) then [n]
  else
    match n with
    | FsFile _ _ => []
    | FsDir name entries =>
        if existsb containsKept entries
        then [FsDir name (flat_map keptPart entries)]
        else []
    end.

(** Every directory of the tree holds each name once. *)
Fixpoint uniqueNames (n : FsNode) : Prop :=
  match n with
  | FsFile _ _ => True
  | FsDir _ entries =>
      NoDup (map getFileName entries) /\
      (fix all (l : list FsNode) : Prop :=
         match l with
         | [] => True
         | x :: l' => uniqueNames x /\ all l'
         end) entries
  end.

(** [isProperPrefix p q]: the path [q] lies strictly below [p]. *)
Definition isProperPrefix (p q : File) : Prop :=
  exists c rest, q = (p ++ c :: rest)%list.

(** A deletion log is in post-order when nothing is deleted below a path
    after the path itself was deleted. *)
Definition postOrder (log : list File) : Prop :=
  forall l1 p l2, log = (l1 ++ p :: l2)%list ->
    forall q, In q l2 -> ~ isProperPrefix p q.

(** ** What the proofs about the reset go through *)

(** The flag and the entries left, as the specification reads them. *)
Definition resetAgrees (n : FsNode) : Prop :=
  forall parent,
    fst (fst (deleteNonHiddenFilesIn parent n)) = negb (existsb containsKept (dirEntries n)) /\
    snd (fst (deleteNonHiddenFilesIn parent n)) = flat_map keptPart (dirEntries n).

(** Where the paths of the loop lie: [filesToDelete] holds children of
    [parent], the nested calls delete strictly below a child. *)
Definition deletesBelow (n : FsNode) : Prop :=
  forall parent p, In p (snd (deleteNonHiddenFilesIn parent n)) -> isProperPrefix parent p.

(** The deletions of a directory without repeated names are in post-order. *)
Definition resetPostOrder (n : FsNode) : Prop :=
  uniqueNames n -> forall parent, postOrder (snd (deleteNonHiddenFilesIn parent n)).

(* ===================================================================== *)
(** * The disk, as the saver uses it *)
(* ===================================================================== *)

(** Modelled from the spec: the file system below [File] (juce_File.h is
    not part of the sources).  The disk is the list of the entries of its
    root; a path is followed component by component. *)
Fixpoint findEntry (name : string) (es : list FsNode) : option FsNode :=
  match es with
  | [] => None
  | e :: rest =>
      if String.eqb (getFileName e) name then Some e else findEntry name rest
  end.

(** Puts [n] in place of the entry of its name, or adds it. *)
Fixpoint setEntry (n : FsNode) (es : list FsNode) : list FsNode :=
  match es with
  | [] => [n]
  | e :: rest =>
      if String.eqb (getFileName e) (getFileName n) then n :: rest
      else e :: setEntry n rest
  end.

Definition removeEntry (name : string) (es : list FsNode) : list FsNode :=
  filter (fun e => negb (String.eqb (getFileName e) name)) es.

Definition entriesOf (name : string) (es : list FsNode) : list FsNode :=
  match findEntry name es with
  | Some n => dirEntries n
  | None => []
  end.

Fixpoint fs_find (f : File) (root : list FsNode) : option FsNode :=
  match f with
  | [] => None
  | c :: rest =>
      match rest with
      | [] => findEntry c root
      | _ => fs_find rest (entriesOf c root)
      end
  end.

(** [File::exists]: a file or a directory is there. *)
Definition fs_exists (f : File) (root : list FsNode) : bool :=
  match fs_find f root with
  | Some _ => true
  | None => false
  end.

Definition fs_isDirectory (f : File) (root : list FsNode) : bool :=
  match fs_find f root with
  | Some n => isFolder n
  | None => false
  end.

(** Puts the node [leaf c] at the path [f] whose last component is [c]; the
    directories on the way are created when they are missing. *)
Fixpoint fs_update (f : File) (leaf : string -> FsNode) (root : list FsNode)
  : list FsNode :=
  match f with
  | [] => root
  | c :: rest =>
      match rest with
      | [] => setEntry (leaf c) root
      | _ => setEntry (FsDir c (fs_update rest leaf (entriesOf c root))) root
      end
  end.

Definition fs_write (f : File) (data : string) (root : list FsNode) : list FsNode :=
  fs_update f (fun c => FsFile c data) root.

Fixpoint fs_remove (f : File) (root : list FsNode) : list FsNode :=
  match f with
  | [] => root
  | c :: rest =>
      match rest with
      | [] => removeEntry c root
      | _ =>
          match findEntry c root with
          | Some (FsDir _ sub) => setEntry (FsDir c (fs_remove rest sub)) root
          | _ => root
          end
      end
  end.

(** What the operating system lets the saver do: which directories can be
    created, which files can be written. *)
Record Permissions : Type := {
  canCreateDirectory : File -> bool;
  canWriteFile : File -> bool
}.

(** Modelled from the spec: [File::createDirectory], true when the
    directory is there afterwards (there before, or created with its
    parents); [canCreateDirectory] tells which of the two outcomes the
    operating system gives for a path; [None] is the failure. *)
Definition createDirectory (os : Permissions) (f : File) (root : list FsNode)
  : option (list FsNode) :=
  if canCreateDirectory os f then
    Some (if fs_isDirectory f root then root
          else fs_update f (fun c => FsDir c []) root)
  else None.

(** Modelled from the spec: the Stable File Writer,
    [FileHelpers::overwriteFileWithNewDataIfDifferent] (jucer_FileHelpers is
    not part of the sources): the bytes are written only when they differ
    from the file's or the file is absent; the result tells whether bytes
    were written; [None] is the failure. *)
Definition overwriteFileWithNewDataIfDifferent (os : Permissions) (f : File)
  (newData : string) (root : list FsNode) : option (list FsNode * bool) :=
  match fs_find f root with
  | Some (FsFile _ old) =>
      if String.eqb old newData then Some (root, false)
      else if canWriteFile os f then Some (fs_write f newData root, true)
      else None
  | _ =>
      if canWriteFile os f then Some (fs_write f newData root, true) else None
  end.

(* ===================================================================== *)
(** * Project::Item: the tree of the project's files *)
(* ===================================================================== *)

(** Modelled from the spec: [Project::Item] (jucer_Project.h is not part of
    the sources): an Item is a leaf for one file on disk, or a group of
    Items.  An invalid Item is the [None] of [option Item]. *)
Inductive Item : Type :=
| ItemFile (file : File) (shouldCompile : bool)
| ItemGroup (name : string) (id : string) (children : list Item).

Fixpoint Item_forall_ind (P : Item -> Prop)
  (Hfile : forall file c, P (ItemFile file c))
  (Hgroup : forall name id children, Forall P children -> P (ItemGroup name id children))
  (i : Item) {struct i} : P i :=
  match i with
  | ItemFile file c => Hfile file c
  | ItemGroup name id children =>
      Hgroup name id children
        ((fix all (l : list Item) : Forall P l :=
            match l with
            | [] => Forall_nil P
            | x :: l' => Forall_cons x (Item_forall_ind P Hfile Hgroup x) (all l')
            end) children)
  end.

(** Modelled from the spec: [Item::createGroup], a group without children,
    and [Item::setID]. *)
Definition createGroup (name uid : string) : Item := ItemGroup name uid [].

Definition setID (newID : string) (i : Item) : Item :=
  match i with
  | ItemFile _ _ => i
  | ItemGroup name _ children => ItemGroup name newID children
  end.

Definition getChildren (i : Item) : list Item :=
  match i with
  | ItemFile _ _ => []
  | ItemGroup _ _ children => children
  end.

Definition getNumChildren (i : Item) : nat := length (getChildren i).

(** The name an Item is sorted by: the file's name, the group's name. *)
Definition itemName (i : Item) : string :=
  match i with
  | ItemFile file _ => last file EmptyString
  | ItemGroup name _ _ => name
  end.

(** Modelled from the spec: [Item::findItemForFile], the Item for a file if
    there is one: the Item itself when it is the leaf of [file], else the
    first hit among its children, searched from the last one. *)
Fixpoint findItemForFile (i : Item) (file : File) : option Item :=
  match i with
  | ItemFile f _ => if File_eqb f file then Some i else None
  | ItemGroup _ _ children =>
      (fix search (l : list Item) : option Item :=
         match l with
         | [] => None
         | c :: rest =>
             match search rest with
             | Some found => Some found
             | None => findItemForFile c file
             end
         end) children
  end.

(** Modelled from the spec: [Item::addFile (file, -1, shouldCompile)], a new
    leaf for the file, appended to the group. *)
Definition addFile (group : Item) (file : File) (shouldCompile : bool) : Item :=
  match group with
  | ItemFile _ _ => group
  | ItemGroup name id children =>
      ItemGroup name id (children ++ [ItemFile file shouldCompile])
  end.

(** The files of all the leaves of an Item, in order. *)
Fixpoint itemFiles (i : Item) : list File :=
  match i with
  | ItemFile f _ => [f]
  | ItemGroup _ _ children => flat_map itemFiles children
  end.

(** How many leaves an Item has for [file]. *)
Definition countItemsFor (file : File) (i : Item) : nat :=
  length (filter (File_eqb file) (itemFiles i)).

(** Modelled from the spec: [String::toLowerCase], on ASCII letters. *)
Definition toLowerAscii (c : ascii) : ascii :=
  let n := nat_of_ascii c in
  if (65 <=? n)%nat && (n <=? 90)%nat then ascii_of_nat (n + 32) else c.

Fixpoint toLowerCase (s : string) : string :=
  match s with
  | EmptyString => EmptyString
  | String c rest => String (toLowerAscii c) (toLowerCase rest)
  end.

(** [String::compareIgnoreCase (a, b) <= 0]. *)
Definition nameLeb (a b : Item) : bool :=
  String.leb (toLowerCase (itemName a)) (toLowerCase (itemName b)).

Definition insertSorted (x : Item) : list Item -> list Item :=
  fix ins (l : list Item) : list Item :=
    match l with
    | [] => [x]
    | y :: rest => if nameLeb x y then x :: y :: rest else y :: ins rest
    end.

(** Modelled from the spec: [Item::sortAlphabetically]: the children in
    alphabetical order of their names, letter case ignored. *)
Definition sortAlphabetically (children : list Item) : list Item :=
  fold_right insertSorted [] children.

(** [sortGroupRecursively]: sorts the group, then each of its children.
    The recursion is written on the children before they are put in order
    (sorting looks at names only, which the recursion leaves as they are:
    see [sortGroupRecursively_unfold] for the order of the code). *)
Fixpoint sortGroupRecursively (group : Item) : Item :=
  match group with
  | ItemFile _ _ => group
  | ItemGroup name id children =>
      ItemGroup name id (sortAlphabetically (map sortGroupRecursively children))
  end.

(* ===================================================================== *)
(** * The project, its modules and its exporters *)
(* ===================================================================== *)

(** What a module does with the saver it is handed in [prepareExporter]:
    calls of the saver's public members. *)
Inductive SaverCall : Type :=
| CallSaveGeneratedFile (filePath : string) (newData : string)
| CallAddFileToGeneratedGroup (file : File)
| CallSetExtraAppConfigFileContent (content : string)
| CallReplaceFileIfDifferent (f : File) (newData : string).

(** Modelled from the spec: an exporter backend (jucer_ProjectExporter.h is
    not part of the sources).  [create] is handed the generated-files group;
    [Some message] is a thrown [ProjectExporter::SaveError]. *)
Record ProjectExporter : Type := {
  getName : string;
  getTargetFolder : File;
  create : Item -> option string
}.

Record ConfigFlag : Type := { symbol : string }.

(** Modelled from the spec: a module (jucer_Module.h is not part of the
    sources): its ID, the flags it exposes in their declared order, the
    text [writeIncludes] adds to the umbrella header, and the calls
    [prepareExporter] makes on the saver for a given exporter. *)
Record LibraryModule : Type := {
  getID : string;
  getConfigFlags : list ConfigFlag;
  writeIncludes : string;
  prepareExporter : ProjectExporter -> list SaverCall
}.

(** Modelled from the spec: the project description (jucer_Project.h is not
    part of the sources), without its file location, which the saver
    changes and which is part of the saver's state below. *)
Record Project : Type := {
  getProjectUID : string;
  getProjectName : string;
  getVersion : string;
  getVersionAsHex : string;
  getGeneratedCodeFolder : File;
  getAppConfigFilename : string;
  getJuceSourceHFilename : string;
  getConfigFlag : string -> string;
  (** the text of [getProjectRoot().createXml()] *)
  projectRootXml : string;
  (** [ResourceFile::getNumFiles] and the two files it writes *)
  numResourceFiles : nat;
  resourceCpp : string;
  resourceHeader : string;
  (** [getNumExporters] is the length, [createExporter i] the i-th *)
  exporters : list ProjectExporter;
  (** what [createRequiredModules] finds *)
  requiredModules : list LibraryModule
}.

(** Modelled from the spec: the values [Project::configFlagEnabled] and
    [Project::configFlagDisabled] of a flag; any other value is an unset
    flag. *)
Definition configFlagEnabled : string := "enabled".
Definition configFlagDisabled : string := "disabled".

(* ===================================================================== *)
(** * The state of a ProjectSaver *)
(* ===================================================================== *)

(** What a run does that can be seen from outside, in order. *)
Inductive Event : Type :=
| EvStdout (text : string)
| EvWritten (f : File)
| EvDeleted (f : File)
| EvExporterCreate (exporter : ProjectExporter) (group : Item).

(** The members of the class that change, the project's file location
    ([project.getFile()]), the disk, and the trace of events. *)
Record ProjectSaver : Type := mkProjectSaver {
  projectLocation : File;
  generatedFilesGroup : Item;
  extraAppConfigContent : string;
  errors : list string;
  appConfigFile : File;
  binaryDataCpp : File;
  disk : list FsNode;
  trace : list Event
}.

Definition setFile (f : File) (s : ProjectSaver) : ProjectSaver :=
  mkProjectSaver f (generatedFilesGroup s) (extraAppConfigContent s) (errors s)
    (appConfigFile s) (binaryDataCpp s) (disk s) (trace s).

Definition setGroup (g : Item) (s : ProjectSaver) : ProjectSaver :=
  mkProjectSaver (projectLocation s) g (extraAppConfigContent s) (errors s)
    (appConfigFile s) (binaryDataCpp s) (disk s) (trace s).

Definition setExtraAppConfigFileContent (content : string) (s : ProjectSaver)
  : ProjectSaver :=
  mkProjectSaver (projectLocation s) (generatedFilesGroup s) content (errors s)
    (appConfigFile s) (binaryDataCpp s) (disk s) (trace s).

(** [errors.add (message)]. *)
Definition addError (message : string) (s : ProjectSaver) : ProjectSaver :=
  mkProjectSaver (projectLocation s) (generatedFilesGroup s) (extraAppConfigContent s)
    (errors s ++ [message])%list (appConfigFile s) (binaryDataCpp s) (disk s) (trace s).

Definition setAppConfigFile (f : File) (s : ProjectSaver) : ProjectSaver :=
  mkProjectSaver (projectLocation s) (generatedFilesGroup s) (extraAppConfigContent s)
    (errors s) f (binaryDataCpp s) (disk s) (trace s).

Definition setBinaryDataCpp (f : File) (s : ProjectSaver) : ProjectSaver :=
  mkProjectSaver (projectLocation s) (generatedFilesGroup s) (extraAppConfigContent s)
    (errors s) (appConfigFile s) f (disk s) (trace s).

Definition setDisk (d : list FsNode) (s : ProjectSaver) : ProjectSaver :=
  mkProjectSaver (projectLocation s) (generatedFilesGroup s) (extraAppConfigContent s)
    (errors s) (appConfigFile s) (binaryDataCpp s) d (trace s).

Definition emit (e : Event) (s : ProjectSaver) : ProjectSaver :=
  mkProjectSaver (projectLocation s) (generatedFilesGroup s) (extraAppConfigContent s)
    (errors s) (appConfigFile s) (binaryDataCpp s) (disk s) (trace s ++ [e])%list.

(** [errors.size() == 0]. *)
Definition noErrors (s : ProjectSaver) : bool :=
  match errors s with
  | [] => true
  | _ :: _ => false
  end.

(* ===================================================================== *)
(** * Text *)
(* ===================================================================== *)

(** [out << text]: the stream is the text written so far. *)
Declare Scope stream_scope.
Delimit Scope stream_scope with stream.
Notation "out << text" := (String.append out text)
  (at level 40, left associativity) : stream_scope.
Open Scope stream_scope.

(** Modelled from the spec: JUCE's [newLine], carriage return and line
    feed. *)
Definition newLine : string :=
  String (ascii_of_nat 13) (String (ascii_of_nat 10) EmptyString).

Definition doubleQuote : string := String (ascii_of_nat 34) EmptyString.

(** Modelled from the spec: [String::toUpperCase], on ASCII letters. *)
Definition toUpperAscii (c : ascii) : ascii :=
  let n := nat_of_ascii c in
  if (97 <=? n)%nat && (n <=? 122)%nat then ascii_of_nat (n - 32) else c.

Fixpoint toUpperCase (s : string) : string :=
  match s with
  | EmptyString => EmptyString
  | String c rest => String (toUpperAscii c) (toUpperCase rest)
  end.

Definition isWhitespace (c : ascii) : bool :=
  let n := nat_of_ascii c in
  (n =? 32)%nat || ((9 <=? n)%nat && (n <=? 13)%nat).

(** Modelled from the spec: [String::trimEnd], the string without the white
    space at its end. *)
Fixpoint trimEnd (s : string) : string :=
  match s with
  | EmptyString => EmptyString
  | String c rest =>
      match trimEnd rest with
      | EmptyString => if isWhitespace c then EmptyString else String c EmptyString
      | kept => String c kept
      end
  end.

Definition isNotEmpty (s : string) : bool :=
  match s with
  | EmptyString => false
  | String _ _ => true
  end.

(** Modelled from the spec: [String::repeatedString], nothing for a count
    of zero or less. *)
Definition repeatedString (stringToRepeat : string) (numberOfTimesToRepeat : Z) : string :=
  String.concat EmptyString (repeat stringToRepeat (Z.to_nat numberOfTimesToRepeat)).

(** [String::length], as an int. *)
Definition lengthOf (s : string) : Z := Z.of_nat (String.length s).

(** [String::quoted]. *)
Definition quoted (s : string) : string := doubleQuote ++ s ++ doubleQuote.

(** Modelled from the spec: [CodeHelpers::addEscapeChars] (jucer_CodeHelpers
    is not part of the sources): a backslash before a double quote and
    before a backslash. *)
Fixpoint addEscapeChars (s : string) : string :=
  match s with
  | EmptyString => EmptyString
  | String c rest =>
      if ((nat_of_ascii c =? 34) || (nat_of_ascii c =? 92))%nat
      then String (ascii_of_nat 92) (String c (addEscapeChars rest))
      else String c (addEscapeChars rest)
  end.

(** Modelled from the spec: [CodeHelpers::createIncludeStatement] for a
    file name. *)
Definition createIncludeStatement (includeFile : string) : string :=
  "#include " ++ quoted includeFile.

(** Modelled from the spec: [CodeHelpers::createIncludeStatement] for a
    file, relative to the file that includes it: the name of the file when
    both lie in one folder, its full path otherwise. *)
Definition createIncludeStatementFrom (includeFile targetFile : File) : string :=
  createIncludeStatement
    (if File_eqb (removelast includeFile) (removelast targetFile)
     then last includeFile EmptyString
     else getFullPathName includeFile).

(** The characters of a file name before its last dot. *)
Fixpoint upToLastDot (s : string) : option string :=
  match s with
  | EmptyString => None
  | String c rest =>
      match upToLastDot rest with
      | Some before => Some (String c before)
      | None => if (nat_of_ascii c =? 46)%nat then Some EmptyString else None
      end
  end.

(** Modelled from the spec: [File::withFileExtension]. *)
Definition withFileExtension (f : File) (newExtension : string) : File :=
  match f with
  | [] => []
  | _ =>
      let fileName := last f EmptyString in
      let filePart := match upToLastDot fileName with
                      | Some before => before
                      | None => fileName
                      end in
      let dot := match newExtension with
                 | EmptyString => EmptyString
                 | String c _ => if (nat_of_ascii c =? 46)%nat then EmptyString else "."
                 end in
      getChildFile (removelast f) (filePart ++ dot ++ newExtension)
  end.

(* ===================================================================== *)
(** * The members of ProjectSaver *)
(* ===================================================================== *)

Section ProjectSaverMembers.

(** What the constructor is given, and the permissions of the disk. *)
Variable project : Project.
Variable projectFile : File.
Variable os : Permissions.

Definition generatedCodeFolder : File := getGeneratedCodeFolder project.

Definition getJuceCodeGroupName : string := "Juce Library Code".
Definition getGeneratedGroupID : string := "__jucelibfiles".

(** The constructor, on the project's present location and the disk: a new
    generated-files group, and the generated-code folder cleared when it
    exists. *)
Definition newProjectSaver (location : File) (d : list FsNode) : ProjectSaver :=
  let generatedFilesGroup :=
    setID getGeneratedGroupID (createGroup getJuceCodeGroupName "__generatedcode__") in
  let cleared :=
    match fs_find generatedCodeFolder d with
    | Some (FsDir name entries) =>
        let r := deleteNonHiddenFilesIn generatedCodeFolder (FsDir name entries) in
        (fs_update generatedCodeFolder (fun c => FsDir c (resetLeft r)) d,
         map EvDeleted (resetLog r))
    | _ => (d, [])
    end in
  mkProjectSaver location generatedFilesGroup EmptyString [] [] []
    (fst cleared) (snd cleared).

(** The condition of the [jassert] at the top of [save]. *)
Definition saveAssertion (s : ProjectSaver) : bool :=
  (getNumChildren (generatedFilesGroup s) =? 0)%nat.

Definition replaceFileIfDifferent (f : File) (newData : string) (s : ProjectSaver)
  : bool * ProjectSaver :=
  match overwriteFileWithNewDataIfDifferent os f newData (disk s) with
  | None => (false, addError ("Can't write to file: " ++ getFullPathName f) s)
  | Some (d, written) =>
      (true, if written then emit (EvWritten f) (setDisk d s) else setDisk d s)
  end.

Definition addFileToGeneratedGroup (file : File) (s : ProjectSaver)
  : option Item * ProjectSaver :=
  match findItemForFile (generatedFilesGroup s) file with
  | Some item => (Some item, s)
  | None =>
      let s' := setGroup (addFile (generatedFilesGroup s) file true) s in
      (findItemForFile (generatedFilesGroup s') file, s')
  end.

Definition saveGeneratedFile (filePath : string) (newData : string) (s : ProjectSaver)
  : option Item * ProjectSaver :=
  match createDirectory os generatedCodeFolder (disk s) with
  | None =>
      (None, addError ("Couldn't create folder: " ++ getFullPathName generatedCodeFolder) s)
  | Some d =>
      let s := setDisk d s in
      let file := getChildFile generatedCodeFolder filePath in
      let '(ok, s) := replaceFileIfDifferent file newData s in
      if ok then addFileToGeneratedGroup file s else (None, s)
  end.

Definition writeAutoGenWarningComment (out : string) : string :=
  out << "/*" << newLine << newLine
      << "    IMPORTANT! This file is auto-generated each time you save your" << newLine
      << "    project - if you alter its contents, your changes may be overwritten!" << newLine
      << newLine.

Definition writeMainProjectFile (s : ProjectSaver) : ProjectSaver :=
  let mo := projectRootXml project in
  snd (replaceFileIfDifferent projectFile mo s).

(** The loop of [findLongestModuleName], from the last index down. *)
Fixpoint findLongestModuleName_loop (modules : list LibraryModule) (i : nat)
  (longest : Z) : Z :=
  match i with
  | O => longest
  | S j =>
      match nth_error modules j with
      | Some m => findLongestModuleName_loop modules j (Z.max longest (lengthOf (getID m)))
      | None => findLongestModuleName_loop modules j longest
      end
  end.

Definition findLongestModuleName (modules : list LibraryModule) : Z :=
  findLongestModuleName_loop modules (length modules) 0.

Definition ruler : string :=
  "//==============================================================================".

(** The line of one module in the first loop of [writeAppConfig]. *)
Definition writeModuleAvailable (longestName : Z) (m : LibraryModule) (out : string)
  : string :=
  out << "#define JUCE_MODULE_AVAILABLE_" << getID m
      << repeatedString " " (longestName + 5 - lengthOf (getID m)) << " 1" << newLine.

(** The line of one flag in the inner loop of [writeAppConfig]. *)
Definition writeConfigFlag (f : ConfigFlag) (out : string) : string :=
  let value := getConfigFlag project (symbol f) in
  (if String.eqb value configFlagEnabled then
     out << "#define    " << symbol f << " 1"
   else if String.eqb value configFlagDisabled then
     out << "#define    " << symbol f << " 0"
   else
     out << "//#define  " << symbol f)
  << newLine.

(** The second loop of [writeAppConfig], from the index [j] on; [numModules]
    is [modules.size()]. *)
Fixpoint writeModuleFlags (numModules : Z) (j : Z) (modules : list LibraryModule)
  (out : string) : string :=
  match modules with
  | [] => out
  | m :: rest =>
      let flags := getConfigFlags m in
      let out :=
        if (0 <? Z.of_nat (length flags))%Z then
          let out := out << ruler << newLine
                         << "// " << getID m << " flags:" << newLine
                         << newLine in
          let out := fold_left (fun o f => writeConfigFlag f o) flags out in
          if (j <? numModules - 1)%Z then out << newLine else out
        else out in
      writeModuleFlags numModules (j + 1) rest out
  end.

Definition writeAppConfig (modules : list LibraryModule) (s : ProjectSaver)
  (out : string) : string :=
  let out := writeAutoGenWarningComment out in
  let out := out
      << "    If you want to change any of these values, use the Introjucer to do so," << newLine
      << "    rather than editing this file directly!" << newLine
      << newLine
      << "    Any commented-out settings will assume their default values." << newLine
      << newLine
      << "*/" << newLine
      << newLine in
  let headerGuard := "__JUCE_APPCONFIG_" ++ toUpperCase (getProjectUID project) ++ "__" in
  let out := out
      << "#ifndef " << headerGuard << newLine
      << "#define " << headerGuard << newLine
      << newLine
      << ruler << newLine in
  let longestName := findLongestModuleName modules in
  let out := fold_left (fun o m => writeModuleAvailable longestName m o) modules out in
  let out := out << newLine in
  let out := writeModuleFlags (Z.of_nat (length modules)) 0 modules out in
  let out :=
    if isNotEmpty (extraAppConfigContent s)
    then out << newLine << trimEnd (extraAppConfigContent s) << newLine
    else out in
  out << newLine
      << "#endif  // " << headerGuard << newLine.

Definition writeAppConfigFile (modules : list LibraryModule) (s : ProjectSaver)
  : ProjectSaver :=
  let s := setAppConfigFile (getChildFile generatedCodeFolder (getAppConfigFilename project)) s in
  let mem := writeAppConfig modules s EmptyString in
  snd (saveGeneratedFile (getAppConfigFilename project) mem s).

(** [writeAppHeader (OutputStream&, modules)]. *)
Definition writeAppHeader (modules : list LibraryModule) (s : ProjectSaver)
  (out : string) : string :=
  let out := writeAutoGenWarningComment out in
  let out := out
      << "    This is the header file that your files should include in order to get all the" << newLine
      << "    JUCE library headers. You should avoid including the JUCE headers directly in" << newLine
      << "    your own source files, because that wouldn't pick up the correct configuration" << newLine
      << "    options for your app." << newLine
      << newLine
      << "*/" << newLine << newLine in
  let headerGuard := "__APPHEADERFILE_" ++ toUpperCase (getProjectUID project) ++ "__" in
  let out := out
      << "#ifndef " << headerGuard << newLine
      << "#define " << headerGuard << newLine << newLine in
  let out :=
    if fs_exists (appConfigFile s) (disk s)
    then out << createIncludeStatement (getAppConfigFilename project) << newLine
    else out in
  let out := fold_left (fun o m => o << writeIncludes m) modules out in
  let out :=
    if fs_exists (binaryDataCpp s) (disk s)
    then out << createIncludeStatementFrom (withFileExtension (binaryDataCpp s) ".h")
                                           (appConfigFile s) << newLine
    else out in
  out << newLine
      << "#if ! DONT_SET_USING_JUCE_NAMESPACE" << newLine
      << " // If your code uses a lot of JUCE classes, then this will obviously save you" << newLine
      << " // a lot of typing, but can be disabled by setting DONT_SET_USING_JUCE_NAMESPACE." << newLine
      << " using namespace juce;" << newLine
      << "#endif" << newLine
      << newLine
      << "namespace ProjectInfo" << newLine
      << "{" << newLine
      << "    const char* const  projectName    = " << quoted (addEscapeChars (getProjectName project)) << ";" << newLine
      << "    const char* const  versionString  = " << quoted (addEscapeChars (getVersion project)) << ";" << newLine
      << "    const int          versionNumber  = " << getVersionAsHex project << ";" << newLine
      << "}" << newLine
      << newLine
      << "#endif   // " << headerGuard << newLine.

(** [writeAppHeader (modules)]. *)
Definition writeAppHeaderFile (modules : list LibraryModule) (s : ProjectSaver)
  : ProjectSaver :=
  let mem := writeAppHeader modules s EmptyString in
  snd (saveGeneratedFile (getJuceSourceHFilename project) mem s).

(** [File::deleteFile], taken to succeed. *)
Definition deleteFile (f : File) (s : ProjectSaver) : ProjectSaver :=
  if fs_exists f (disk s)
  then emit (EvDeleted f) (setDisk (fs_remove f (disk s)) s)
  else s.

(** Modelled from the spec: [ResourceFile::write] (jucer_ResourceFile.h is
    not part of the sources): the source file and its header, each through
    the stable writer; false as soon as one fails. *)
Definition resourceFileWrite (cppFile : File) (s : ProjectSaver) : bool * ProjectSaver :=
  match overwriteFileWithNewDataIfDifferent os cppFile (resourceCpp project) (disk s) with
  | None => (false, s)
  | Some (d, written) =>
      let s := if written then emit (EvWritten cppFile) (setDisk d s) else setDisk d s in
      let header := withFileExtension cppFile ".h" in
      match overwriteFileWithNewDataIfDifferent os header (resourceHeader project) (disk s) with
      | None => (false, s)
      | Some (d, written) =>
          (true, if written then emit (EvWritten header) (setDisk d s) else setDisk d s)
      end
  end.

Definition writeBinaryDataFiles (s : ProjectSaver) : ProjectSaver :=
  let s := setBinaryDataCpp (getChildFile generatedCodeFolder "BinaryData.cpp") s in
  if (0 <? numResourceFiles project)%nat then
    let '(ok, s) := resourceFileWrite (binaryDataCpp s) s in
    if ok then
      let s := setGroup (addFile (generatedFilesGroup s) (binaryDataCpp s) true) s in
      setGroup (addFile (generatedFilesGroup s)
                  (withFileExtension (binaryDataCpp s) ".h") false) s
    else
      addError ("Can't create binary resources file: " ++ getFullPathName (binaryDataCpp s)) s
  else
    let s := deleteFile (binaryDataCpp s) s in
    deleteFile (withFileExtension (binaryDataCpp s) "h") s.

Definition readmeText : string :=
  EmptyString
      << newLine
      << " Important Note!!" << newLine
      << " ================" << newLine
      << newLine
      << "The purpose of this folder is to contain files that are auto-generated by the Introjucer," << newLine
      << "and ALL files in this folder will be mercilessly DELETED and completely re-written whenever" << newLine
      << "the Introjucer saves your project." << newLine
      << newLine
      << "Therefore, it's a bad idea to make any manual changes to the files in here, or to" << newLine
      << "put any of your own files in here if you don't want to lose them. (Of course you may choose" << newLine
      << "to add the folder's contents to your version-control system so that you can re-merge your own" << newLine
      << "modifications after the Introjucer has saved its changes)." << newLine.

Definition writeReadmeFile (s : ProjectSaver) : ProjectSaver :=
  snd (replaceFileIfDifferent (getChildFile generatedCodeFolder "ReadMe.txt") readmeText s).

(** One call a module makes on the saver. *)
Definition runCall (c : SaverCall) (s : ProjectSaver) : ProjectSaver :=
  match c with
  | CallSaveGeneratedFile filePath newData => snd (saveGeneratedFile filePath newData s)
  | CallAddFileToGeneratedGroup file => snd (addFileToGeneratedGroup file s)
  | CallSetExtraAppConfigFileContent content => setExtraAppConfigFileContent content s
  | CallReplaceFileIfDifferent f newData => snd (replaceFileIfDifferent f newData s)
  end.

(** The call of [prepareExporter] on one module, with the exporter and the
    saver. *)
Definition modulePrepareExporter (exporter : ProjectExporter) (s : ProjectSaver)
  (m : LibraryModule) : ProjectSaver :=
  fold_left (fun st c => runCall c st) (prepareExporter m exporter) s.

(** The body of the loop of [writeProjects] for one exporter.  What
    [addToExtraSearchPaths] and the project type's [prepareExporter] do
    stays inside the exporter. *)
Definition writeProject (modules : list LibraryModule) (originalGeneratedGroup : Item)
  (exporter : ProjectExporter) (s : ProjectSaver) : ProjectSaver :=
  let s := emit (EvStdout ("Writing files for: " ++ getName exporter)) s in
  match createDirectory os (getTargetFolder exporter) (disk s) with
  | Some d =>
      let s := setDisk d s in
      let s := setGroup originalGeneratedGroup s in
      let s := fold_left (modulePrepareExporter exporter) modules s in
      let s := setGroup (sortGroupRecursively (generatedFilesGroup s)) s in
      let s := emit (EvExporterCreate exporter (generatedFilesGroup s)) s in
      match create exporter (generatedFilesGroup s) with
      | Some message => addError message s
      | None => s
      end
  | None =>
      addError ("Can't create folder: " ++ getFullPathName (getTargetFolder exporter)) s
  end.

(** The loop of [writeProjects]: [for (int i = n; --i >= 0;)]. *)
Fixpoint writeProjects_loop (modules : list LibraryModule) (originalGeneratedGroup : Item)
  (i : nat) (s : ProjectSaver) : ProjectSaver :=
  match i with
  | O => s
  | S j =>
      match nth_error (exporters project) j with
      | Some exporter =>
          writeProjects_loop modules originalGeneratedGroup j
            (writeProject modules originalGeneratedGroup exporter s)
      | None => writeProjects_loop modules originalGeneratedGroup j s
      end
  end.

Definition writeProjects (modules : list LibraryModule) (s : ProjectSaver) : ProjectSaver :=
  let originalGeneratedGroup := generatedFilesGroup s in
  writeProjects_loop modules originalGeneratedGroup (length (exporters project)) s.

(** [save], up to and including [writeBinaryDataFiles]. *)
Definition saveBeforeHeader (s : ProjectSaver) : ProjectSaver :=
  let s := setFile projectFile s in
  let s := writeMainProjectFile s in
  let modules := requiredModules project in
  let s := if noErrors s then writeAppConfigFile modules s else s in
  if noErrors s then writeBinaryDataFiles s else s.

(** [save], up to and including [writeAppHeader (modules)]. *)
Definition saveBeforeProjects (s : ProjectSaver) : ProjectSaver :=
  let modules := requiredModules project in
  let s := saveBeforeHeader s in
  if noErrors s then writeAppHeaderFile modules s else s.

(** [save], up to and including [writeReadmeFile]. *)
Definition saveFiles (s : ProjectSaver) : ProjectSaver :=
  let modules := requiredModules project in
  let s := saveBeforeProjects s in
  let s := if noErrors s then writeProjects modules s else s in
  let s := if noErrors s then writeAppConfigFile modules s else s in
  if fs_exists generatedCodeFolder (disk s) && noErrors s then writeReadmeFile s else s.

(** [save]: the returned string and the state it leaves.  [errors[0]] is
    the empty string when there is no error. *)
Definition save (s : ProjectSaver) : string * ProjectSaver :=
  let oldFile := projectLocation s in
  let s := saveFiles s in
  let s := if negb (noErrors s) then setFile oldFile s else s in
  (nth 0 (errors s) EmptyString, s).

End ProjectSaverMembers.

(* ===================================================================== *)
(** * What the properties are stated with *)
(* ===================================================================== *)

Definition isGroup (i : Item) : bool :=
  match i with
  | ItemFile _ _ => false
  | ItemGroup _ _ _ => true
  end.

(** The exporters whose [create] was called, in the order of the calls,
    each with the group it was handed. *)
Fixpoint handedGroups (t : list Event) : list (ProjectExporter * Item) :=
  match t with
  | [] => []
  | EvExporterCreate exporter group :: rest => (exporter, group) :: handedGroups rest
  | _ :: rest => handedGroups rest
  end.

(** The exporters whose [create] was called, in the order of the calls. *)
Definition exporterCalls (t : list Event) : list ProjectExporter :=
  map fst (handedGroups t).

(** Whether an Item has a leaf for [file]. *)
Definition containsFile (i : Item) (file : File) : bool :=
  existsb (File_eqb file) (itemFiles i).

(** The files whose bytes were written, in order. *)
Fixpoint writtenFiles (t : list Event) : list File :=
  match t with
  | [] => []
  | EvWritten f :: rest => f :: writtenFiles rest
  | _ :: rest => writtenFiles rest
  end.

(** The files a call asks the saver to register in the generated group. *)
Definition callTarget (generatedCodeFolder : File) (c : SaverCall) : list File :=
  match c with
  | CallSaveGeneratedFile filePath _ => [getChildFile generatedCodeFolder filePath]
  | CallAddFileToGeneratedGroup file => [file]
  | CallSetExtraAppConfigFileContent _ => []
  | CallReplaceFileIfDifferent _ _ => []
  end.

(** The files the modules ask to register while they prepare [exporter]. *)
Definition registeredFor (project : Project) (modules : list LibraryModule)
  (exporter : ProjectExporter) : list File :=
  flat_map (fun m => flat_map (callTarget (generatedCodeFolder project))
                              (prepareExporter m exporter)) modules.

(** Whether [createDirectory] succeeds on the exporter's target folder. *)
Definition targetFolderCreated (os : Permissions) (exporter : ProjectExporter) : bool :=
  canCreateDirectory os (getTargetFolder exporter).

(** The message of [writeProjects] for a target folder it cannot create. *)
Definition cantCreateFolder (exporter : ProjectExporter) : string :=
  "Can't create folder: " ++ getFullPathName (getTargetFolder exporter).

(** [steady s s']: from [s] to [s'] the project's location is the same and
    errors were only added. *)
Definition steady (s s' : ProjectSaver) : Prop :=
  projectLocation s' = projectLocation s /\
  exists added, errors s' = (errors s ++ added)%list.

(** [quiet s s']: moreover no exporter was called. *)
Definition quiet (s s' : ProjectSaver) : Prop :=
  steady s s' /\ handedGroups (trace s') = handedGroups (trace s).

(** [registers targets s s']: from [s] to [s'] the generated-files group
    stays a group that keeps its files, gets no file outside [targets], and
    gets no file twice. *)
Definition registers (targets : list File) (s s' : ProjectSaver) : Prop :=
  (isGroup (generatedFilesGroup s) = true -> isGroup (generatedFilesGroup s') = true) /\
  incl (itemFiles (generatedFilesGroup s)) (itemFiles (generatedFilesGroup s')) /\
  (forall f, In f (itemFiles (generatedFilesGroup s')) ->
             In f (itemFiles (generatedFilesGroup s)) \/ In f targets) /\
  (isGroup (generatedFilesGroup s) = true ->
   NoDup (itemFiles (generatedFilesGroup s)) -> NoDup (itemFiles (generatedFilesGroup s'))).

(** [keepsSnapshot g st]: the group of [st] is a group that has the files of
    the snapshot [g], and no file twice if [g] has none twice. *)
Definition keepsSnapshot (g : Item) (st : ProjectSaver) : Prop :=
  isGroup (generatedFilesGroup st) = true /\
  incl (itemFiles g) (itemFiles (generatedFilesGroup st)) /\
  (NoDup (itemFiles g) -> NoDup (itemFiles (generatedFilesGroup st))).

(** Whether BinaryData.cpp and the configuration header are on the disk
    when the umbrella header is rendered in a run of [save]: the first is
    there when the project has resources (it is written then, and deleted
    otherwise), the second unless it bears one of the two BinaryData names
    and was deleted with them. *)
Definition binaryDataExpected (project : Project) : bool :=
  (0 <? numResourceFiles project)%nat.

Definition appConfigExpected (project : Project) : bool :=
  binaryDataExpected project ||
  negb (String.eqb (getAppConfigFilename project) "BinaryData.cpp" ||
        String.eqb (getAppConfigFilename project) "BinaryData.h").

(** The extra content of the configuration header after a call of a
    module, after the preparation of an exporter, and after the turns of all
    the exporters. *)
Definition extraAfterCall (c : SaverCall) (extra : string) : string :=
  match c with
  | CallSetExtraAppConfigFileContent content => content
  | _ => extra
  end.

Definition extraAfterExporter (modules : list LibraryModule)
  (exporter : ProjectExporter) (extra : string) : string :=
  fold_left (fun x m => fold_left (fun y c => extraAfterCall c y)
                                  (prepareExporter m exporter) x)
            modules extra.

Definition extraAfterExporters (project : Project) (modules : list LibraryModule)
  (extra : string) : string :=
  fold_left (fun x e => extraAfterExporter modules e x) (rev (exporters project)) extra.

(** The files [save] itself registers in the generated-files group: the
    configuration header, the two BinaryData files when the project has
    resources, the umbrella header. *)
Definition registeredBySave (project : Project) : list File :=
  let folder := generatedCodeFolder project in
  ([getChildFile folder (getAppConfigFilename project)]
     ++ (if (0 <? numResourceFiles project)%nat
         then [getChildFile folder "BinaryData.cpp"; getChildFile folder "BinaryData.h"]
         else [])
     ++ [getChildFile folder (getJuceSourceHFilename project)])%list.

(** The files registered for the exporter that runs last, the first
    declared one. *)
Definition registeredForLast (project : Project) (modules : list LibraryModule)
  : list File :=
  match exporters project with
  | [] => []
  | first :: _ => registeredFor project modules first
  end.

(** ** The configuration header, as the specification describes it *)

(** The line of a flag, without its end of line. *)
Definition flagLine (project : Project) (f : ConfigFlag) : string :=
  let value := getConfigFlag project (symbol f) in
  if String.eqb value configFlagEnabled then "#define    " ++ symbol f ++ " 1"
  else if String.eqb value configFlagDisabled then "#define    " ++ symbol f ++ " 0"
  else "//#define  " ++ symbol f.

(** The line of a module's availability macro, without its end of line. *)
Definition availabilityLine (longestName : Z) (m : LibraryModule) : string :=
  "#define JUCE_MODULE_AVAILABLE_" ++ getID m
    ++ repeatedString " " (longestName + 5 - lengthOf (getID m)) ++ " 1".

Fixpoint joinLines (ls : list string) : string :=
  match ls with
  | [] => EmptyString
  | l :: rest => l ++ newLine ++ joinLines rest
  end.

(** The section of a module: nothing for a module without flags; else a
    ruler, the module's comment, an empty line, one line per flag in the
    declared order, and an empty line unless the module is the last one. *)
Definition flagSection (project : Project) (isLast : bool) (m : LibraryModule) : string :=
  match getConfigFlags m with
  | [] => EmptyString
  | flags =>
      joinLines ([ruler; ("// " ++ getID m ++ " flags:")%string; EmptyString]
                 ++ map (flagLine project) flags
                 ++ (if isLast then [] else [EmptyString]))%list
  end.

Fixpoint flagSections (project : Project) (modules : list LibraryModule) : string :=
  match modules with
  | [] => EmptyString
  | m :: rest =>
      flagSection project (match rest with [] => true | _ => false end) m
        ++ flagSections project rest
  end.

Definition configGuard (project : Project) : string :=
  "__JUCE_APPCONFIG_" ++ toUpperCase (getProjectUID project) ++ "__".

(** What stands before the availability macros. *)
Definition configProlog (project : Project) : string :=
  joinLines
    [ "/*"; EmptyString;
      "    IMPORTANT! This file is auto-generated each time you save your";
      "    project - if you alter its contents, your changes may be overwritten!";
      EmptyString;
      "    If you want to change any of these values, use the Introjucer to do so,";
      "    rather than editing this file directly!";
      EmptyString;
      "    Any commented-out settings will assume their default values.";
      EmptyString;
      "*/";
      EmptyString;
      "#ifndef " ++ configGuard project;
      "#define " ++ configGuard project;
      EmptyString;
      ruler ].

(** What stands after the flags: the user's extra content, if any, and the
    end of the include guard. *)
Definition configEpilog (project : Project) (extra : string) : string :=
  (if isNotEmpty extra then newLine ++ trimEnd extra ++ newLine else EmptyString)
    ++ newLine ++ "#endif  // " ++ configGuard project ++ newLine.

(** The lines of a text: what stands between its ends of line. *)
Fixpoint textLines_from (current : string) (s : string) : list string :=
  match s with
  | EmptyString => [current]
  | String c rest =>
      match rest with
      | String c' rest' =>
          if ((nat_of_ascii c =? 13) && (nat_of_ascii c' =? 10))%nat
          then current :: textLines_from EmptyString rest'
          else textLines_from (current ++ String c EmptyString) rest
      | EmptyString => [current ++ String c EmptyString]
      end
  end.

Definition textLines (s : string) : list string := textLines_from EmptyString s.

(** How many lines of [text] are exactly [line]. *)
Definition countLines (line : string) (text : string) : nat :=
  length (filter (String.eqb line) (textLines text)).

(** Case analysis on what a [match] of the goal looks at. *)
Ltac break_match :=
  match goal with
  | |- context [match ?x with _ => _ end] => destruct x eqn:?
  end.


(* ===================================================================== *)
(** * The projects of the examples *)
(* ===================================================================== *)

(** The folder of the specification's example: a stale generated file, a
    .svn directory, and a sub-folder of generated files. *)
Definition staleFolder : FsNode :=
  FsDir "JuceLibraryCode"
    [ FsFile "AppConfig.h" "stale";
      FsDir ".svn" [FsFile "entries" "12"; FsFile "old.h" "x"];
      FsDir "modules" [FsFile "juce_core.cpp" "x"; FsDir "sub" [FsFile "y.h" "y"]] ].

(** The modules of the specification's example: M1 with the flags A
    (enabled) and B (unset), M2 with the flag C (disabled). *)
Definition moduleM1 : LibraryModule :=
  {| getID := "juce_core";
     getConfigFlags := [ {| symbol := "A" |}; {| symbol := "B" |} ];
     writeIncludes := "#include <juce_core.h>" ++ newLine;
     prepareExporter := fun _ => [] |}.

Definition moduleM2 : LibraryModule :=
  {| getID := "juce_gui";
     getConfigFlags := [ {| symbol := "C" |} ];
     writeIncludes := "#include <juce_gui.h>" ++ newLine;
     prepareExporter := fun _ => [] |}.

Definition exampleFlags (sym : string) : string :=
  if String.eqb sym "A" then "enabled"
  else if String.eqb sym "C" then "disabled"
  else "default".

Definition exampleProject : Project :=
  {| getProjectUID := "abc123";
     getProjectName := "Demo";
     getVersion := "1.0.0";
     getVersionAsHex := "0x10000";
     getGeneratedCodeFolder := ["proj"; "JuceLibraryCode"];
     getAppConfigFilename := "AppConfig.h";
     getJuceSourceHFilename := "JuceHeader.h";
     getConfigFlag := exampleFlags;
     projectRootXml := "<JUCERPROJECT/>";
     numResourceFiles := 0;
     resourceCpp := "cpp";
     resourceHeader := "h";
     exporters := [];
     requiredModules := [moduleM1; moduleM2] |}.

Definition allowAll : Permissions :=
  {| canCreateDirectory := fun _ => true; canWriteFile := fun _ => true |}.

Definition projectLocationBefore : File := ["home"; "old"; "Demo.jucer"].
Definition targetFile : File := ["proj"; "Demo.jucer"].

(** A saver fresh from the constructor, on an empty disk. *)
Definition freshSaver : ProjectSaver :=
  newProjectSaver exampleProject projectLocationBefore [].

(** Three exporters, in the declared order XCode, VisualStudio, Linux. *)
Definition exporterXCode : ProjectExporter :=
  {| getName := "XCode";
     getTargetFolder := ["proj"; "Builds"; "MacOSX"];
     create := fun _ => None |}.

Definition exporterVisualStudio : ProjectExporter :=
  {| getName := "VisualStudio";
     getTargetFolder := ["proj"; "Builds"; "VisualStudio"];
     create := fun _ => None |}.

Definition exporterLinux : ProjectExporter :=
  {| getName := "Linux";
     getTargetFolder := ["proj"; "Builds"; "Linux"];
     create := fun _ => None |}.

(** A module that registers one more file when it prepares the Linux
    exporter, and none for any other exporter. *)
Definition moduleLinuxOnly : LibraryModule :=
  {| getID := "juce_linux";
     getConfigFlags := [];
     writeIncludes := EmptyString;
     prepareExporter := fun exporter =>
       if String.eqb (getName exporter) "Linux"
       then [CallSaveGeneratedFile "linux_only.cpp" "x"]
       else [] |}.

Definition projectWith (exps : list ProjectExporter) (mods : list LibraryModule)
  (resources : nat) : Project :=
  {| getProjectUID := "abc123";
     getProjectName := "Demo";
     getVersion := "1.0.0";
     getVersionAsHex := "0x10000";
     getGeneratedCodeFolder := ["proj"; "JuceLibraryCode"];
     getAppConfigFilename := "AppConfig.h";
     getJuceSourceHFilename := "JuceHeader.h";
     getConfigFlag := exampleFlags;
     projectRootXml := "<JUCERPROJECT/>";
     numResourceFiles := resources;
     resourceCpp := "cpp";
     resourceHeader := "h";
     exporters := exps;
     requiredModules := mods |}.

Definition twoExporters : Project :=
  projectWith [exporterXCode; exporterLinux] [moduleLinuxOnly] 0.

Definition threeExporters : Project :=
  projectWith [exporterXCode; exporterVisualStudio; exporterLinux] [moduleM1] 0.

Definition withResources : Project := projectWith [exporterXCode] [moduleM1; moduleM2] 2.

(** Everything can be written, and every folder created but the target
    folder of the VisualStudio exporter. *)
Definition noVisualStudioFolder : Permissions :=
  {| canCreateDirectory := fun f => negb (File_eqb f ["proj"; "Builds"; "VisualStudio"]);
     canWriteFile := fun _ => true |}.

Definition readmeFile : File := ["proj"; "JuceLibraryCode"; "ReadMe.txt"].
Definition linuxOnlyFile : File := ["proj"; "JuceLibraryCode"; "linux_only.cpp"].

(* ===================================================================== *)
(** * Further observations on a run *)
(* ===================================================================== *)

(** [pathsDiverge p q]: the two paths part at some component, so that
    neither lies at or below the other. *)
Fixpoint pathsDiverge (p q : File) : bool :=
  match p, q with
  | a :: p', b :: q' => if String.eqb a b then pathsDiverge p' q' else true
  | _, _ => false
  end.

(** The lines written to the standard output, in order. *)
Fixpoint stdoutLines (t : list Event) : list string :=
  match t with
  | [] => []
  | EvStdout text :: rest => text :: stdoutLines rest
  | _ :: rest => stdoutLines rest
  end.

(** The files deleted, in order. *)
Fixpoint deletedFiles (t : list Event) : list File :=
  match t with
  | [] => []
  | EvDeleted f :: rest => f :: deletedFiles rest
  | _ :: rest => deletedFiles rest
  end.

(** The line [writeProjects] prints for an exporter. *)
Definition announcement (exporter : ProjectExporter) : string :=
  "Writing files for: " ++ getName exporter.

(** [oneErrorOf messages s s']: from [s] to [s'] no error was added, or one
    error, out of [messages]. *)
Definition oneErrorOf (messages : list string) (s s' : ProjectSaver) : Prop :=
  errors s' = errors s \/
  exists message, In message messages /\ errors s' = (errors s ++ [message])%list.

(** The errors a run of [save] can meet before it comes to the exporters. *)
Definition errorsBeforeExporters (project : Project) (projectFile : File) : list string :=
  let folder := generatedCodeFolder project in
  [ "Can't write to file: " ++ getFullPathName projectFile;
    "Couldn't create folder: " ++ getFullPathName folder;
    "Can't write to file: "
      ++ getFullPathName (getChildFile folder (getAppConfigFilename project));
    "Can't create binary resources file: "
      ++ getFullPathName (getChildFile folder "BinaryData.cpp");
    "Can't write to file: "
      ++ getFullPathName (getChildFile folder (getJuceSourceHFilename project)) ].

(** [writesOnly s s']: from [s] to [s'] the only events are writes of
    files. *)
Definition writesOnly (s s' : ProjectSaver) : Prop :=
  exists files, trace s' = (trace s ++ map EvWritten files)%list.

(* ===================================================================== *)
(** * The umbrella header, piece by piece *)
(* ===================================================================== *)

Definition appHeaderGuard (project : Project) : string :=
  "__APPHEADERFILE_" ++ toUpperCase (getProjectUID project) ++ "__".

(** What stands before the include lines. *)
Definition appHeaderProlog (project : Project) : string :=
  joinLines
    [ "/*"; EmptyString;
      "    IMPORTANT! This file is auto-generated each time you save your";
      "    project - if you alter its contents, your changes may be overwritten!";
      EmptyString;
      "    This is the header file that your files should include in order to get all the";
      "    JUCE library headers. You should avoid including the JUCE headers directly in";
      "    your own source files, because that wouldn't pick up the correct configuration";
      "    options for your app.";
      EmptyString;
      "*/";
      EmptyString;
      "#ifndef " ++ appHeaderGuard project;
      "#define " ++ appHeaderGuard project;
      EmptyString ].

(** What stands after the include lines. *)
Definition appHeaderEpilog (project : Project) : string :=
  joinLines
    [ EmptyString;
      "#if ! DONT_SET_USING_JUCE_NAMESPACE";
      " // If your code uses a lot of JUCE classes, then this will obviously save you";
      " // a lot of typing, but can be disabled by setting DONT_SET_USING_JUCE_NAMESPACE.";
      " using namespace juce;";
      "#endif";
      EmptyString;
      "namespace ProjectInfo";
      "{";
      "    const char* const  projectName    = "
        ++ quoted (addEscapeChars (getProjectName project)) ++ ";";
      "    const char* const  versionString  = "
        ++ quoted (addEscapeChars (getVersion project)) ++ ";";
      "    const int          versionNumber  = " ++ getVersionAsHex project ++ ";";
      "}";
      EmptyString;
      "#endif   // " ++ appHeaderGuard project ].

(** The line that includes the file of the given name. *)
Definition includeLine (name : string) : string :=
  "#include " ++ quoted name ++ newLine.

(** The umbrella header: the prolog, the include of the configuration
    header if asked, what the modules include, the include of BinaryData.h
    if asked, the epilog. *)
Definition appHeaderText (project : Project) (modules : list LibraryModule)
  (withAppConfig withBinaryData : bool) : string :=
  appHeaderProlog project
    ++ (if withAppConfig then includeLine (getAppConfigFilename project) else EmptyString)
    ++ String.concat EmptyString (map writeIncludes modules)
    ++ (if withBinaryData then includeLine "BinaryData.h" else EmptyString)
    ++ appHeaderEpilog project.

(* ===================================================================== *)
(** * Where a run of save works *)
(* ===================================================================== *)

(** Where a call of a module writes: in the generated-code folder for a
    generated file, at the file itself for [replaceFileIfDifferent]. *)
Definition callWrites (folder : File) (c : SaverCall) : list File :=
  match c with
  | CallSaveGeneratedFile _ _ => [folder]
  | CallReplaceFileIfDifferent f _ => [f]
  | CallAddFileToGeneratedGroup _ => []
  | CallSetExtraAppConfigFileContent _ => []
  end.

(** Where the saver works for one exporter: the exporter's target folder,
    and where the modules' calls for this exporter write. *)
Definition exporterPlaces (folder : File) (modules : list LibraryModule)
  (exporter : ProjectExporter) : list File :=
  getTargetFolder exporter
    :: flat_map (fun m => flat_map (callWrites folder) (prepareExporter m exporter)) modules.

(** Where a run of [save] works: the project file, the generated-code
    folder, and the places of each exporter. *)
Definition savePlaces (project : Project) (projectFile : File) : list File :=
  projectFile :: generatedCodeFolder project
    :: flat_map (exporterPlaces (generatedCodeFolder project) (requiredModules project))
                (exporters project).

(** [partsFromAll p places]: the path [p] parts from every one of the
    places. *)
Definition partsFromAll (p : File) (places : list File) : bool :=
  forallb (pathsDiverge p) places.

(** [diskSameAt p s s']: the disk of [s'] has at [p] what the disk of [s]
    has. *)
Definition diskSameAt (p : File) (s s' : ProjectSaver) : Prop :=
  fs_find p (disk s') = fs_find p (disk s).

(** Whether a string is made of white space only. *)
Fixpoint allWhitespace (s : string) : bool :=
  match s with
  | EmptyString => true
  | String c rest => isWhitespace c && allWhitespace rest
  end.

(** What the exporter of a call threw on the group it was handed: the
    message of its [SaveError], if any. *)
Definition thrown (call : ProjectExporter * Item) : list string :=
  match create (fst call) (snd call) with
  | Some message => [message]
  | None => []
  end.

(* ===================================================================== *)
(** * More disks, permissions and projects for the examples *)
(* ===================================================================== *)

(** A disk with the stale generated-code folder of the first example, the
    project file of an earlier save, and a file elsewhere. *)
Definition staleDisk : list FsNode :=
  [ FsDir "proj" [ FsFile "Demo.jucer" "<OLD/>"; staleFolder ];
    FsDir "home" [ FsFile "notes.txt" "keep me" ] ].

Definition notesFile : File := ["home"; "notes.txt"].

(** Everything is allowed but writing the project file. *)
Definition noProjectFileWrite : Permissions :=
  {| canCreateDirectory := fun _ => true;
     canWriteFile := fun f => negb (File_eqb f targetFile) |}.

(** Everything is allowed but creating the generated-code folder. *)
Definition noGeneratedFolder : Permissions :=
  {| canCreateDirectory := fun f => negb (File_eqb f ["proj"; "JuceLibraryCode"]);
     canWriteFile := fun _ => true |}.

(** Files can be written, no folder can be created. *)
Definition noFolders : Permissions :=
  {| canCreateDirectory := fun _ => false; canWriteFile := fun _ => true |}.

(** A module that gives the configuration header extra content, with
    white space at its end, whenever an exporter is prepared. *)
Definition moduleWithExtra : LibraryModule :=
  {| getID := "juce_extra";
     getConfigFlags := [];
     writeIncludes := EmptyString;
     prepareExporter := fun _ => [CallSetExtraAppConfigFileContent "#define EXTRA 1  "] |}.

Definition withExtra : Project := projectWith [exporterXCode] [moduleWithExtra] 0.

(** Nothing can be created, nothing can be written. *)
Definition readOnly : Permissions :=
  {| canCreateDirectory := fun _ => false; canWriteFile := fun _ => false |}.

(** An exporter whose [create] throws. *)
Definition exporterAndroid : ProjectExporter :=
  {| getName := "Android";
     getTargetFolder := ["proj"; "Builds"; "Android"];
     create := fun _ => Some "No SDK path" |}.

Definition withAndroid : Project :=
  projectWith [exporterXCode; exporterAndroid] [moduleM1] 2.
(* ===================================================================== *)
(** * Properties of the folder reset *)
(* ===================================================================== *)

Lemma deleteNonHiddenFilesIn_unfold parent name es :
  deleteNonHiddenFilesIn parent (FsDir name es) =
  let '(e, d, l, g) := visitEntries deleteNonHiddenFilesIn parent es in
  (e, l, (g ++ rev d)%list).
Proof. reflexivity. Qed.

Lemma visitEntries_cons recurse parent f more :
  visitEntries recurse parent (f :: more) =
  let '(e1, d1, l1, g1) := visitEntry recurse parent f in
  let '(e2, d2, l2, g2) := visitEntries recurse parent more in
  (e1 && e2, d1 ++ d2, l1 ++ l2, g1 ++ g2)%list.
Proof. reflexivity. Qed.

Lemma visitEntry_agrees parent f :
  resetAgrees f ->
  fst (fst (fst (visitEntry deleteNonHiddenFilesIn parent f))) = negb (containsKept f) /\
  snd (fst (visitEntry deleteNonHiddenFilesIn parent f)) = keptPart f.
Proof.
  intros H. unfold visitEntry.
  destruct f as [name data | name sub]; cbn [getFileName containsKept keptPart].
  - destruct (shouldFileBeKept name); cbn; auto.
  - destruct (shouldFileBeKept name) eqn:K; cbn [orb negb fst snd]; [auto|].
    destruct (H (getChildFile parent name)) as [Hb Hl].
    destruct (deleteNonHiddenFilesIn (getChildFile parent name) (FsDir name sub))
      as [[empty rest] g].
    cbn [fst snd dirEntries] in Hb, Hl. subst empty rest.
    destruct (existsb containsKept sub); cbn; auto.
Qed.

Lemma visitEntries_agrees parent es :
  Forall resetAgrees es ->
  fst (fst (fst (visitEntries deleteNonHiddenFilesIn parent es))) = negb (existsb containsKept es) /\
  snd (fst (visitEntries deleteNonHiddenFilesIn parent es)) = flat_map keptPart es.
Proof.
  induction 1 as [|f more Hf _ IH]; [cbn; auto|].
  rewrite visitEntries_cons.
  destruct (visitEntry_agrees parent f Hf) as [Hb Hl].
  destruct (visitEntry deleteNonHiddenFilesIn parent f) as [[[e1 d1] l1] g1].
  destruct IH as [IHb IHl].
  destruct (visitEntries deleteNonHiddenFilesIn parent more) as [[[e2 d2] l2] g2].
  cbn [fst snd] in *. subst.
  cbn [existsb flat_map]. rewrite negb_orb. auto.
Qed.

Lemma deleteNonHiddenFilesIn_agrees n : resetAgrees n.
Proof.
  induction n as [name data | name es IH] using FsNode_forall_ind; intros parent.
  - cbn. auto.
  - rewrite deleteNonHiddenFilesIn_unfold.
    destruct (visitEntries_agrees parent es IH) as [Hb Hl].
    destruct (visitEntries deleteNonHiddenFilesIn parent es) as [[[e d] l] g].
    cbn [fst snd dirEntries] in *. auto.
Qed.

(** ** Order of the deletions *)

Lemma isProperPrefix_length p q : isProperPrefix p q -> length p < length q.
Proof.
  intros (c & rest & ->). rewrite length_app. cbn. lia.
Qed.

Lemma isProperPrefix_trans p q r :
  isProperPrefix p q -> isProperPrefix q r -> isProperPrefix p r.
Proof.
  intros (c & l & ->) (c' & l' & ->).
  exists c, (l ++ c' :: l')%list. rewrite <- app_assoc. reflexivity.
Qed.

(** Two paths below two children of one directory: the children have the
    same name when one path is below the other. *)
Lemma below_same_child parent a b p q :
  isProperPrefix (getChildFile parent a) p ->
  isProperPrefix (getChildFile parent b) q ->
  isProperPrefix p q -> a = b.
Proof.
  unfold getChildFile.
  intros (c1 & r1 & ->) (c2 & r2 & ->) (c3 & r3 & E).
  repeat rewrite <- app_assoc in E. apply app_inv_head in E.
  cbn in E. congruence.
Qed.

Lemma postOrder_nil : postOrder [].
Proof. intros l1 p l2 E. destruct l1; discriminate. Qed.

Lemma postOrder_app l l' :
  postOrder l -> postOrder l' ->
  (forall p q, In p l -> In q l' -> ~ isProperPrefix p q) ->
  postOrder (l ++ l').
Proof.
  intros Hl Hl' Hx l1 p l2 E q Hq.
  apply app_eq_app in E as (l0 & [[E1 E2]|[E1 E2]]).
  - destruct l0 as [|x l0]; cbn in E2.
    + apply (Hl' [] p l2 (eq_sym E2) q Hq).
    + injection E2 as E2 E3. subst x l2 l.
      apply in_app_or in Hq as [Hq|Hq].
      * apply (Hl l1 p l0 eq_refl q Hq).
      * apply Hx; [apply in_or_app; right; left; reflexivity | exact Hq].
  - apply (Hl' l0 p l2 E2 q Hq).
Qed.

Lemma postOrder_flat l :
  (forall p q, In p l -> In q l -> ~ isProperPrefix p q) -> postOrder l.
Proof.
  intros H l1 p l2 -> q Hq. apply H; apply in_or_app; right; [left; reflexivity | right; exact Hq].
Qed.

Lemma visitEntry_paths parent f :
  deletesBelow f ->
  (forall p, In p (snd (fst (fst (visitEntry deleteNonHiddenFilesIn parent f)))) ->
             p = getChildFile parent (getFileName f)) /\
  (forall p, In p (snd (visitEntry deleteNonHiddenFilesIn parent f)) ->
             isProperPrefix (getChildFile parent (getFileName f)) p).
Proof.
  intros H. unfold visitEntry.
  destruct (shouldFileBeKept (getFileName f)); [cbn; split; intros p []|].
  destruct f as [name data | name sub]; cbn [getFileName].
  - cbn. split; [intros p [<-|[]]; reflexivity | intros p []].
  - specialize (H (getChildFile parent name)).
    destruct (deleteNonHiddenFilesIn (getChildFile parent name) (FsDir name sub))
      as [[empty rest] g].
    cbn [snd] in H.
    destruct empty; cbn [fst snd]; split; auto.
    + intros p [<-|[]]; reflexivity.
    + intros p [].
Qed.

Lemma visitEntries_paths parent es :
  Forall deletesBelow es ->
  (forall p, In p (snd (fst (fst (visitEntries deleteNonHiddenFilesIn parent es)))) ->
             exists f, In f es /\ p = getChildFile parent (getFileName f)) /\
  (forall p, In p (snd (visitEntries deleteNonHiddenFilesIn parent es)) ->
             exists f, In f es /\ isProperPrefix (getChildFile parent (getFileName f)) p).
Proof.
  induction 1 as [|f more Hf _ IH]; [cbn; split; intros p []|].
  rewrite visitEntries_cons.
  destruct (visitEntry_paths parent f Hf) as [Hd Hg].
  destruct (visitEntry deleteNonHiddenFilesIn parent f) as [[[e1 d1] l1] g1].
  destruct IH as [IHd IHg].
  destruct (visitEntries deleteNonHiddenFilesIn parent more) as [[[e2 d2] l2] g2].
  cbn [fst snd] in *.
  split; intros p Hp; apply in_app_or in Hp as [Hp|Hp].
  - exists f. split; [left; reflexivity | auto].
  - destruct (IHd p Hp) as (f' & Hin & E). exists f'. split; [right; exact Hin | exact E].
  - exists f. split; [left; reflexivity | auto].
  - destruct (IHg p Hp) as (f' & Hin & E). exists f'. split; [right; exact Hin | exact E].
Qed.

Lemma child_isProperPrefix parent c : isProperPrefix parent (getChildFile parent c).
Proof. exists c, []. reflexivity. Qed.

Lemma deleteNonHiddenFilesIn_below n : deletesBelow n.
Proof.
  induction n as [name data | name es IH] using FsNode_forall_ind; intros parent p.
  - cbn. intros [].
  - rewrite deleteNonHiddenFilesIn_unfold.
    destruct (visitEntries_paths parent es IH) as [Hd Hg].
    destruct (visitEntries deleteNonHiddenFilesIn parent es) as [[[e d] l] g].
    cbn [fst snd] in *. intros Hp. apply in_app_or in Hp as [Hp|Hp].
    + destruct (Hg p Hp) as (f & _ & Hf).
      eapply isProperPrefix_trans; [apply child_isProperPrefix | exact Hf].
    + apply in_rev in Hp. destruct (Hd p Hp) as (f & _ & ->).
      apply child_isProperPrefix.
Qed.

Lemma uniqueNames_dir name es :
  uniqueNames (FsDir name es) <->
  NoDup (map getFileName es) /\ Forall uniqueNames es.
Proof.
  cbn [uniqueNames]. split; intros [Hn Hall]; split; auto.
  - induction es as [|x es IH]; [constructor|].
    destruct Hall as [Hx Hr]. constructor; [exact Hx|].
    apply IH; [inversion Hn; assumption | exact Hr].
  - induction Hall as [|x es Hx _ IH]; [exact I|].
    split; [exact Hx|]. apply IH. inversion Hn; assumption.
Qed.

Lemma child_length parent c : length (getChildFile parent c) = S (length parent).
Proof. unfold getChildFile. rewrite length_app. cbn. lia. Qed.

Lemma visitEntry_postOrder parent f :
  resetPostOrder f -> uniqueNames f ->
  postOrder (snd (visitEntry deleteNonHiddenFilesIn parent f)).
Proof.
  intros H U. unfold visitEntry.
  destruct (shouldFileBeKept (getFileName f)); [apply postOrder_nil|].
  destruct f as [name data | name sub]; [apply postOrder_nil|].
  specialize (H U (getChildFile parent (getFileName (FsDir name sub)))).
  cbn [getFileName] in *.
  destruct (deleteNonHiddenFilesIn (getChildFile parent name) (FsDir name sub))
    as [[empty rest] g].
  destruct empty; exact H.
Qed.

Lemma visitEntries_postOrder parent es :
  Forall resetPostOrder es -> Forall uniqueNames es ->
  NoDup (map getFileName es) ->
  postOrder (snd (visitEntries deleteNonHiddenFilesIn parent es)).
Proof.
  induction 1 as [|f more Hf Hall IH]; intros U N; [apply postOrder_nil|].
  rewrite visitEntries_cons.
  inversion U as [|? ? Uf Umore]; subst. inversion N as [|? ? Nf Nmore]; subst.
  pose proof (visitEntry_postOrder parent f Hf Uf) as P1.
  pose proof (visitEntry_paths parent f (deleteNonHiddenFilesIn_below f)) as [_ B1].
  specialize (IH Umore Nmore).
  assert (B2 := proj2 (visitEntries_paths parent more
                         (proj2 (Forall_forall _ _) (fun x _ => deleteNonHiddenFilesIn_below x)))).
  destruct (visitEntry deleteNonHiddenFilesIn parent f) as [[[e1 d1] l1] g1].
  destruct (visitEntries deleteNonHiddenFilesIn parent more) as [[[e2 d2] l2] g2].
  cbn [fst snd] in *.
  apply postOrder_app; auto.
  intros p q Hp Hq Hpq.
  destruct (B2 q Hq) as (f' & Hin & Hq').
  apply Nf. rewrite (below_same_child parent _ _ p q (B1 p Hp) Hq' Hpq).
  apply in_map. exact Hin.
Qed.

Lemma deleteNonHiddenFilesIn_postOrder n : resetPostOrder n.
Proof.
  induction n as [name data | name es IH] using FsNode_forall_ind; intros U parent.
  - apply postOrder_nil.
  - apply uniqueNames_dir in U as [N U].
    rewrite deleteNonHiddenFilesIn_unfold.
    pose proof (visitEntries_postOrder parent es IH U N) as PO.
    assert (Hall : Forall deletesBelow es)
      by (apply Forall_forall; intros x _; apply deleteNonHiddenFilesIn_below).
    destruct (visitEntries_paths parent es Hall) as [Hd Hg].
    destruct (visitEntries deleteNonHiddenFilesIn parent es) as [[[e d] l] g].
    cbn [fst snd] in *.
    apply postOrder_app; [exact PO | |].
    + apply postOrder_flat. intros p q Hp Hq Hpq.
      apply in_rev in Hp, Hq.
      destruct (Hd p Hp) as (f1 & _ & ->). destruct (Hd q Hq) as (f2 & _ & ->).
      apply isProperPrefix_length in Hpq. rewrite !child_length in Hpq. lia.
    + intros p q Hp Hq Hpq. apply in_rev in Hq.
      destruct (Hg p Hp) as (f1 & _ & Hf1). destruct (Hd q Hq) as (f2 & _ & ->).
      apply isProperPrefix_length in Hpq, Hf1. rewrite !child_length in *. lia.
Qed.

(** ** What is deleted and what is kept *)


Lemma visitEntries_toDelete recurse parent es :
  snd (fst (fst (visitEntries recurse parent es))) =
  flat_map (fun f => snd (fst (fst (visitEntry recurse parent f)))) es.
Proof.
  induction es as [|f more IH]; [reflexivity|].
  rewrite visitEntries_cons. cbn [flat_map]. rewrite <- IH.
  destruct (visitEntry recurse parent f) as [[[e1 d1] l1] g1].
  destruct (visitEntries recurse parent more) as [[[e2 d2] l2] g2].
  reflexivity.
Qed.

Lemma keptPart_nil f : keptPart f = [] <-> containsKept f = false.
Proof.
  destruct f as [name data | name sub]; cbn [keptPart containsKept getFileName];
    destruct (shouldFileBeKept name); cbn [orb]; try (split; congruence).
  destruct (existsb containsKept sub); split; congruence.
Qed.

Lemma flat_map_keptPart_nil es :
  flat_map keptPart es = [] <-> existsb containsKept es = false.
Proof.
  induction es as [|f more IH]; cbn [flat_map existsb]; [tauto|].
  rewrite orb_false_iff, <- IH, <- keptPart_nil.
  split.
  - intros H. apply app_eq_nil in H. exact H.
  - intros [-> ->]. reflexivity.
Qed.

Lemma visitEntry_deletes parent f :
  shouldFileBeKept (getFileName f) = false -> containsKept f = false ->
  snd (fst (fst (visitEntry deleteNonHiddenFilesIn parent f))) =
  [getChildFile parent (getFileName f)].
Proof.
  intros K C. unfold visitEntry. rewrite K.
  destruct f as [name data | name sub]; [reflexivity|].
  cbn [getFileName] in *.
  destruct (deleteNonHiddenFilesIn_agrees (FsDir name sub) (getChildFile parent name)) as [Hb _].
  destruct (deleteNonHiddenFilesIn (getChildFile parent name) (FsDir name sub))
    as [[empty rest] g].
  cbn [fst snd dirEntries] in Hb.
  cbn [containsKept getFileName] in C. rewrite K in C. cbn [orb] in C.
  rewrite C in Hb. subst empty. reflexivity.
Qed.

Lemma visitEntry_spares parent f :
  containsKept f = true ->
  snd (fst (fst (visitEntry deleteNonHiddenFilesIn parent f))) = [].
Proof.
  intros C. unfold visitEntry.
  destruct (shouldFileBeKept (getFileName f)) eqn:K; [reflexivity|].
  destruct f as [name data | name sub]; cbn [containsKept getFileName] in *;
    rewrite K in C; cbn [orb] in C; [discriminate|].
  destruct (deleteNonHiddenFilesIn_agrees (FsDir name sub) (getChildFile parent name)) as [Hb _].
  destruct (deleteNonHiddenFilesIn (getChildFile parent name) (FsDir name sub))
    as [[empty rest] g].
  cbn [fst snd dirEntries] in Hb. rewrite C in Hb. subst empty. reflexivity.
Qed.

Lemma same_name_same_entry (es : list FsNode) f g :
  NoDup (map getFileName es) -> In f es -> In g es ->
  getFileName f = getFileName g -> f = g.
Proof.
  induction es as [|x es IH]; intros N Hf Hg E; [destruct Hf|].
  inversion N as [|? ? Nx Nes]; subst.
  destruct Hf as [->|Hf], Hg as [->|Hg]; auto.
  - exfalso. apply Nx. rewrite E. apply in_map. exact Hg.
  - exfalso. apply Nx. rewrite <- E. apply in_map. exact Hf.
Qed.

Lemma getChildFile_inj parent a b :
  getChildFile parent a = getChildFile parent b -> a = b.
Proof.
  unfold getChildFile. intros E. apply app_inv_head in E. congruence.
Qed.

(** An entry of the directory is in the deletion log exactly when it neither
    is nor holds a kept entry. *)
Lemma deleted_iff_nothing_kept parent name es f :
  NoDup (map getFileName es) -> In f es ->
  In (getChildFile parent (getFileName f))
     (resetLog (deleteNonHiddenFilesIn parent (FsDir name es)))
  <-> containsKept f = false.
Proof.
  intros N Hf. unfold resetLog. rewrite deleteNonHiddenFilesIn_unfold.
  assert (Hall : Forall deletesBelow es)
    by (apply Forall_forall; intros x _; apply deleteNonHiddenFilesIn_below).
  destruct (visitEntries_paths parent es Hall) as [_ Hg].
  pose proof (visitEntries_toDelete deleteNonHiddenFilesIn parent es) as Hd.
  destruct (visitEntries deleteNonHiddenFilesIn parent es) as [[[e d] l] g].
  cbn [fst snd] in *. split.
  - intros Hin. apply in_app_or in Hin as [Hin|Hin].
    + destruct (Hg _ Hin) as (f' & _ & Hf').
      apply isProperPrefix_length in Hf'. rewrite !child_length in Hf'. lia.
    + apply in_rev in Hin. rewrite Hd in Hin. apply in_flat_map in Hin as (f' & Hf' & Hin).
      destruct (containsKept f') eqn:C'.
      * rewrite (visitEntry_spares parent f' C') in Hin. destruct Hin.
      * assert (K' : shouldFileBeKept (getFileName f') = false).
        { destruct f'; cbn [containsKept getFileName] in C'; apply orb_false_iff in C'; tauto. }
        rewrite (visitEntry_deletes parent f' K' C') in Hin.
        destruct Hin as [E|[]]. apply getChildFile_inj in E.
        rewrite (same_name_same_entry es f f' N Hf Hf' (eq_sym E)). exact C'.
  - intros C. apply in_or_app. right. apply -> in_rev. rewrite Hd.
    apply in_flat_map. exists f. split; [exact Hf|].
    assert (K : shouldFileBeKept (getFileName f) = false).
    { destruct f; cbn [containsKept getFileName] in C; apply orb_false_iff in C; tauto. }
    rewrite (visitEntry_deletes parent f K C). left. reflexivity.
Qed.

(** C6 -- Folder pruning.  Run on a directory, [deleteNonHiddenFilesIn]
    leaves exactly what the specification says: an entry whose name is on the
    keep-list (.svn, .cvs, CMakeLists.txt) stays as it is, a folder that
    holds a kept entry at some depth stays with its own entries reset, and
    every other file and folder is deleted.  It returns true exactly when
    nothing is left in the directory, that is when the directory held no
    kept entry at any depth.  A sub-folder is deleted exactly when the call
    on the sub-folder itself returned true, and nothing is deleted below a
    path after the path was deleted (post-order).  A folder with a stale
    file and a .svn directory ends with the .svn directory as it was and the
    stale file deleted. *)
Theorem deleteNonHiddenFilesIn_prunes :
  forall (parent : File) (name : string) (es : list FsNode),
    let r := deleteNonHiddenFilesIn parent (FsDir name es) in
    resetLeft r = flat_map keptPart es
    /\ (forall f, In f es -> shouldFileBeKept (getFileName f) = true ->
                  In f (resetLeft r))
    /\ (forall sub_name sub, In (FsDir sub_name sub) es ->
          shouldFileBeKept sub_name = false -> existsb containsKept sub = true ->
          In (FsDir sub_name (flat_map keptPart sub)) (resetLeft r))
    /\ (forall f, In f es -> containsKept f = false ->
          In (getChildFile parent (getFileName f)) (resetLog r))
    /\ (resetFlag r = true <-> resetLeft r = [])
    /\ resetFlag r = negb (existsb containsKept es)
    /\ (uniqueNames (FsDir name es) ->
        forall sub_name sub, In (FsDir sub_name sub) es ->
          shouldFileBeKept sub_name = false ->
          (In (getChildFile parent sub_name) (resetLog r) <->
           resetFlag (deleteNonHiddenFilesIn (getChildFile parent sub_name)
                                             (FsDir sub_name sub)) = true))
    /\ (uniqueNames (FsDir name es) -> postOrder (resetLog r))
    /\ (forall stale data svn, shouldFileBeKept stale = false ->
          deleteNonHiddenFilesIn parent (FsDir name [FsFile stale data; FsDir ".svn" svn])
          = (false, [FsDir ".svn" svn], [getChildFile parent stale])).
Proof.
  intros parent name es r.
  destruct (deleteNonHiddenFilesIn_agrees (FsDir name es) parent) as [Hb Hl].
  fold r in Hb, Hl. cbn [dirEntries] in Hb, Hl.
  change (fst (fst r)) with (resetFlag r) in Hb.
  change (snd (fst r)) with (resetLeft r) in Hl.
  repeat split.
  - exact Hl.
  - intros f Hf K. rewrite Hl. apply in_flat_map. exists f. split; [exact Hf|].
    destruct f; cbn [keptPart getFileName] in *; rewrite K; left; reflexivity.
  - intros sub_name sub Hf K C. rewrite Hl. apply in_flat_map.
    exists (FsDir sub_name sub). split; [exact Hf|].
    cbn [keptPart getFileName]. rewrite K, C. left. reflexivity.
  - intros f Hf C. subst r. unfold resetLog. rewrite deleteNonHiddenFilesIn_unfold.
    pose proof (visitEntries_toDelete deleteNonHiddenFilesIn parent es) as Hd.
    destruct (visitEntries deleteNonHiddenFilesIn parent es) as [[[e d] l] g].
    cbn [fst snd] in *. apply in_or_app. right. apply -> in_rev. rewrite Hd.
    apply in_flat_map. exists f. split; [exact Hf|].
    assert (K : shouldFileBeKept (getFileName f) = false).
    { destruct f; cbn [containsKept getFileName] in C; apply orb_false_iff in C; tauto. }
    rewrite (visitEntry_deletes parent f K C). left. reflexivity.
  - intros E. rewrite Hl. apply flat_map_keptPart_nil.
    rewrite Hb in E. destruct (existsb containsKept es); [discriminate | reflexivity].
  - intros E. rewrite Hl in E. apply flat_map_keptPart_nil in E.
    rewrite Hb, E. reflexivity.
  - exact Hb.
  - intros Hin. apply uniqueNames_dir in H as [N _].
    apply (deleted_iff_nothing_kept parent name es (FsDir sub_name sub) N H0) in Hin.
    destruct (deleteNonHiddenFilesIn_agrees (FsDir sub_name sub) (getChildFile parent sub_name))
      as [Hb' _].
    unfold resetFlag. rewrite Hb'. cbn [dirEntries].
    cbn [containsKept getFileName] in Hin. rewrite H1 in Hin. cbn [orb] in Hin.
    rewrite Hin. reflexivity.
  - intros Hflag. apply uniqueNames_dir in H as [N _].
    apply (deleted_iff_nothing_kept parent name es (FsDir sub_name sub) N H0).
    destruct (deleteNonHiddenFilesIn_agrees (FsDir sub_name sub) (getChildFile parent sub_name))
      as [Hb' _].
    unfold resetFlag in Hflag. rewrite Hb' in Hflag. cbn [dirEntries] in Hflag.
    cbn [containsKept getFileName]. rewrite H1. cbn [orb].
    destruct (existsb containsKept sub); [discriminate | reflexivity].
  - intros U. apply deleteNonHiddenFilesIn_postOrder. exact U.
  - intros stale data svn K. rewrite deleteNonHiddenFilesIn_unfold.
    cbn [visitEntries]. unfold visitEntry. cbn [getFileName]. rewrite K.
    reflexivity.
Qed.


(* ===================================================================== *)
(** * Properties of the generated-files group *)
(* ===================================================================== *)

Lemma File_eqb_eq a b : File_eqb a b = true <-> a = b.
Proof.
  revert b. induction a as [|x a IH]; destruct b as [|y b]; cbn; try (split; congruence).
  rewrite andb_true_iff, String.eqb_eq, IH. split; [intros [-> ->] | intros E; injection E]; auto.
Qed.

Lemma File_eqb_refl a : File_eqb a a = true.
Proof. apply File_eqb_eq. reflexivity. Qed.

Lemma File_eqb_neq a b : File_eqb a b = false <-> a <> b.
Proof.
  rewrite <- File_eqb_eq. destruct (File_eqb a b); split; congruence.
Qed.

Lemma findItemForFile_cons name id c rest file :
  findItemForFile (ItemGroup name id (c :: rest)) file =
  match findItemForFile (ItemGroup name id rest) file with
  | Some found => Some found
  | None => findItemForFile c file
  end.
Proof. reflexivity. Qed.

Lemma findItemForFile_app name id children x file :
  findItemForFile (ItemGroup name id (children ++ [x])) file =
  match findItemForFile x file with
  | Some found => Some found
  | None => findItemForFile (ItemGroup name id children) file
  end.
Proof.
  induction children as [|c rest IH].
  - cbn [app]. rewrite findItemForFile_cons. cbn.
    destruct (findItemForFile x file); reflexivity.
  - cbn [app]. rewrite !findItemForFile_cons, IH.
    destruct (findItemForFile x file); reflexivity.
Qed.

(** An Item is found for a file exactly when one of the leaves is the
    file's. *)
Lemma findItemForFile_None i file :
  findItemForFile i file = None <-> ~ In file (itemFiles i).
Proof.
  induction i as [f c | name id children IH] using Item_forall_ind.
  - cbn. destruct (File_eqb f file) eqn:E.
    + apply File_eqb_eq in E. split; [discriminate | intros H; exfalso; apply H; auto].
    + apply File_eqb_neq in E. split; [intros _ [H|[]]; auto | reflexivity].
  - induction IH as [|c rest Hc _ IHrest].
    + cbn. split; [intros _ [] | reflexivity].
    + rewrite findItemForFile_cons. cbn [itemFiles flat_map]. rewrite in_app_iff.
      cbn [itemFiles] in IHrest.
      destruct (findItemForFile (ItemGroup name id rest) file).
      * split; [discriminate|]. intros H. exfalso.
        destruct IHrest as [_ IHr].
        assert (N : ~ In file (flat_map itemFiles rest)) by tauto.
        specialize (IHr N). discriminate.
      * rewrite Hc. tauto.
Qed.

Lemma countItemsFor_zero i file :
  countItemsFor file i = 0 <-> ~ In file (itemFiles i).
Proof.
  unfold countItemsFor. induction (itemFiles i) as [|f l IH]; cbn.
  - tauto.
  - destruct (File_eqb file f) eqn:E; cbn.
    + apply File_eqb_eq in E. split; [discriminate | intros H; exfalso; apply H; auto].
    + apply File_eqb_neq in E. rewrite IH. split; [intros N [H|H]; auto | tauto].
Qed.

Lemma itemFiles_addFile name id children file c :
  itemFiles (addFile (ItemGroup name id children) file c) =
  (itemFiles (ItemGroup name id children) ++ [file])%list.
Proof.
  cbn [addFile itemFiles]. rewrite flat_map_app. cbn. reflexivity.
Qed.

Lemma countItemsFor_addFile name id children file c f :
  countItemsFor f (addFile (ItemGroup name id children) file c) =
  countItemsFor f (ItemGroup name id children) + (if File_eqb f file then 1 else 0).
Proof.
  unfold countItemsFor. rewrite itemFiles_addFile, filter_app, length_app.
  cbn. destruct (File_eqb f file); reflexivity.
Qed.

Lemma isGroup_inv i : isGroup i = true -> exists name id children, i = ItemGroup name id children.
Proof. destruct i; [discriminate | eauto]. Qed.

(** ** Sorting moves the Items of a group, and nothing else *)

Lemma insertSorted_perm x l : Permutation (insertSorted x l) (x :: l).
Proof.
  induction l as [|y rest IH]; cbn; [reflexivity|].
  destruct (nameLeb x y); [reflexivity|].
  rewrite IH. apply perm_swap.
Qed.

Lemma sortAlphabetically_perm l : Permutation (sortAlphabetically l) l.
Proof.
  unfold sortAlphabetically.
  induction l as [|x rest IH]; cbn [fold_right]; [reflexivity|].
  rewrite insertSorted_perm. constructor. exact IH.
Qed.

Lemma flat_map_perm_pointwise {A B} (f g : A -> list B) l :
  Forall (fun x => Permutation (f x) (g x)) l ->
  Permutation (flat_map f l) (flat_map g l).
Proof.
  induction 1 as [|x rest Hx _ IH]; cbn; [reflexivity|].
  apply Permutation_app; assumption.
Qed.

Lemma itemFiles_sortGroupRecursively i :
  Permutation (itemFiles (sortGroupRecursively i)) (itemFiles i).
Proof.
  induction i as [f c | name id children IH] using Item_forall_ind; [reflexivity|].
  cbn [sortGroupRecursively itemFiles].
  rewrite (Permutation_flat_map itemFiles (sortAlphabetically_perm _)).
  rewrite flat_map_concat_map, map_map, <- flat_map_concat_map.
  apply flat_map_perm_pointwise. exact IH.
Qed.

Lemma isGroup_sortGroupRecursively i : isGroup (sortGroupRecursively i) = isGroup i.
Proof. destruct i; reflexivity. Qed.

Lemma itemName_sortGroupRecursively i : itemName (sortGroupRecursively i) = itemName i.
Proof. destruct i; reflexivity. Qed.

Lemma insertSorted_map (f : Item -> Item) x l :
  (forall a, itemName (f a) = itemName a) ->
  insertSorted (f x) (map f l) = map f (insertSorted x l).
Proof.
  intros H. induction l as [|y rest IH]; cbn; [reflexivity|].
  unfold nameLeb. rewrite !H. fold (nameLeb x y).
  destruct (nameLeb x y); cbn; [reflexivity|]. rewrite IH. reflexivity.
Qed.

Lemma sortAlphabetically_map (f : Item -> Item) l :
  (forall a, itemName (f a) = itemName a) ->
  sortAlphabetically (map f l) = map f (sortAlphabetically l).
Proof.
  intros H. unfold sortAlphabetically.
  induction l as [|x rest IH]; cbn [map fold_right]; [reflexivity|].
  rewrite IH. apply insertSorted_map. exact H.
Qed.

(** The order of the code: the group is sorted, then each child is. *)
Lemma sortGroupRecursively_unfold name id children :
  sortGroupRecursively (ItemGroup name id children) =
  ItemGroup name id (map sortGroupRecursively (sortAlphabetically children)).
Proof.
  cbn [sortGroupRecursively]. f_equal.
  apply sortAlphabetically_map. exact itemName_sortGroupRecursively.
Qed.

Lemma countItemsFor_perm f i j :
  Permutation (itemFiles i) (itemFiles j) -> countItemsFor f i = countItemsFor f j.
Proof.
  unfold countItemsFor. intros P.
  induction P as [|x l l' _ IH|x y l|l l' l'' _ IH1 _ IH2]; cbn.
  - reflexivity.
  - destruct (File_eqb f x); cbn; congruence.
  - destruct (File_eqb f x), (File_eqb f y); reflexivity.
  - congruence.
Qed.

(** ** Registration *)

Section Registration.

Variable s : ProjectSaver.
Variable file : File.
Variables (name id : string) (children : list Item).
Hypothesis group_shape : generatedFilesGroup s = ItemGroup name id children.

Lemma addFileToGeneratedGroup_found item :
  findItemForFile (generatedFilesGroup s) file = Some item ->
  addFileToGeneratedGroup file s = (Some item, s).
Proof. intros H. unfold addFileToGeneratedGroup. rewrite H. reflexivity. Qed.

Lemma addFileToGeneratedGroup_new :
  findItemForFile (generatedFilesGroup s) file = None ->
  addFileToGeneratedGroup file s =
  (Some (ItemFile file true),
   setGroup (ItemGroup name id (children ++ [ItemFile file true])) s).
Proof.
  intros H. unfold addFileToGeneratedGroup. rewrite H, group_shape.
  cbn [addFile setGroup generatedFilesGroup].
  rewrite findItemForFile_app. cbn [findItemForFile]. rewrite File_eqb_refl.
  reflexivity.
Qed.

Lemma addFileToGeneratedGroup_count :
  countItemsFor file (generatedFilesGroup (snd (addFileToGeneratedGroup file s))) =
  Nat.max 1 (countItemsFor file (generatedFilesGroup s)).
Proof.
  destruct (findItemForFile (generatedFilesGroup s) file) as [item|] eqn:F.
  - rewrite (addFileToGeneratedGroup_found item F). cbn [snd].
    assert (N : countItemsFor file (generatedFilesGroup s) <> 0).
    { intros Z. apply countItemsFor_zero in Z. apply findItemForFile_None in Z. congruence. }
    lia.
  - rewrite (addFileToGeneratedGroup_new F). cbn [snd setGroup generatedFilesGroup].
    change (ItemGroup name id (children ++ [ItemFile file true]))
      with (addFile (ItemGroup name id children) file true).
    rewrite countItemsFor_addFile, File_eqb_refl, <- group_shape.
    apply findItemForFile_None in F. apply countItemsFor_zero in F. lia.
Qed.

End Registration.

(** C5 -- Registration in the generated-files group is idempotent.  When
    the group has an Item for the file, [addFileToGeneratedGroup] returns
    that Item and changes nothing; when it has none, it appends one leaf for
    the file and returns it.  A second registration of the same file returns
    the same Item and changes nothing, and the group never gets a second
    Item for the file. *)
Theorem addFileToGeneratedGroup_idempotent :
  forall (s : ProjectSaver) (file : File) (name id : string) (children : list Item),
    generatedFilesGroup s = ItemGroup name id children ->
    let r := addFileToGeneratedGroup file s in
    (forall item, findItemForFile (generatedFilesGroup s) file = Some item ->
                  r = (Some item, s))
    /\ (findItemForFile (generatedFilesGroup s) file = None ->
        r = (Some (ItemFile file true),
             setGroup (ItemGroup name id (children ++ [ItemFile file true])) s))
    /\ addFileToGeneratedGroup file (snd r) = r
    /\ countItemsFor file (generatedFilesGroup (snd r)) =
       Nat.max 1 (countItemsFor file (generatedFilesGroup s)).
Proof.
  intros s file name id children G r. subst r. repeat split.
  - intros item F. apply addFileToGeneratedGroup_found. exact F.
  - intros F. apply (addFileToGeneratedGroup_new s file name id children G F).
  - destruct (findItemForFile (generatedFilesGroup s) file) as [item|] eqn:F.
    + rewrite (addFileToGeneratedGroup_found s file item F). cbn [snd].
      apply addFileToGeneratedGroup_found. exact F.
    + rewrite (addFileToGeneratedGroup_new s file name id children G F). cbn [snd].
      apply addFileToGeneratedGroup_found. cbn [setGroup generatedFilesGroup].
      rewrite findItemForFile_app. cbn [findItemForFile]. rewrite File_eqb_refl.
      reflexivity.
  - apply (addFileToGeneratedGroup_count s file name id children G).
Qed.

(* ===================================================================== *)
(** * What each member leaves as it is *)
(* ===================================================================== *)

Lemma handedGroups_app t1 t2 :
  handedGroups (t1 ++ t2) = (handedGroups t1 ++ handedGroups t2)%list.
Proof.
  induction t1 as [|e t1 IH]; [reflexivity|].
  destruct e; cbn; rewrite IH; reflexivity.
Qed.

Lemma exporterCalls_app t1 t2 :
  exporterCalls (t1 ++ t2) = (exporterCalls t1 ++ exporterCalls t2)%list.
Proof. unfold exporterCalls. rewrite handedGroups_app, map_app. reflexivity. Qed.

Lemma steady_refl s : steady s s.
Proof. split; [reflexivity | exists []; symmetry; apply app_nil_r]. Qed.

Lemma steady_trans s1 s2 s3 : steady s1 s2 -> steady s2 s3 -> steady s1 s3.
Proof.
  intros [L1 [a1 E1]] [L2 [a2 E2]]. split; [congruence|].
  exists (a1 ++ a2)%list. rewrite E2, E1, app_assoc. reflexivity.
Qed.

Lemma quiet_refl s : quiet s s.
Proof. split; [apply steady_refl | reflexivity]. Qed.

Lemma quiet_trans s1 s2 s3 : quiet s1 s2 -> quiet s2 s3 -> quiet s1 s3.
Proof.
  intros [S1 H1] [S2 H2]. split; [eapply steady_trans; eauto | congruence].
Qed.

Lemma steady_addError msg s : steady s (addError msg s).
Proof. split; [reflexivity | exists [msg]; reflexivity]. Qed.

Lemma quiet_addError msg s : quiet s (addError msg s).
Proof. split; [apply steady_addError | reflexivity]. Qed.

Lemma steady_fields s s' :
  projectLocation s' = projectLocation s -> errors s' = errors s -> steady s s'.
Proof.
  intros L E. split; [exact L | exists []; rewrite app_nil_r; exact E].
Qed.

(** A step that touches neither the location, nor the errors, nor the
    trace. *)
Lemma quiet_fields s s' :
  projectLocation s' = projectLocation s -> errors s' = errors s ->
  trace s' = trace s -> quiet s s'.
Proof.
  intros L E T. split; [split|]; [exact L | exists []; rewrite app_nil_r; exact E |].
  rewrite T. reflexivity.
Qed.

Lemma quiet_setDisk d s : quiet s (setDisk d s).
Proof. apply quiet_fields; reflexivity. Qed.

Lemma quiet_setGroup g s : quiet s (setGroup g s).
Proof. apply quiet_fields; reflexivity. Qed.

Lemma quiet_emit e s :
  (forall n g, e <> EvExporterCreate n g) -> quiet s (emit e s).
Proof.
  intros H. split; [split; [reflexivity | exists []; symmetry; apply app_nil_r]|].
  cbn [emit trace]. rewrite handedGroups_app.
  destruct e; cbn; try apply app_nil_r. exfalso. eapply H. reflexivity.
Qed.

(** No error at the end of a steady step: no error at its start, and none
    added. *)
Lemma steady_noErrors s s' : steady s s' -> noErrors s' = true -> noErrors s = true.
Proof.
  intros [_ [added E]] H. unfold noErrors in *. rewrite E in H.
  destruct (errors s); [reflexivity | discriminate].
Qed.

Lemma noErrors_nil s : noErrors s = true <-> errors s = [].
Proof. unfold noErrors. destruct (errors s); split; congruence. Qed.

Section Frames.

Variable project : Project.
Variable projectFile : File.
Variable os : Permissions.

Lemma quiet_replaceFileIfDifferent f data s :
  quiet s (snd (replaceFileIfDifferent os f data s)).
Proof.
  unfold replaceFileIfDifferent.
  destruct (overwriteFileWithNewDataIfDifferent os f data (disk s)) as [[d w]|]; cbn [snd].
  - destruct w; [|apply quiet_setDisk].
    eapply quiet_trans; [apply quiet_setDisk | apply quiet_emit; discriminate].
  - apply quiet_addError.
Qed.

Lemma quiet_addFileToGeneratedGroup file s :
  quiet s (snd (addFileToGeneratedGroup file s)).
Proof.
  unfold addFileToGeneratedGroup. break_match; cbn [snd];
    [apply quiet_refl | apply quiet_setGroup].
Qed.

Lemma quiet_saveGeneratedFile filePath data s :
  quiet s (snd (saveGeneratedFile project os filePath data s)).
Proof.
  unfold saveGeneratedFile. destruct (createDirectory os _ _) as [d|]; cbn [snd].
  - pose proof (quiet_replaceFileIfDifferent
                  (getChildFile (generatedCodeFolder project) filePath) data (setDisk d s)) as Q.
    destruct (replaceFileIfDifferent os _ data (setDisk d s)) as [ok s1]. cbn [snd] in Q.
    destruct ok; cbn [snd]; [|exact Q].
    eapply quiet_trans; [exact Q | apply quiet_addFileToGeneratedGroup].
  - apply quiet_addError.
Qed.

Lemma quiet_runCall c s : quiet s (runCall project os c s).
Proof.
  destruct c; cbn [runCall].
  - apply quiet_saveGeneratedFile.
  - apply quiet_addFileToGeneratedGroup.
  - apply quiet_fields; reflexivity.
  - apply quiet_replaceFileIfDifferent.
Qed.

Lemma quiet_fold {A} (step : ProjectSaver -> A -> ProjectSaver) l :
  (forall a s, quiet s (step s a)) -> forall s, quiet s (fold_left step l s).
Proof.
  intros H. induction l as [|a l IH]; intros s; cbn; [apply quiet_refl|].
  eapply quiet_trans; [apply H | apply IH].
Qed.

Lemma quiet_modulePrepareExporter exporter s m :
  quiet s (modulePrepareExporter project os exporter s m).
Proof.
  unfold modulePrepareExporter. apply quiet_fold. intros c s'. apply quiet_runCall.
Qed.

Lemma quiet_writeMainProjectFile s : quiet s (writeMainProjectFile project projectFile os s).
Proof. apply quiet_replaceFileIfDifferent. Qed.

Lemma quiet_writeAppConfigFile modules s :
  quiet s (writeAppConfigFile project os modules s).
Proof.
  unfold writeAppConfigFile.
  eapply quiet_trans; [|apply quiet_saveGeneratedFile]. apply quiet_fields; reflexivity.
Qed.

Lemma quiet_writeAppHeaderFile modules s :
  quiet s (writeAppHeaderFile project os modules s).
Proof. apply quiet_saveGeneratedFile. Qed.

Lemma quiet_writeReadmeFile s : quiet s (writeReadmeFile project os s).
Proof. apply quiet_replaceFileIfDifferent. Qed.

Lemma quiet_deleteFile f s : quiet s (deleteFile f s).
Proof.
  unfold deleteFile. break_match; [|apply quiet_refl].
  eapply quiet_trans; [apply quiet_setDisk | apply quiet_emit; discriminate].
Qed.

Lemma quiet_written (written : bool) f d s :
  quiet s (if written then emit (EvWritten f) (setDisk d s) else setDisk d s).
Proof.
  destruct written; [|apply quiet_setDisk].
  eapply quiet_trans; [apply quiet_setDisk | apply quiet_emit; discriminate].
Qed.

Lemma quiet_resourceFileWrite f s : quiet s (snd (resourceFileWrite project os f s)).
Proof.
  unfold resourceFileWrite.
  destruct (overwriteFileWithNewDataIfDifferent os f _ (disk s)) as [[d w]|];
    [|apply quiet_refl].
  set (s1 := if w then _ else _).
  assert (Q1 : quiet s s1) by apply quiet_written.
  destruct (overwriteFileWithNewDataIfDifferent os _ _ (disk s1)) as [[d' w']|];
    cbn [snd]; [|exact Q1].
  eapply quiet_trans; [exact Q1 | apply quiet_written].
Qed.

Lemma quiet_writeBinaryDataFiles s : quiet s (writeBinaryDataFiles project os s).
Proof.
  unfold writeBinaryDataFiles. break_match.
  - pose proof (quiet_resourceFileWrite
      (binaryDataCpp (setBinaryDataCpp (getChildFile (generatedCodeFolder project) "BinaryData.cpp") s))
      (setBinaryDataCpp (getChildFile (generatedCodeFolder project) "BinaryData.cpp") s)) as Q.
    destruct (resourceFileWrite project os _ _) as [ok s1]. cbn [snd] in Q.
    destruct ok.
    + eapply quiet_trans; [|eapply quiet_trans; [exact Q|]]; apply quiet_fields; reflexivity.
    + eapply quiet_trans; [|eapply quiet_trans; [exact Q|apply quiet_addError]].
      apply quiet_fields; reflexivity.
  - cbv zeta. eapply quiet_trans; [|apply quiet_deleteFile].
    eapply quiet_trans; [|apply quiet_deleteFile]. apply quiet_fields; reflexivity.
Qed.

Lemma quiet_gate (step : ProjectSaver -> ProjectSaver) (b : bool) s :
  quiet s (step s) -> quiet s (if b then step s else s).
Proof. destruct b; [auto | intros _; apply quiet_refl]. Qed.

Lemma saveBeforeHeader_quiet s :
  quiet (setFile projectFile s) (saveBeforeHeader project projectFile os s).
Proof.
  unfold saveBeforeHeader.
  eapply quiet_trans; [apply quiet_writeMainProjectFile|].
  eapply quiet_trans; [apply quiet_gate, quiet_writeAppConfigFile|].
  apply quiet_gate, quiet_writeBinaryDataFiles.
Qed.

Lemma saveBeforeProjects_quiet s :
  quiet (setFile projectFile s) (saveBeforeProjects project projectFile os s).
Proof.
  unfold saveBeforeProjects.
  eapply quiet_trans; [apply saveBeforeHeader_quiet|].
  apply quiet_gate, quiet_writeAppHeaderFile.
Qed.

(** ** The loop over the exporters *)

Lemma steady_writeProject modules g exporter s :
  steady s (writeProject project os modules g exporter s).
Proof.
  unfold writeProject. destruct (createDirectory os _ _) as [d|].
  - match goal with
    | |- context [fold_left ?f modules ?s0] =>
        pose proof (quiet_fold f modules
                      (fun a s' => quiet_modulePrepareExporter exporter s' a) s0) as [Q _]
    end.
    set (s1 := fold_left _ modules _) in *.
    assert (S1 : steady s s1).
    { eapply steady_trans; [|exact Q]. apply steady_fields; reflexivity. }
    break_match.
    + eapply steady_trans; [exact S1|]. eapply steady_trans; [|apply steady_addError].
      apply steady_fields; reflexivity.
    + eapply steady_trans; [exact S1|]. apply steady_fields; reflexivity.
  - eapply steady_trans; [|apply steady_addError]. apply steady_fields; reflexivity.
Qed.

Lemma writeProjects_loop_fold modules g i s :
  i <= length (exporters project) ->
  writeProjects_loop project os modules g i s =
  fold_left (fun st e => writeProject project os modules g e st)
            (rev (firstn i (exporters project))) s.
Proof.
  revert s. induction i as [|j IH]; intros s Hi; [reflexivity|].
  cbn [writeProjects_loop].
  destruct (nth_error (exporters project) j) as [e|] eqn:E.
  - rewrite IH by lia.
    assert (F : firstn (S j) (exporters project) = (firstn j (exporters project) ++ [e])%list).
    { clear IH. revert j Hi E. induction (exporters project) as [|x l IHl]; intros j Hi E.
      - cbn in Hi. lia.
      - destruct j as [|j]; cbn in *.
        + injection E as ->. reflexivity.
        + rewrite <- IHl by (auto; lia). reflexivity. }
    rewrite F, rev_app_distr. reflexivity.
  - apply nth_error_None in E. lia.
Qed.

(** The loop of [writeProjects] runs through the exporters from the last
    one to the first one. *)
Lemma writeProjects_fold modules s :
  writeProjects project os modules s =
  fold_left (fun st e => writeProject project os modules (generatedFilesGroup s) e st)
            (rev (exporters project)) s.
Proof.
  unfold writeProjects. rewrite writeProjects_loop_fold by lia.
  rewrite firstn_all. reflexivity.
Qed.

Lemma steady_fold {A} (step : ProjectSaver -> A -> ProjectSaver) l :
  (forall a s, steady s (step s a)) -> forall s, steady s (fold_left step l s).
Proof.
  intros H. induction l as [|a l IH]; intros s; cbn; [apply steady_refl|].
  eapply steady_trans; [apply H | apply IH].
Qed.

Lemma steady_writeProjects modules s : steady s (writeProjects project os modules s).
Proof.
  rewrite writeProjects_fold. apply steady_fold. intros e s'. apply steady_writeProject.
Qed.

Lemma steady_gate (step : ProjectSaver -> ProjectSaver) (b : bool) s :
  steady s (step s) -> steady s (if b then step s else s).
Proof. destruct b; [auto | intros _; apply steady_refl]. Qed.

Lemma steady_saveFiles s :
  steady (setFile projectFile s) (saveFiles project projectFile os s).
Proof.
  unfold saveFiles.
  eapply steady_trans; [apply saveBeforeProjects_quiet|].
  eapply steady_trans; [apply steady_gate, steady_writeProjects|].
  eapply steady_trans; [apply steady_gate, quiet_writeAppConfigFile|].
  apply steady_gate, quiet_writeReadmeFile.
Qed.

End Frames.

(* ===================================================================== *)
(** * The outcome of save *)
(* ===================================================================== *)

(** C3 -- Error outcome of [save].  When an error is on record at the end,
    the project's file location is the one it had before the call and the
    returned string is the first error on record; when none is, the
    location is the target file and the returned string is empty.  The
    restoring of the location touches nothing else: the disk, the errors and
    the trace are those the generation left, so no file written before is
    deleted by it. *)
Theorem save_error_outcome :
  forall (project : Project) (projectFile : File) (os : Permissions) (s : ProjectSaver),
    let r := save project projectFile os s in
    (forall e rest, errors (snd r) = e :: rest ->
        projectLocation (snd r) = projectLocation s /\ fst r = e)
    /\ (errors (snd r) = [] ->
        projectLocation (snd r) = projectFile /\ fst r = EmptyString)
    /\ disk (snd r) = disk (saveFiles project projectFile os s)
    /\ errors (snd r) = errors (saveFiles project projectFile os s)
    /\ trace (snd r) = trace (saveFiles project projectFile os s)
    /\ generatedFilesGroup (snd r) = generatedFilesGroup (saveFiles project projectFile os s).
Proof.
  intros project projectFile os s r. subst r. unfold save.
  destruct (steady_saveFiles project projectFile os s) as [L _].
  cbn [setFile projectLocation] in L.
  set (s1 := saveFiles project projectFile os s) in *.
  unfold noErrors. destruct (errors s1) as [|e0 rest0] eqn:E; cbn [negb fst snd].
  - rewrite E. split; [intros e rest H; discriminate | auto].
  - cbn [setFile errors projectLocation disk trace generatedFilesGroup]. rewrite E.
    split; [|split; [discriminate | auto]].
    intros e rest H. injection H as <- _. split; reflexivity.
Qed.

(* ===================================================================== *)
(** * What each member registers in the generated-files group *)
(* ===================================================================== *)

Lemma registers_same targets s s' :
  generatedFilesGroup s' = generatedFilesGroup s -> registers targets s s'.
Proof.
  intros E. unfold registers. rewrite E. repeat split; auto.
  apply incl_refl.
Qed.

Lemma registers_trans t1 t2 s1 s2 s3 :
  registers t1 s1 s2 -> registers t2 s2 s3 -> registers (t1 ++ t2) s1 s3.
Proof.
  intros (G1 & I1 & N1 & D1) (G2 & I2 & N2 & D2). repeat split.
  - auto.
  - eapply incl_tran; eauto.
  - intros f Hf. rewrite in_app_iff.
    destruct (N2 f Hf) as [H|H]; [|tauto]. destruct (N1 f H); tauto.
  - auto.
Qed.

Lemma registers_incl t t' s s' :
  incl t t' -> registers t s s' -> registers t' s s'.
Proof.
  intros I (G & In1 & N & D). repeat split; auto.
  intros f Hf. destruct (N f Hf); auto.
Qed.

Lemma registers_nil_trans t s1 s2 s3 :
  registers [] s1 s2 -> registers t s2 s3 -> registers t s1 s3.
Proof. intros H1 H2. apply (registers_trans [] t s1 s2 s3 H1 H2). Qed.

Lemma registers_trans_nil t s1 s2 s3 :
  registers t s1 s2 -> registers [] s2 s3 -> registers t s1 s3.
Proof.
  intros H1 H2. pose proof (registers_trans t [] s1 s2 s3 H1 H2) as H.
  rewrite app_nil_r in H. exact H.
Qed.

Lemma NoDup_snoc {A} (l : list A) x : NoDup l -> ~ In x l -> NoDup (l ++ [x]).
Proof.
  intros N H. apply NoDup_rev in N. rewrite <- (rev_involutive (l ++ [x])).
  apply NoDup_rev. rewrite rev_app_distr. cbn. constructor; [|exact N].
  rewrite <- in_rev. exact H.
Qed.

Lemma registers_addFileToGeneratedGroup file s :
  registers [file] s (snd (addFileToGeneratedGroup file s)).
Proof.
  unfold addFileToGeneratedGroup.
  destruct (findItemForFile (generatedFilesGroup s) file) eqn:F; cbn [snd].
  - apply registers_same. reflexivity.
  - apply findItemForFile_None in F.
    destruct (generatedFilesGroup s) as [f c | name id children] eqn:G.
    + apply registers_same. cbn. rewrite G. reflexivity.
    + unfold registers. cbn [setGroup generatedFilesGroup]. rewrite G.
      rewrite itemFiles_addFile. repeat split.
      * apply incl_appl, incl_refl.
      * intros f Hf. apply in_app_or in Hf. tauto.
      * intros _ N. apply NoDup_snoc; assumption.
Qed.

Section Registers.

Variable project : Project.
Variable os : Permissions.

Lemma group_replaceFileIfDifferent f data s :
  generatedFilesGroup (snd (replaceFileIfDifferent os f data s)) = generatedFilesGroup s.
Proof.
  unfold replaceFileIfDifferent.
  destruct (overwriteFileWithNewDataIfDifferent os f data (disk s)) as [[d w]|];
    [destruct w|]; reflexivity.
Qed.

Lemma registers_saveGeneratedFile filePath data s :
  registers [getChildFile (generatedCodeFolder project) filePath] s
            (snd (saveGeneratedFile project os filePath data s)).
Proof.
  unfold saveGeneratedFile. destruct (createDirectory os _ _) as [d|]; cbn [snd];
    [|apply registers_same; reflexivity].
  pose proof (group_replaceFileIfDifferent
                (getChildFile (generatedCodeFolder project) filePath) data (setDisk d s)) as G.
  destruct (replaceFileIfDifferent os _ data (setDisk d s)) as [ok s1]. cbn [snd] in G.
  destruct ok; cbn [snd]; [|apply registers_same; exact G].
  eapply registers_nil_trans; [apply registers_same; exact G|].
  apply registers_addFileToGeneratedGroup.
Qed.

Lemma registers_runCall c s :
  registers (callTarget (generatedCodeFolder project) c) s (runCall project os c s).
Proof.
  destruct c; cbn [runCall callTarget].
  - apply registers_saveGeneratedFile.
  - apply registers_addFileToGeneratedGroup.
  - apply registers_same. reflexivity.
  - apply registers_same. apply group_replaceFileIfDifferent.
Qed.

Lemma registers_fold {A} (step : ProjectSaver -> A -> ProjectSaver)
  (targets : A -> list File) l :
  (forall a s, registers (targets a) s (step s a)) ->
  forall s, registers (flat_map targets l) s (fold_left step l s).
Proof.
  intros H. induction l as [|a l IH]; intros s; cbn [fold_left flat_map].
  - apply registers_same. reflexivity.
  - eapply registers_trans; [apply H | apply IH].
Qed.

Lemma registers_modulePrepareExporter exporter s m :
  registers (flat_map (callTarget (generatedCodeFolder project)) (prepareExporter m exporter))
            s (modulePrepareExporter project os exporter s m).
Proof.
  unfold modulePrepareExporter. apply registers_fold. intros c s'. apply registers_runCall.
Qed.

Lemma registers_prepare exporter modules s :
  registers (registeredFor project modules exporter) s
            (fold_left (modulePrepareExporter project os exporter) modules s).
Proof.
  unfold registeredFor.
  apply (registers_fold (modulePrepareExporter project os exporter)
           (fun m => flat_map (callTarget (generatedCodeFolder project))
                              (prepareExporter m exporter))).
  intros m s'. apply registers_modulePrepareExporter.
Qed.

(** ** One turn of the loop over the exporters *)

(** The exporter whose target folder cannot be created is not called; any
    other exporter is called once, with a group that has the files of the
    snapshot and the files registered while this exporter was prepared,
    and no other file. *)
Lemma writeProject_handed modules g exporter s :
  exists handed,
    handedGroups (trace (writeProject project os modules g exporter s)) =
      (handedGroups (trace s) ++ handed)%list /\
    map fst handed = (if targetFolderCreated os exporter then [exporter] else []) /\
    forall e g', In (e, g') handed ->
      e = exporter /\
      (forall f, In f (itemFiles g) -> In f (itemFiles g')) /\
      (forall f, In f (itemFiles g') ->
                 In f (itemFiles g) \/ In f (registeredFor project modules exporter)).
Proof.
  unfold writeProject, createDirectory, targetFolderCreated.
  destruct (canCreateDirectory os (getTargetFolder exporter)).
  - match goal with
    | |- context [fold_left ?f modules ?s0] =>
        pose proof (quiet_fold f modules
                      (fun a s' => quiet_modulePrepareExporter project os exporter s' a) s0)
          as [_ Q];
        pose proof (registers_prepare exporter modules s0) as (_ & I & R & _);
        set (s1 := fold_left f modules s0) in *
    end.
    cbn [setGroup setDisk emit trace generatedFilesGroup] in Q, R, I.
    rewrite handedGroups_app in Q. cbn in Q. rewrite app_nil_r in Q.
    exists [(exporter, sortGroupRecursively (generatedFilesGroup s1))].
    split; [|split; [reflexivity|]].
    + destruct (create exporter _);
        cbn [addError emit setGroup trace generatedFilesGroup];
        rewrite handedGroups_app, Q; reflexivity.
    + intros e g' [E|[]]. injection E as <- <-. split; [reflexivity|]. split.
      * intros f Hf.
        eapply Permutation_in;
          [symmetry; apply itemFiles_sortGroupRecursively | apply I; exact Hf].
      * intros f Hf. apply R.
        eapply Permutation_in; [apply itemFiles_sortGroupRecursively | exact Hf].
  - exists []. cbn [addError emit trace]. rewrite handedGroups_app. cbn.
    split; [reflexivity | split; [reflexivity | intros e g' []]].
Qed.

Lemma writeProjects_handed modules s :
  exists handed,
    handedGroups (trace (writeProjects project os modules s)) =
      (handedGroups (trace s) ++ handed)%list /\
    map fst handed = filter (targetFolderCreated os) (rev (exporters project)) /\
    forall e g', In (e, g') handed ->
      In e (exporters project) /\
      (forall f, In f (itemFiles (generatedFilesGroup s)) -> In f (itemFiles g')) /\
      (forall f, In f (itemFiles g') ->
                 In f (itemFiles (generatedFilesGroup s)) \/
                 In f (registeredFor project modules e)).
Proof.
  rewrite writeProjects_fold.
  assert (I : incl (rev (exporters project)) (exporters project))
    by (intros x Hx; apply in_rev; exact Hx).
  revert I. generalize (rev (exporters project)) as l.
  generalize (generatedFilesGroup s) as g. intros g l. revert s.
  induction l as [|e l IH]; intros s I.
  - exists []. cbn. rewrite app_nil_r. repeat split; auto; destruct H.
  - cbn [fold_left].
    destruct (writeProject_handed modules g e s) as (h1 & T1 & N1 & P1).
    destruct (IH (writeProject project os modules g e s)) as (h2 & T2 & N2 & P2).
    { intros x Hx. apply I. right. exact Hx. }
    exists (h1 ++ h2)%list. split; [|split].
    + rewrite T2, T1, app_assoc. reflexivity.
    + rewrite map_app, N1, N2. cbn [filter].
      destruct (targetFolderCreated os e); reflexivity.
    + intros e' g' Hin. apply in_app_or in Hin as [Hin|Hin].
      * destruct (P1 e' g' Hin) as [-> F]. split; [apply I; left; reflexivity | exact F].
      * apply (P2 e' g' Hin).
Qed.

End Registers.

(* ===================================================================== *)
(** * The exporters in a run of save *)
(* ===================================================================== *)

Section Exporters.

Variable project : Project.
Variable projectFile : File.
Variable os : Permissions.

Let modules := requiredModules project.

(** The calls of exporters in a run of [save] are those of [writeProjects],
    which runs when the steps before it left no error. *)
Lemma save_handed s :
  handedGroups (trace (snd (save project projectFile os s))) =
  handedGroups (trace (let s5 := saveBeforeProjects project projectFile os s in
                       if noErrors s5 then writeProjects project os modules s5 else s5)).
Proof.
  unfold save. cbn [snd].
  match goal with
  | |- handedGroups (trace (if ?b then setFile ?f ?x else ?x)) = _ =>
      replace (trace (if b then setFile f x else x)) with (trace x)
        by (destruct b; reflexivity)
  end.
  unfold saveFiles. cbv zeta.
  set (s5 := saveBeforeProjects project projectFile os s).
  set (s6 := if noErrors s5 then writeProjects project os (requiredModules project) s5 else s5).
  change (if noErrors s5 then writeProjects project os modules s5 else s5) with s6.
  set (s7 := if noErrors s6 then writeAppConfigFile project os (requiredModules project) s6 else s6).
  assert (Q7 : quiet s6 s7) by (apply quiet_gate, quiet_writeAppConfigFile).
  assert (Q8 : quiet s7 (if fs_exists (generatedCodeFolder project) (disk s7) && noErrors s7
                         then writeReadmeFile project os s7 else s7))
    by (apply quiet_gate, quiet_writeReadmeFile).
  destruct Q7 as [_ Q7], Q8 as [_ Q8]. congruence.
Qed.

Lemma saveBeforeProjects_handed s :
  handedGroups (trace (saveBeforeProjects project projectFile os s)) = handedGroups (trace s).
Proof.
  destruct (saveBeforeProjects_quiet project projectFile os s) as [_ Q]. exact Q.
Qed.

(** The errors on record at the end of [save] when [writeProjects] ran and
    left errors: its errors. *)
Lemma save_errors_after_projects s :
  let s5 := saveBeforeProjects project projectFile os s in
  noErrors s5 = true ->
  noErrors (writeProjects project os modules s5) = false ->
  errors (snd (save project projectFile os s)) = errors (writeProjects project os modules s5).
Proof.
  intros s5 H5 H6. unfold save. cbn [snd].
  match goal with
  | |- errors (if ?b then setFile ?f ?x else ?x) = _ =>
      replace (errors (if b then setFile f x else x)) with (errors x)
        by (destruct b; reflexivity)
  end.
  unfold saveFiles. cbv zeta. fold s5. rewrite H5.
  fold modules. rewrite H6. cbv iota. rewrite H6, andb_false_r. reflexivity.
Qed.

(** ** An exporter's turn, by cases *)

Lemma writeProject_no_folder g exporter s :
  targetFolderCreated os exporter = false ->
  errors (writeProject project os modules g exporter s) =
  (errors s ++ [cantCreateFolder exporter])%list.
Proof.
  unfold targetFolderCreated, writeProject, createDirectory. intros ->. reflexivity.
Qed.

Hypothesis all_writable : forall f, canWriteFile os f = true.
Hypothesis folder_creatable : canCreateDirectory os (generatedCodeFolder project) = true.

Lemma overwrite_succeeds f data d :
  overwriteFileWithNewDataIfDifferent os f data d <> None.
Proof.
  unfold overwriteFileWithNewDataIfDifferent. rewrite all_writable.
  repeat break_match; discriminate.
Qed.

Lemma errors_replaceFileIfDifferent f data s :
  errors (snd (replaceFileIfDifferent os f data s)) = errors s /\
  fst (replaceFileIfDifferent os f data s) = true.
Proof.
  unfold replaceFileIfDifferent.
  pose proof (overwrite_succeeds f data (disk s)) as H.
  destruct (overwriteFileWithNewDataIfDifferent os f data (disk s)) as [[d w]|];
    [|congruence].
  destruct w; split; reflexivity.
Qed.

Lemma errors_addFileToGeneratedGroup file s :
  errors (snd (addFileToGeneratedGroup file s)) = errors s.
Proof. unfold addFileToGeneratedGroup. break_match; reflexivity. Qed.

Lemma errors_saveGeneratedFile filePath data s :
  errors (snd (saveGeneratedFile project os filePath data s)) = errors s.
Proof.
  unfold saveGeneratedFile, createDirectory. rewrite folder_creatable.
  match goal with
  | |- context [replaceFileIfDifferent os ?f data ?s0] =>
      destruct (errors_replaceFileIfDifferent f data s0) as [E T];
      destruct (replaceFileIfDifferent os f data s0) as [ok s1]
  end.
  cbn [fst snd] in E, T. subst ok. rewrite errors_addFileToGeneratedGroup, E.
  destruct (fs_isDirectory _ _); reflexivity.
Qed.

Lemma errors_runCall c s : errors (runCall project os c s) = errors s.
Proof.
  destruct c; cbn [runCall].
  - apply errors_saveGeneratedFile.
  - apply errors_addFileToGeneratedGroup.
  - reflexivity.
  - apply errors_replaceFileIfDifferent.
Qed.

Lemma errors_fold {A} (step : ProjectSaver -> A -> ProjectSaver) l :
  (forall a s, errors (step s a) = errors s) ->
  forall s, errors (fold_left step l s) = errors s.
Proof.
  intros H. induction l as [|a l IH]; intros s; cbn; [reflexivity|].
  rewrite IH. apply H.
Qed.

Lemma writeProject_succeeds g exporter s :
  targetFolderCreated os exporter = true ->
  (forall group, create exporter group = None) ->
  errors (writeProject project os modules g exporter s) = errors s.
Proof.
  unfold targetFolderCreated, writeProject, createDirectory. intros -> C.
  rewrite C. cbn [emit setGroup errors].
  rewrite errors_fold; [reflexivity|].
  intros m s'. unfold modulePrepareExporter. apply errors_fold.
  intros c s''. apply errors_runCall.
Qed.

End Exporters.

Lemma containsFile_In i f : containsFile i f = true <-> In f (itemFiles i).
Proof.
  unfold containsFile. rewrite existsb_exists. split.
  - intros (x & Hx & E). apply File_eqb_eq in E. subst. exact Hx.
  - intros H. exists f. split; [exact H | apply File_eqb_refl].
Qed.

Lemma existsb_File_eqb_false f l : existsb (File_eqb f) l = false <-> ~ In f l.
Proof.
  split.
  - intros E H. assert (T : existsb (File_eqb f) l = true).
    { apply existsb_exists. exists f. split; [exact H | apply File_eqb_refl]. }
    congruence.
  - intros H. destruct (existsb (File_eqb f) l) eqn:E; [|reflexivity].
    apply existsb_exists in E as (x & Hx & E). apply File_eqb_eq in E. subst.
    contradiction.
Qed.

(** The exporters called in a run of [save] whose steps before the
    exporters left no error: those whose target folder is created, from the
    last declared one to the first. *)
Lemma save_exporterCalls project projectFile os s :
  noErrors (saveBeforeProjects project projectFile os s) = true ->
  exporterCalls (trace (snd (save project projectFile os s))) =
  (exporterCalls (trace s)
     ++ filter (targetFolderCreated os) (rev (exporters project)))%list.
Proof.
  intros H. unfold exporterCalls.
  rewrite save_handed. cbv zeta. rewrite H.
  destruct (writeProjects_handed project os (requiredModules project)
              (saveBeforeProjects project projectFile os s)) as (handed & T & N & _).
  rewrite T, map_app, N, saveBeforeProjects_handed. reflexivity.
Qed.

(** C4 (as amended) -- Order of the exporters.  In a run of [save] whose
    steps before the exporters left no error, the exporters are called from
    the last declared one to the first declared one (the loop counts its
    index down), those whose target folder cannot be created being left
    out. *)
Theorem exporters_called_last_to_first :
  forall (project : Project) (projectFile : File) (os : Permissions) (s : ProjectSaver),
    noErrors (saveBeforeProjects project projectFile os s) = true ->
    exporterCalls (trace (snd (save project projectFile os s))) =
    (exporterCalls (trace s)
       ++ filter (targetFolderCreated os) (rev (exporters project)))%list.
Proof.
  intros project projectFile os s H. apply save_exporterCalls. exact H.
Qed.

(** C1 -- Partial failure across exporters.  For a project with three
    exporters of which the second one's target folder cannot be created, in
    a run of [save] whose steps before the exporters left no error: the
    first and the third exporter are both called (whatever they raise), the
    second is not; the turn of the second exporter adds one error, the
    message naming its target folder, which is on record at the end; and
    when nothing else fails (every file can be written, the two other
    exporters raise nothing) it is the only error on record, and the one
    [save] returns. *)
Theorem save_partial_failure :
  forall (project : Project) (projectFile : File) (os : Permissions) (s : ProjectSaver)
         (e1 e2 e3 : ProjectExporter),
    exporters project = [e1; e2; e3] ->
    targetFolderCreated os e1 = true ->
    targetFolderCreated os e2 = false ->
    targetFolderCreated os e3 = true ->
    noErrors (saveBeforeProjects project projectFile os s) = true ->
    let r := save project projectFile os s in
    exporterCalls (trace (snd r)) = (exporterCalls (trace s) ++ [e3; e1])%list
    /\ (forall g st,
          errors (writeProject project os (requiredModules project) g e2 st)
          = (errors st ++ [cantCreateFolder e2])%list)
    /\ In (cantCreateFolder e2) (errors (snd r))
    /\ ((forall f, canWriteFile os f = true) ->
        canCreateDirectory os (generatedCodeFolder project) = true ->
        (forall group, create e1 group = None) ->
        (forall group, create e3 group = None) ->
        errors (snd r) = [cantCreateFolder e2] /\ fst r = cantCreateFolder e2).
Proof.
  intros project projectFile os s e1 e2 e3 X C1 C2 C3 H r. subst r.
  set (s5 := saveBeforeProjects project projectFile os s) in *.
  set (g := generatedFilesGroup s5).
  set (sA := writeProject project os (requiredModules project) g e3 s5).
  set (sB := writeProject project os (requiredModules project) g e2 sA).
  assert (W : writeProjects project os (requiredModules project) s5 = writeProject project os (requiredModules project) g e1 sB).
  { rewrite writeProjects_fold, X. reflexivity. }
  assert (EB : errors sB = (errors sA ++ [cantCreateFolder e2])%list)
    by (apply writeProject_no_folder; exact C2).
  destruct (steady_writeProject project os (requiredModules project) g e1 sB) as [_ [added EC]].
  rewrite <- W in EC.
  assert (N6 : noErrors (writeProjects project os (requiredModules project) s5) = false).
  { unfold noErrors. rewrite EC, EB. destruct (errors sA); reflexivity. }
  pose proof (save_errors_after_projects project projectFile os s H N6) as ES.
  fold s5 in ES.
  split; [|split; [|split]].
  - rewrite (save_exporterCalls project projectFile os s H), X.
    cbn [rev app filter]. rewrite C1, C2, C3. reflexivity.
  - intros g' st. apply writeProject_no_folder. exact C2.
  - rewrite ES, EC, EB. apply in_or_app. left. apply in_or_app. right. left. reflexivity.
  - intros Wr Fc R1 R3.
    assert (EA : errors sA = []).
    { unfold sA. rewrite (writeProject_succeeds project os Wr Fc g e3 s5 C3 R3).
      apply noErrors_nil. exact H. }
    assert (E6 : errors (writeProjects project os (requiredModules project) s5) = [cantCreateFolder e2]).
    { rewrite W, (writeProject_succeeds project os Wr Fc g e1 sB C1 R1), EB, EA.
      reflexivity. }
    split; [rewrite ES; exact E6|].
    unfold save. cbn [fst].
    match goal with
    | |- nth 0 (errors (if ?b then setFile ?f ?x else ?x)) _ = _ =>
        replace (errors (if b then setFile f x else x)) with (errors x)
          by (destruct b; reflexivity)
    end.
    assert (ES' : errors (saveFiles project projectFile os s) = [cantCreateFolder e2]).
    { rewrite <- E6, <- ES. unfold save. cbn [snd].
      match goal with
      | |- _ = errors (if ?b then setFile ?f ?x else ?x) => destruct b; reflexivity
      end. }
    rewrite ES'. reflexivity.
Qed.

(** C2 -- Exporter isolation.  The group handed to an exporter by
    [writeProjects] holds every file of the snapshot taken before the
    first exporter ran, and beyond these only files registered while this
    very exporter was prepared: a file that is not in the snapshot and that
    the preparation of this exporter does not register is not in its group,
    whatever was registered for the exporters that ran before it. *)
Theorem exporter_isolation :
  forall (project : Project) (os : Permissions) (modules : list LibraryModule)
         (s : ProjectSaver) (handed : list (ProjectExporter * Item))
         (exporter : ProjectExporter) (group : Item),
    handedGroups (trace (writeProjects project os modules s)) =
      (handedGroups (trace s) ++ handed)%list ->
    In (exporter, group) handed ->
    (forall f, containsFile (generatedFilesGroup s) f = true -> containsFile group f = true)
    /\ (forall f, containsFile (generatedFilesGroup s) f = false ->
                  existsb (File_eqb f) (registeredFor project modules exporter) = false ->
                  containsFile group f = false).
Proof.
  intros project os modules s handed exporter group T Hin.
  destruct (writeProjects_handed project os modules s) as (handed' & T' & _ & P).
  rewrite T' in T. apply app_inv_head in T. subst handed'.
  destruct (P exporter group Hin) as (_ & Keep & Only). split.
  - intros f Hf. apply containsFile_In. apply Keep. apply containsFile_In. exact Hf.
  - intros f Hs Hr. apply existsb_File_eqb_false. intros Hf.
    apply existsb_File_eqb_false in Hs, Hr.
    destruct (Only f Hf); contradiction.
Qed.

(* ===================================================================== *)
(** * The text of the configuration header *)
(* ===================================================================== *)

Lemma string_app_assoc (a b c : string) : ((a ++ b) ++ c)%string = (a ++ (b ++ c))%string.
Proof. induction a as [|x a IH]; cbn; [reflexivity | rewrite IH; reflexivity]. Qed.

Lemma string_app_nil_r (a : string) : (a ++ EmptyString)%string = a.
Proof. induction a as [|x a IH]; cbn; [reflexivity | rewrite IH; reflexivity]. Qed.

Lemma string_length_app (a b : string) :
  String.length (a ++ b) = String.length a + String.length b.
Proof. induction a as [|x a IH]; cbn; [reflexivity | rewrite IH; reflexivity]. Qed.

Lemma joinLines_app l1 l2 :
  joinLines (l1 ++ l2) = (joinLines l1 ++ joinLines l2)%string.
Proof.
  induction l1 as [|x l1 IH]; [reflexivity|].
  cbn [app joinLines]. rewrite IH, !string_app_assoc. reflexivity.
Qed.

Section ConfigHeader.

Variable project : Project.

Lemma writeConfigFlag_line f out :
  writeConfigFlag project f out = (out ++ flagLine project f ++ newLine)%string.
Proof.
  unfold writeConfigFlag, flagLine.
  destruct (String.eqb _ configFlagEnabled); [|destruct (String.eqb _ configFlagDisabled)];
    rewrite !string_app_assoc; reflexivity.
Qed.

Lemma writeConfigFlags_lines flags out :
  fold_left (fun o f => writeConfigFlag project f o) flags out =
  (out ++ joinLines (map (flagLine project) flags))%string.
Proof.
  revert out. induction flags as [|f flags IH]; intros out; cbn [fold_left map joinLines].
  - symmetry. apply string_app_nil_r.
  - rewrite IH, writeConfigFlag_line, !string_app_assoc. reflexivity.
Qed.

Lemma writeModuleAvailable_line longest m out :
  writeModuleAvailable longest m out = (out ++ availabilityLine longest m ++ newLine)%string.
Proof.
  unfold writeModuleAvailable, availabilityLine. rewrite !string_app_assoc. reflexivity.
Qed.

Lemma writeModulesAvailable_lines longest modules out :
  fold_left (fun o m => writeModuleAvailable longest m o) modules out =
  (out ++ joinLines (map (availabilityLine longest) modules))%string.
Proof.
  revert out. induction modules as [|m modules IH]; intros out; cbn [fold_left map joinLines].
  - symmetry. apply string_app_nil_r.
  - rewrite IH, writeModuleAvailable_line, !string_app_assoc. reflexivity.
Qed.

Lemma writeModuleFlags_sections numModules j modules out :
  numModules = (j + Z.of_nat (length modules))%Z ->
  writeModuleFlags project numModules j modules out =
  (out ++ flagSections project modules)%string.
Proof.
  revert j out. induction modules as [|m rest IH]; intros j out N.
  - cbn. symmetry. apply string_app_nil_r.
  - cbn [writeModuleFlags flagSections].
    rewrite IH by (cbn [length] in N; lia).
    rewrite <- string_app_assoc. f_equal.
    unfold flagSection.
    destruct (getConfigFlags m) as [|f flags] eqn:F.
    + cbn. symmetry. apply string_app_nil_r.
    + assert (P : (0 <? Z.of_nat (length (f :: flags)))%Z = true)
        by (apply Z.ltb_lt; cbn [length]; lia).
      rewrite P, writeConfigFlags_lines.
      assert (L : (j <? numModules - 1)%Z = match rest with [] => false | _ => true end).
      { destruct rest; cbn [length] in N.
        - apply Z.ltb_ge. lia.
        - apply Z.ltb_lt. lia. }
      rewrite L. rewrite !joinLines_app. cbn [joinLines].
      destruct rest; cbn [joinLines]; rewrite !string_app_assoc; cbn [String.append];
        rewrite ?string_app_nil_r; reflexivity.
Qed.

(** The configuration header, piece by piece. *)
Lemma writeAppConfig_text modules s out :
  writeAppConfig project modules s out =
  (out ++ configProlog project
       ++ joinLines (map (availabilityLine (findLongestModuleName modules)) modules)
       ++ newLine
       ++ flagSections project modules
       ++ configEpilog project (extraAppConfigContent s))%string.
Proof.
  unfold writeAppConfig. cbv zeta.
  rewrite writeModuleFlags_sections by lia.
  rewrite writeModulesAvailable_lines.
  unfold configEpilog, configProlog, writeAutoGenWarningComment, configGuard.
  cbn [joinLines].
  destruct (isNotEmpty (extraAppConfigContent s));
    rewrite !string_app_assoc; cbn [String.append]; reflexivity.
Qed.

End ConfigHeader.

(** ** The column of the availability macros *)

Lemma findLongestModuleName_loop_max modules i longest :
  i <= length modules ->
  findLongestModuleName_loop modules i longest =
  fold_right Z.max longest (map (fun m => lengthOf (getID m)) (firstn i modules)).
Proof.
  revert longest. induction i as [|j IH]; intros longest Hi; [reflexivity|].
  cbn [findLongestModuleName_loop].
  destruct (nth_error modules j) as [m|] eqn:E.
  - rewrite IH by lia.
    assert (F : firstn (S j) modules = (firstn j modules ++ [m])%list).
    { clear IH. revert j Hi E. induction modules as [|x l IHl]; intros j Hi E.
      - cbn in Hi. lia.
      - destruct j as [|j]; cbn in *.
        + injection E as ->. reflexivity.
        + rewrite <- IHl by (auto; lia). reflexivity. }
    rewrite F, map_app, fold_right_app. cbn [map fold_right].
    f_equal. apply Z.max_comm.
  - apply nth_error_None in E. lia.
Qed.

Lemma findLongestModuleName_max modules :
  findLongestModuleName modules =
  fold_right Z.max 0%Z (map (fun m => lengthOf (getID m)) modules).
Proof.
  unfold findLongestModuleName. rewrite findLongestModuleName_loop_max by lia.
  rewrite firstn_all. reflexivity.
Qed.

Lemma findLongestModuleName_ge modules m :
  In m modules -> (lengthOf (getID m) <= findLongestModuleName modules)%Z.
Proof.
  rewrite findLongestModuleName_max.
  induction modules as [|x l IH]; intros H; [destruct H|].
  cbn [map fold_right]. destruct H as [->|H]; [lia|]. specialize (IH H). lia.
Qed.

Lemma findLongestModuleName_attained modules :
  modules <> [] ->
  exists m, In m modules /\ lengthOf (getID m) = findLongestModuleName modules.
Proof.
  rewrite findLongestModuleName_max.
  induction modules as [|x l IH]; intros N; [congruence|].
  cbn [map fold_right].
  destruct l as [|y l'].
  - exists x. split; [left; reflexivity|]. cbn. unfold lengthOf. lia.
  - destruct IH as (m & Hm & E); [discriminate|].
    destruct (Z.max_spec (lengthOf (getID x))
                (fold_right Z.max 0%Z (map (fun m => lengthOf (getID m)) (y :: l'))))
      as [[_ ->]|[_ ->]].
    + exists m. split; [right; exact Hm | exact E].
    + exists x. split; [left; reflexivity | reflexivity].
Qed.

Lemma length_repeatedString_space n :
  (0 <= n)%Z -> lengthOf (repeatedString " " n) = n.
Proof.
  intros H. unfold repeatedString, lengthOf.
  rewrite <- (Z2Nat.id n H) at 2. f_equal.
  induction (Z.to_nat n) as [|k IH]; [reflexivity|].
  cbn [repeat String.concat].
  destruct (repeat " " k); cbn in *; lia.
Qed.

Lemma lengthOf_app a b : lengthOf (a ++ b) = (lengthOf a + lengthOf b)%Z.
Proof. unfold lengthOf. rewrite string_length_app. lia. Qed.

Lemma lengthOf_availabilityLine longest m :
  (lengthOf (getID m) <= longest)%Z ->
  lengthOf (availabilityLine longest m) = (longest + 37)%Z.
Proof.
  intros H. unfold availabilityLine.
  rewrite !lengthOf_app, length_repeatedString_space by (unfold lengthOf in *; lia).
  change (lengthOf "#define JUCE_MODULE_AVAILABLE_") with 30%Z.
  change (lengthOf " 1") with 2%Z. lia.
Qed.

(** C7 (as amended) -- Flags in the configuration header.  The rendered
    header is: the prolog, one availability line per module, an empty line,
    the modules' sections of flags, the epilog.  A module's section has one
    line per flag the module exposes, in the declared order (see
    [flagSection]); the line of a flag is [#define], four spaces, the symbol
    and [ 1] when the flag is enabled, the same with [ 0] when it is
    disabled, and [//#define], two spaces and the symbol otherwise.  Every
    availability line ends in the same column, set by the longest module
    ID: its length is that of the longest ID plus 37. *)
Theorem config_header_flags :
  forall (project : Project) (modules : list LibraryModule) (s : ProjectSaver)
         (out : string),
    let longest := findLongestModuleName modules in
    writeAppConfig project modules s out =
      (out ++ configProlog project
           ++ joinLines (map (availabilityLine longest) modules)
           ++ newLine
           ++ flagSections project modules
           ++ configEpilog project (extraAppConfigContent s))%string
    /\ (forall f, getConfigFlag project (symbol f) = configFlagEnabled ->
          flagLine project f = ("#define    " ++ symbol f ++ " 1")%string)
    /\ (forall f, getConfigFlag project (symbol f) = configFlagDisabled ->
          flagLine project f = ("#define    " ++ symbol f ++ " 0")%string)
    /\ (forall f, getConfigFlag project (symbol f) <> configFlagEnabled ->
          getConfigFlag project (symbol f) <> configFlagDisabled ->
          flagLine project f = ("//#define  " ++ symbol f)%string)
    /\ (forall m, In m modules ->
          lengthOf (availabilityLine longest m) = (longest + 37)%Z /\
          (lengthOf (getID m) <= longest)%Z)
    /\ (modules <> [] ->
        exists m, In m modules /\ lengthOf (getID m) = longest).
Proof.
  intros project modules s out longest. repeat split.
  - apply writeAppConfig_text.
  - intros f E. unfold flagLine. rewrite E. reflexivity.
  - intros f E. unfold flagLine. rewrite E. reflexivity.
  - intros f N1 N2. unfold flagLine.
    apply String.eqb_neq in N1, N2. rewrite N1, N2. reflexivity.
  - apply lengthOf_availabilityLine, findLongestModuleName_ge. assumption.
  - apply findLongestModuleName_ge. assumption.
  - apply findLongestModuleName_attained.
Qed.

(* ===================================================================== *)
(** * A run of save that leaves no error *)
(* ===================================================================== *)

Lemma findItemForFile_Some_In i file :
  findItemForFile i file <> None -> In file (itemFiles i).
Proof.
  intros H. apply containsFile_In.
  destruct (containsFile i file) eqn:C; [reflexivity|].
  exfalso. apply H. apply findItemForFile_None.
  intros Hin. apply containsFile_In in Hin. congruence.
Qed.

Lemma app_one_neq {A} (l : list A) x : (l ++ [x])%list <> l.
Proof.
  intros E. assert (L : length (l ++ [x]) = length l) by (rewrite E; reflexivity).
  rewrite length_app in L. cbn in L. lia.
Qed.

Lemma In_addFileToGeneratedGroup file s :
  isGroup (generatedFilesGroup s) = true ->
  In file (itemFiles (generatedFilesGroup (snd (addFileToGeneratedGroup file s)))).
Proof.
  intros G. unfold addFileToGeneratedGroup.
  destruct (findItemForFile (generatedFilesGroup s) file) eqn:F; cbn [snd].
  - apply findItemForFile_Some_In. congruence.
  - apply isGroup_inv in G as (name & id & children & G).
    cbn [setGroup generatedFilesGroup]. rewrite G, itemFiles_addFile.
    apply in_or_app. right. left. reflexivity.
Qed.

Lemma withFileExtension_child folder :
  withFileExtension (getChildFile folder "BinaryData.cpp") ".h" =
  getChildFile folder "BinaryData.h".
Proof.
  unfold withFileExtension, getChildFile.
  destruct (folder ++ ["BinaryData.cpp"])%list eqn:E.
  - destruct folder; discriminate.
  - rewrite <- E, last_last, removelast_last. reflexivity.
Qed.

Lemma withFileExtension_child_nodot folder :
  withFileExtension (getChildFile folder "BinaryData.cpp") "h" =
  getChildFile folder "BinaryData.h".
Proof.
  unfold withFileExtension, getChildFile.
  destruct (folder ++ ["BinaryData.cpp"])%list eqn:E.
  - destruct folder; discriminate.
  - rewrite <- E, last_last, removelast_last. reflexivity.
Qed.

Lemma count_one_of_NoDup f i :
  NoDup (itemFiles i) -> In f (itemFiles i) -> countItemsFor f i = 1.
Proof.
  unfold countItemsFor. induction (itemFiles i) as [|x l IH]; intros N H; [destruct H|].
  inversion N as [|? ? Nx Nl]; subst. cbn [filter].
  destruct (File_eqb f x) eqn:E.
  - apply File_eqb_eq in E. subst x. cbn [length]. f_equal.
    clear IH N Nl H. induction l as [|y l IHl]; [reflexivity|].
    cbn [filter]. destruct (File_eqb f y) eqn:E'.
    + apply File_eqb_eq in E'. subst. exfalso. apply Nx. left. reflexivity.
    + apply IHl. intros H. apply Nx. right. exact H.
  - apply File_eqb_neq in E. destruct H as [H|H]; [congruence|]. apply IH; assumption.
Qed.

Section Success.

Variable project : Project.
Variable projectFile : File.
Variable os : Permissions.

Let modules := requiredModules project.
Let folder := generatedCodeFolder project.

(** A call of [saveGeneratedFile] that adds no error has registered its
    file. *)
Lemma saveGeneratedFile_registered filePath data s :
  isGroup (generatedFilesGroup s) = true ->
  errors (snd (saveGeneratedFile project os filePath data s)) = errors s ->
  In (getChildFile folder filePath)
     (itemFiles (generatedFilesGroup (snd (saveGeneratedFile project os filePath data s)))).
Proof.
  intros G. unfold saveGeneratedFile.
  destruct (createDirectory os _ _) as [d|]; cbn [snd];
    [|cbn [addError errors]; intros E; exfalso; eapply app_one_neq; exact E].
  unfold replaceFileIfDifferent. cbn [setDisk disk].
  destruct (overwriteFileWithNewDataIfDifferent os _ data d) as [[d' w]|]; cbn [snd].
  - intros _. apply In_addFileToGeneratedGroup. destruct w; exact G.
  - cbn [addError errors setDisk]. intros E. exfalso. eapply app_one_neq. exact E.
Qed.

(** A gated step that ends without error was taken, and started without
    error. *)
Lemma gate_taken (step : ProjectSaver -> ProjectSaver) s :
  steady s (step s) ->
  noErrors (if noErrors s then step s else s) = true ->
  noErrors s = true /\ (if noErrors s then step s else s) = step s.
Proof.
  intros S H. destruct (noErrors s) eqn:N; [auto | congruence].
Qed.

(** The states a run of [save] goes through when it ends without error. *)
Lemma save_success s :
  errors (snd (save project projectFile os s)) = [] ->
  let s1 := writeMainProjectFile project projectFile os (setFile projectFile s) in
  let s2 := writeAppConfigFile project os modules s1 in
  let s3 := writeBinaryDataFiles project os s2 in
  let s4 := writeAppHeaderFile project os modules s3 in
  let s5 := writeProjects project os modules s4 in
  let s6 := writeAppConfigFile project os modules s5 in
  let s7 := if fs_exists folder (disk s6) then writeReadmeFile project os s6 else s6 in
  snd (save project projectFile os s) = s7 /\
  errors s1 = [] /\ errors s2 = [] /\ errors s3 = [] /\ errors s4 = [] /\
  errors s5 = [] /\ errors s6 = [] /\ errors s7 = [].
Proof.
  intros E s1 s2 s3 s4 s5 s6 s7.
  unfold save in E |- *. cbn [snd] in E |- *.
  set (s8 := saveFiles project projectFile os s) in *.
  assert (E8 : noErrors s8 = true).
  { apply noErrors_nil. destruct (negb (noErrors s8)); exact E. }
  rewrite E8. cbn [negb]. clear E.
  unfold s8, saveFiles, saveBeforeProjects, saveBeforeHeader in *. cbv zeta in *.
  fold modules folder in E8 |- *. fold s1 in E8 |- *.
  set (t2 := if noErrors s1 then writeAppConfigFile project os modules s1 else s1) in *.
  set (t3 := if noErrors t2 then writeBinaryDataFiles project os t2 else t2) in *.
  set (t4 := if noErrors t3 then writeAppHeaderFile project os modules t3 else t3) in *.
  set (t5 := if noErrors t4 then writeProjects project os modules t4 else t4) in *.
  set (t6 := if noErrors t5 then writeAppConfigFile project os modules t5 else t5) in *.
  assert (E6 : noErrors t6 = true).
  { destruct (fs_exists folder (disk t6) && noErrors t6) eqn:B.
    - apply andb_true_iff in B. tauto.
    - exact E8. }
  rewrite E6, andb_true_r in E8 |- *.
  destruct (gate_taken (writeAppConfigFile project os modules) t5
              (proj1 (quiet_writeAppConfigFile project os modules t5)) E6) as [E5 T6].
  destruct (gate_taken (writeProjects project os modules) t4
              (steady_writeProjects project os modules t4) E5) as [E4 T5].
  destruct (gate_taken (writeAppHeaderFile project os modules) t3
              (proj1 (quiet_writeAppHeaderFile project os modules t3)) E4) as [E3 T4].
  destruct (gate_taken (writeBinaryDataFiles project os) t2
              (proj1 (quiet_writeBinaryDataFiles project os t2)) E3) as [E2 T3].
  destruct (gate_taken (writeAppConfigFile project os modules) s1
              (proj1 (quiet_writeAppConfigFile project os modules s1)) E2) as [E1 T2].
  fold t2 in T2. fold t3 in T3. fold t4 in T4. fold t5 in T5. fold t6 in T6.
  assert (X2 : t2 = s2) by exact T2.
  assert (X3 : t3 = s3) by (rewrite T3, X2; reflexivity).
  assert (X4 : t4 = s4) by (rewrite T4, X3; reflexivity).
  assert (X5 : t5 = s5) by (rewrite T5, X4; reflexivity).
  assert (X6 : t6 = s6) by (rewrite T6, X5; reflexivity).
  rewrite X6 in E8 |- *. fold s7 in E8 |- *.
  rewrite X2 in E2. rewrite X3 in E3. rewrite X4 in E4. rewrite X5 in E5.
  rewrite X6 in E6.
  repeat split; try (apply noErrors_nil; assumption).
Qed.

End Success.

Section SuccessGroup.

Variable project : Project.
Variable projectFile : File.
Variable os : Permissions.

Let modules := requiredModules project.
Let folder := generatedCodeFolder project.

Lemma writeProject_keepsSnapshot mods g exporter st :
  isGroup g = true -> keepsSnapshot g st ->
  keepsSnapshot g (writeProject project os mods g exporter st).
Proof.
  intros G K. unfold writeProject.
  destruct (createDirectory os _ _) as [d|]; [|exact K].
  match goal with
  | |- context [fold_left ?f mods ?s0] =>
      pose proof (registers_prepare project os exporter mods s0) as (G1 & I1 & _ & D1);
      set (s1 := fold_left f mods s0) in *
  end.
  cbn [setGroup generatedFilesGroup] in G1, I1, D1.
  assert (K' : keepsSnapshot g (setGroup (sortGroupRecursively (generatedFilesGroup s1)) s1)).
  { unfold keepsSnapshot. cbn [setGroup generatedFilesGroup].
    rewrite isGroup_sortGroupRecursively. split; [auto|]. split.
    - intros f Hf. eapply Permutation_in;
        [symmetry; apply itemFiles_sortGroupRecursively | apply I1; exact Hf].
    - intros N. eapply Permutation_NoDup;
        [symmetry; apply itemFiles_sortGroupRecursively | auto]. }
  destruct (create exporter _); exact K'.
Qed.

Lemma fold_keepsSnapshot mods g l st :
  isGroup g = true -> keepsSnapshot g st ->
  keepsSnapshot g (fold_left (fun st e => writeProject project os mods g e st) l st).
Proof.
  intros G. revert st. induction l as [|e l IH]; intros st K; [exact K|].
  cbn [fold_left]. apply IH. apply writeProject_keepsSnapshot; assumption.
Qed.

Lemma writeProjects_keepsSnapshot mods s :
  isGroup (generatedFilesGroup s) = true ->
  keepsSnapshot (generatedFilesGroup s) (writeProjects project os mods s).
Proof.
  intros G. rewrite writeProjects_fold. apply fold_keepsSnapshot; [exact G|].
  split; [exact G | split; [apply incl_refl | auto]].
Qed.

Lemma group_written (w : bool) f d s :
  generatedFilesGroup (if w then emit (EvWritten f) (setDisk d s) else setDisk d s)
  = generatedFilesGroup s /\
  binaryDataCpp (if w then emit (EvWritten f) (setDisk d s) else setDisk d s)
  = binaryDataCpp s.
Proof. destruct w; split; reflexivity. Qed.

Lemma group_resourceFileWrite f s :
  generatedFilesGroup (snd (resourceFileWrite project os f s)) = generatedFilesGroup s /\
  binaryDataCpp (snd (resourceFileWrite project os f s)) = binaryDataCpp s.
Proof.
  unfold resourceFileWrite.
  destruct (overwriteFileWithNewDataIfDifferent os f _ (disk s)) as [[d w]|];
    [|split; reflexivity].
  destruct (group_written w f d s) as [G1 B1].
  set (s1 := if w then _ else _) in *.
  destruct (overwriteFileWithNewDataIfDifferent os _ _ (disk s1)) as [[d' w']|];
    cbn [snd]; [|split; assumption].
  destruct (group_written w' (withFileExtension f ".h") d' s1) as [G2 B2].
  split; congruence.
Qed.

Lemma group_deleteFile f s :
  generatedFilesGroup (deleteFile f s) = generatedFilesGroup s.
Proof. unfold deleteFile. destruct (fs_exists f (disk s)); reflexivity. Qed.

(** What [writeBinaryDataFiles] adds to the group when it leaves no error:
    the pair of files when the project has resources, nothing otherwise. *)
Lemma writeBinaryDataFiles_group s :
  isGroup (generatedFilesGroup s) = true ->
  errors (writeBinaryDataFiles project os s) = [] ->
  isGroup (generatedFilesGroup (writeBinaryDataFiles project os s)) = true /\
  itemFiles (generatedFilesGroup (writeBinaryDataFiles project os s)) =
  (itemFiles (generatedFilesGroup s)
     ++ (if (0 <? numResourceFiles project)%nat
         then [getChildFile folder "BinaryData.cpp"; getChildFile folder "BinaryData.h"]
         else []))%list.
Proof.
  intros G. unfold writeBinaryDataFiles.
  destruct (0 <? numResourceFiles project)%nat.
  - match goal with
    | |- context [resourceFileWrite project os ?f ?s0] =>
        destruct (group_resourceFileWrite f s0) as [G1 B1];
        destruct (resourceFileWrite project os f s0) as [ok s1]
    end.
    cbn [snd setBinaryDataCpp generatedFilesGroup binaryDataCpp] in G1, B1.
    destruct ok.
    + intros _. cbn [setGroup generatedFilesGroup binaryDataCpp]. rewrite G1, B1.
      apply isGroup_inv in G as (name & id & children & G). rewrite G.
      split; [reflexivity|].
      cbn [addFile]. rewrite withFileExtension_child.
      cbn [itemFiles]. rewrite !flat_map_app. cbn. rewrite <- app_assoc. reflexivity.
    + cbn [addError errors]. intros E. apply app_eq_nil in E as [_ E]. discriminate.
  - intros _. rewrite !group_deleteFile. cbn [setBinaryDataCpp generatedFilesGroup].
    rewrite app_nil_r. auto.
Qed.

Lemma group_writeMainProjectFile s :
  generatedFilesGroup (writeMainProjectFile project projectFile os s) = generatedFilesGroup s.
Proof. apply group_replaceFileIfDifferent. Qed.

Lemma group_writeReadmeFile s :
  generatedFilesGroup (writeReadmeFile project os s) = generatedFilesGroup s.
Proof. apply group_replaceFileIfDifferent. Qed.

Lemma registers_writeAppConfigFile s :
  registers [getChildFile folder (getAppConfigFilename project)] s
            (writeAppConfigFile project os modules s).
Proof.
  unfold writeAppConfigFile.
  eapply registers_nil_trans; [|apply registers_saveGeneratedFile].
  apply registers_same. reflexivity.
Qed.

Lemma writeAppConfigFile_registered s :
  isGroup (generatedFilesGroup s) = true ->
  errors s = [] -> errors (writeAppConfigFile project os modules s) = [] ->
  In (getChildFile folder (getAppConfigFilename project))
     (itemFiles (generatedFilesGroup (writeAppConfigFile project os modules s))).
Proof.
  intros G E0 E. unfold writeAppConfigFile in *.
  apply saveGeneratedFile_registered; [exact G|]. rewrite E. symmetry. exact E0.
Qed.

Lemma writeAppHeaderFile_registered s :
  isGroup (generatedFilesGroup s) = true ->
  errors s = [] -> errors (writeAppHeaderFile project os modules s) = [] ->
  In (getChildFile folder (getJuceSourceHFilename project))
     (itemFiles (generatedFilesGroup (writeAppHeaderFile project os modules s))).
Proof.
  intros G E0 E. unfold writeAppHeaderFile in *.
  apply saveGeneratedFile_registered; [exact G|]. rewrite E. symmetry. exact E0.
Qed.

(** The generated-files group at the end of a run of [save] that leaves no
    error. *)
Lemma save_success_group s :
  isGroup (generatedFilesGroup s) = true ->
  errors (snd (save project projectFile os s)) = [] ->
  let g := generatedFilesGroup (snd (save project projectFile os s)) in
  isGroup g = true
  /\ In (getChildFile folder (getAppConfigFilename project)) (itemFiles g)
  /\ In (getChildFile folder (getJuceSourceHFilename project)) (itemFiles g)
  /\ ((0 < numResourceFiles project)%nat ->
      In (getChildFile folder "BinaryData.cpp") (itemFiles g) /\
      In (getChildFile folder "BinaryData.h") (itemFiles g))
  /\ (itemFiles (generatedFilesGroup s) = [] ->
      getAppConfigFilename project <> "BinaryData.cpp" ->
      getAppConfigFilename project <> "BinaryData.h" ->
      NoDup (itemFiles g)).
Proof.
  intros G E g. subst g.
  destruct (save_success project projectFile os s E)
    as (F & E1 & E2 & E3 & E4 & E5 & E6 & E7).
  fold modules folder in F, E1, E2, E3, E4, E5, E6, E7.
  rewrite F. clear F E.
  set (s1 := writeMainProjectFile project projectFile os (setFile projectFile s)) in *.
  set (s2 := writeAppConfigFile project os modules s1) in *.
  set (s3 := writeBinaryDataFiles project os s2) in *.
  set (s4 := writeAppHeaderFile project os modules s3) in *.
  set (s5 := writeProjects project os modules s4) in *.
  set (s6 := writeAppConfigFile project os modules s5) in *.
  assert (G1 : generatedFilesGroup s1 = generatedFilesGroup s)
    by (unfold s1; rewrite group_writeMainProjectFile; reflexivity).
  assert (IG1 : isGroup (generatedFilesGroup s1) = true) by (rewrite G1; exact G).
  destruct (registers_writeAppConfigFile s1) as (IG2 & I2 & O2 & D2).
  fold s2 in IG2, I2, O2, D2. specialize (IG2 IG1).
  pose proof (writeAppConfigFile_registered s1 IG1 E1 E2) as A2. fold s2 in A2.
  destruct (writeBinaryDataFiles_group s2 IG2 E3) as [IG3 F3]. fold s3 in IG3, F3.
  destruct (registers_saveGeneratedFile project os (getJuceSourceHFilename project)
              (writeAppHeader project modules s3 EmptyString) s3) as (IG4 & I4 & O4 & D4).
  change (snd (saveGeneratedFile project os (getJuceSourceHFilename project)
                 (writeAppHeader project modules s3 EmptyString) s3)) with s4 in *.
  specialize (IG4 IG3).
  pose proof (writeAppHeaderFile_registered s3 IG3 E3 E4) as A4. fold s4 in A4.
  destruct (writeProjects_keepsSnapshot modules s4 IG4) as (IG5 & I5 & D5).
  fold s5 in IG5, I5, D5.
  destruct (registers_writeAppConfigFile s5) as (IG6 & I6 & O6 & D6).
  fold s6 in IG6, I6, O6, D6. specialize (IG6 IG5).
  assert (G7 : generatedFilesGroup
                 (if fs_exists folder (disk s6) then writeReadmeFile project os s6 else s6)
               = generatedFilesGroup s6).
  { destruct (fs_exists folder (disk s6)); [apply group_writeReadmeFile | reflexivity]. }
  rewrite G7.
  assert (I3 : incl (itemFiles (generatedFilesGroup s2)) (itemFiles (generatedFilesGroup s3)))
    by (rewrite F3; apply incl_appl, incl_refl).
  assert (Up4 : incl (itemFiles (generatedFilesGroup s4)) (itemFiles (generatedFilesGroup s6)))
    by (eapply incl_tran; eassumption).
  split; [exact IG6|]. split; [apply Up4, I4, I3, A2|]. split; [apply Up4, A4|]. split.
  - intros R. apply Nat.ltb_lt in R. rewrite R in F3.
    split; apply Up4, I4; rewrite F3; apply in_or_app; right; cbn; auto.
  - intros Z Ncpp Nh.
    assert (N2 : NoDup (itemFiles (generatedFilesGroup s2))).
    { apply D2; [exact IG1|]. rewrite G1, Z. constructor. }
    assert (Only2 : forall f, In f (itemFiles (generatedFilesGroup s2)) ->
                              f = getChildFile folder (getAppConfigFilename project)).
    { intros f Hf. destruct (O2 f Hf) as [H|[H|[]]]; [|auto].
      rewrite G1, Z in H. destruct H. }
    assert (N3 : NoDup (itemFiles (generatedFilesGroup s3))).
    { rewrite F3. destruct (0 <? numResourceFiles project)%nat;
        [|rewrite app_nil_r; exact N2].
      change [getChildFile folder "BinaryData.cpp"; getChildFile folder "BinaryData.h"]
        with ([getChildFile folder "BinaryData.cpp"] ++ [getChildFile folder "BinaryData.h"])%list.
      rewrite app_assoc. apply NoDup_snoc; [apply NoDup_snoc; [exact N2|]|].
      - intros H. apply Only2 in H. apply getChildFile_inj in H. congruence.
      - intros H. apply in_app_or in H as [H|[H|[]]].
        + apply Only2 in H. apply getChildFile_inj in H. congruence.
        + apply getChildFile_inj in H. discriminate. }
    apply D6; [exact IG5|]. apply D5. apply D4; assumption.
Qed.

End SuccessGroup.

(* ===================================================================== *)
(** * The disk below the generated-code folder *)
(* ===================================================================== *)

Lemma findEntry_setEntry x es n :
  findEntry n (setEntry x es) =
  if String.eqb (getFileName x) n then Some x else findEntry n es.
Proof.
  induction es as [|e rest IH]; cbn [setEntry findEntry]; [reflexivity|].
  destruct (String.eqb (getFileName e) (getFileName x)) eqn:E; cbn [findEntry].
  - apply String.eqb_eq in E. rewrite E.
    destruct (String.eqb (getFileName x) n); reflexivity.
  - rewrite IH. destruct (String.eqb (getFileName e) n) eqn:E'; [|reflexivity].
    apply String.eqb_eq in E'. subst n.
    rewrite String.eqb_sym, E. reflexivity.
Qed.

Lemma findEntry_removeEntry m es n :
  findEntry n (removeEntry m es) = if String.eqb m n then None else findEntry n es.
Proof.
  unfold removeEntry.
  induction es as [|e rest IH]; cbn [filter findEntry].
  - destruct (String.eqb m n); reflexivity.
  - destruct (String.eqb (getFileName e) m) eqn:E; cbn [negb findEntry].
    + rewrite IH. apply String.eqb_eq in E. rewrite E.
      destruct (String.eqb m n); reflexivity.
    + rewrite IH. destruct (String.eqb (getFileName e) n) eqn:E'; [|reflexivity].
      apply String.eqb_eq in E'. subst n. rewrite String.eqb_sym, E. reflexivity.
Qed.

Lemma entriesOf_setEntry_dir c sub es :
  entriesOf c (setEntry (FsDir c sub) es) = sub.
Proof.
  unfold entriesOf. rewrite findEntry_setEntry. cbn [getFileName].
  rewrite String.eqb_refl. reflexivity.
Qed.

Lemma fs_find_nil f : fs_find f [] = None.
Proof.
  induction f as [|c rest IH]; [reflexivity|].
  cbn [fs_find]. destruct rest; [reflexivity|]. exact IH.
Qed.

Lemma child_cons c folder n :
  getChildFile (c :: folder) n = c :: getChildFile folder n.
Proof. reflexivity. Qed.

Lemma child_not_nil folder n : getChildFile folder n <> [].
Proof. unfold getChildFile. destruct folder; discriminate. Qed.

Lemma fs_find_cons c rest root :
  rest <> [] -> fs_find (c :: rest) root = fs_find rest (entriesOf c root).
Proof. intros H. cbn [fs_find]. destruct rest; [congruence | reflexivity]. Qed.

Lemma fs_update_cons c rest leaf root :
  rest <> [] ->
  fs_update (c :: rest) leaf root =
  setEntry (FsDir c (fs_update rest leaf (entriesOf c root))) root.
Proof. intros H. cbn [fs_update]. destruct rest; [congruence | reflexivity]. Qed.

Lemma fs_remove_cons c rest root :
  rest <> [] ->
  fs_remove (c :: rest) root =
  match findEntry c root with
  | Some (FsDir _ sub) => setEntry (FsDir c (fs_remove rest sub)) root
  | _ => root
  end.
Proof. intros H. cbn [fs_remove]. destruct rest; [congruence | reflexivity]. Qed.

Section Children.

Variable leaf : string -> FsNode.
Hypothesis leaf_name : forall c, getFileName (leaf c) = c.

Lemma fs_find_update_same folder n root :
  fs_find (getChildFile folder n) (fs_update (getChildFile folder n) leaf root)
  = Some (leaf n).
Proof.
  revert root. induction folder as [|c folder IH]; intros root.
  - cbn. rewrite findEntry_setEntry, leaf_name, String.eqb_refl. reflexivity.
  - rewrite child_cons, fs_update_cons, fs_find_cons by apply child_not_nil.
    rewrite entriesOf_setEntry_dir. apply IH.
Qed.

Lemma fs_find_update_other folder n m root :
  n <> m ->
  fs_find (getChildFile folder n) (fs_update (getChildFile folder m) leaf root)
  = fs_find (getChildFile folder n) root.
Proof.
  intros N. revert root. induction folder as [|c folder IH]; intros root.
  - cbn. rewrite findEntry_setEntry, leaf_name.
    destruct (String.eqb m n) eqn:E; [|reflexivity].
    apply String.eqb_eq in E. congruence.
  - rewrite !child_cons, fs_update_cons, !fs_find_cons by apply child_not_nil.
    rewrite entriesOf_setEntry_dir. apply IH.
Qed.

End Children.

Lemma fs_find_remove_same folder n root :
  fs_find (getChildFile folder n) (fs_remove (getChildFile folder n) root) = None.
Proof.
  revert root. induction folder as [|c folder IH]; intros root.
  - cbn. rewrite findEntry_removeEntry, String.eqb_refl. reflexivity.
  - rewrite child_cons, fs_remove_cons by apply child_not_nil.
    destruct (findEntry c root) as [[name data | name sub]|] eqn:E.
    + rewrite fs_find_cons by apply child_not_nil.
      unfold entriesOf. rewrite E. apply fs_find_nil.
    + rewrite fs_find_cons by apply child_not_nil.
      rewrite entriesOf_setEntry_dir. apply IH.
    + rewrite fs_find_cons by apply child_not_nil.
      unfold entriesOf. rewrite E. apply fs_find_nil.
Qed.

Lemma fs_find_remove_other folder n m root :
  n <> m ->
  fs_find (getChildFile folder n) (fs_remove (getChildFile folder m) root)
  = fs_find (getChildFile folder n) root.
Proof.
  intros N. revert root. induction folder as [|c folder IH]; intros root.
  - cbn. rewrite findEntry_removeEntry.
    destruct (String.eqb m n) eqn:E; [|reflexivity].
    apply String.eqb_eq in E. congruence.
  - rewrite !child_cons, fs_remove_cons by apply child_not_nil.
    destruct (findEntry c root) as [[name data | name sub]|] eqn:E; try reflexivity.
    rewrite !fs_find_cons by apply child_not_nil.
    rewrite entriesOf_setEntry_dir, IH. unfold entriesOf. rewrite E. reflexivity.
Qed.

(** ** The stable writer and the deletion, on files of one folder *)

Section OneFolder.

Variable os : Permissions.
Variable folder : File.

Lemma overwrite_exists n data root d written :
  overwriteFileWithNewDataIfDifferent os (getChildFile folder n) data root = Some (d, written) ->
  fs_exists (getChildFile folder n) d = true.
Proof.
  unfold overwriteFileWithNewDataIfDifferent, fs_exists, fs_write.
  destruct (fs_find (getChildFile folder n) root) as [[name old | name sub]|] eqn:F.
  - destruct (String.eqb old data).
    + intros E. injection E as <- _. rewrite F. reflexivity.
    + destruct (canWriteFile os _); [|discriminate].
      intros E. injection E as <- _.
      rewrite (fs_find_update_same (fun c => FsFile c data)); reflexivity.
  - destruct (canWriteFile os _); [|discriminate].
    intros E. injection E as <- _.
    rewrite (fs_find_update_same (fun c => FsFile c data)); reflexivity.
  - destruct (canWriteFile os _); [|discriminate].
    intros E. injection E as <- _.
    rewrite (fs_find_update_same (fun c => FsFile c data)); reflexivity.
Qed.

Lemma overwrite_other n m data root d written :
  n <> m ->
  overwriteFileWithNewDataIfDifferent os (getChildFile folder m) data root = Some (d, written) ->
  fs_exists (getChildFile folder n) d = fs_exists (getChildFile folder n) root.
Proof.
  intros N. unfold overwriteFileWithNewDataIfDifferent, fs_exists, fs_write.
  destruct (fs_find (getChildFile folder m) root) as [[name old | name sub]|];
    [destruct (String.eqb old data); [intros E; injection E as <- _; reflexivity|]| |];
    (destruct (canWriteFile os _); [|discriminate]);
    intros E; injection E as <- _;
    rewrite (fs_find_update_other (fun c => FsFile c data)); auto.
Qed.

Lemma deleteFile_gone n s :
  fs_exists (getChildFile folder n) (disk (deleteFile (getChildFile folder n) s)) = false.
Proof.
  unfold deleteFile. destruct (fs_exists (getChildFile folder n) (disk s)) eqn:E; [|exact E].
  cbn [emit setDisk disk]. unfold fs_exists. rewrite fs_find_remove_same. reflexivity.
Qed.

Lemma deleteFile_other n m s :
  n <> m ->
  fs_exists (getChildFile folder n) (disk (deleteFile (getChildFile folder m) s)) =
  fs_exists (getChildFile folder n) (disk s).
Proof.
  intros N. unfold deleteFile.
  destruct (fs_exists (getChildFile folder m) (disk s)); [|reflexivity].
  cbn [emit setDisk disk]. unfold fs_exists. rewrite fs_find_remove_other by exact N.
  reflexivity.
Qed.

End OneFolder.

(* ===================================================================== *)
(** * The two renderers *)
(* ===================================================================== *)

Section Renderers.

Variable project : Project.
Variable projectFile : File.

Let modules := requiredModules project.
Let folder := generatedCodeFolder project.
Let appConfigPath := getChildFile folder (getAppConfigFilename project).
Let binaryDataPath := getChildFile folder "BinaryData.cpp".

Lemma written_fields (w : bool) f d s :
  let s' := if w then emit (EvWritten f) (setDisk d s) else setDisk d s in
  disk s' = d /\ appConfigFile s' = appConfigFile s /\ binaryDataCpp s' = binaryDataCpp s
  /\ errors s' = errors s.
Proof. destruct w; repeat split; reflexivity. Qed.

Lemma saveGeneratedFile_disk os filePath data s :
  let r := snd (saveGeneratedFile project os filePath data s) in
  appConfigFile r = appConfigFile s /\ binaryDataCpp r = binaryDataCpp s /\
  (errors r = errors s -> fs_exists (getChildFile folder filePath) (disk r) = true).
Proof.
  unfold saveGeneratedFile.
  destruct (createDirectory os _ _) as [d|]; cbn [snd].
  - unfold replaceFileIfDifferent. cbn [setDisk disk].
    destruct (overwriteFileWithNewDataIfDifferent os _ data d) as [[d' w]|] eqn:O.
    + destruct (written_fields w (getChildFile (generatedCodeFolder project) filePath) d'
                  (setDisk d s)) as (D & A & B & _).
      unfold addFileToGeneratedGroup.
      destruct (findItemForFile _ _); cbn [snd setGroup appConfigFile binaryDataCpp disk];
        rewrite ?D, ?A, ?B; repeat split; intros _;
        apply (overwrite_exists os folder filePath data d d' w O).
    + cbn [snd addError setDisk appConfigFile binaryDataCpp errors].
      repeat split. intros E. exfalso. eapply app_one_neq. exact E.
  - cbn [addError appConfigFile binaryDataCpp errors].
    repeat split. intros E. exfalso. eapply app_one_neq. exact E.
Qed.

Lemma writeAppConfigFile_disk os s :
  let r := writeAppConfigFile project os modules s in
  appConfigFile r = appConfigPath /\ binaryDataCpp r = binaryDataCpp s /\
  (errors r = errors s -> fs_exists appConfigPath (disk r) = true).
Proof.
  unfold writeAppConfigFile. cbv zeta.
  match goal with
  | |- context [saveGeneratedFile project os ?p ?data ?s0] =>
      destruct (saveGeneratedFile_disk os p data s0) as (A & B & X)
  end.
  cbn [setAppConfigFile appConfigFile binaryDataCpp errors] in A, B, X.
  repeat split; assumption.
Qed.

Lemma deleteFile_fields f s :
  appConfigFile (deleteFile f s) = appConfigFile s /\
  binaryDataCpp (deleteFile f s) = binaryDataCpp s.
Proof. unfold deleteFile. destruct (fs_exists f (disk s)); split; reflexivity. Qed.

(** The disk after [resourceFileWrite] returned true: the two files went
    through the stable writer, one after the other. *)
Lemma resourceFileWrite_true os f s s' :
  resourceFileWrite project os f s = (true, s') ->
  appConfigFile s' = appConfigFile s /\ binaryDataCpp s' = binaryDataCpp s /\
  errors s' = errors s /\
  exists d1 w1 w2,
    overwriteFileWithNewDataIfDifferent os f (resourceCpp project) (disk s) = Some (d1, w1) /\
    overwriteFileWithNewDataIfDifferent os (withFileExtension f ".h")
      (resourceHeader project) d1 = Some (disk s', w2).
Proof.
  unfold resourceFileWrite.
  destruct (overwriteFileWithNewDataIfDifferent os f _ (disk s)) as [[d1 w1]|] eqn:O1;
    [|discriminate].
  destruct (written_fields w1 f d1 s) as (D1 & A1 & B1 & E1).
  set (s1 := if w1 then _ else _) in *. cbv zeta in D1, A1, B1, E1.
  rewrite D1.
  destruct (overwriteFileWithNewDataIfDifferent os _ _ d1) as [[d2 w2]|] eqn:O2;
    [|discriminate].
  intros E. injection E as <-.
  destruct (written_fields w2 (withFileExtension f ".h") d2 s1) as (D2 & A2 & B2 & E2).
  cbv zeta in D2, A2, B2, E2. rewrite A2, B2, E2, D2.
  repeat split; try congruence.
  exists d1, w1, w2. split; [reflexivity | exact O2].
Qed.

Lemma fs_exists_child_after_binary os s m :
  errors (writeBinaryDataFiles project os s) = [] ->
  let r := writeBinaryDataFiles project os s in
  appConfigFile r = appConfigFile s /\ binaryDataCpp r = binaryDataPath /\
  fs_exists binaryDataPath (disk r) = (binaryDataExpected project) /\
  (fs_exists (getChildFile folder m) (disk s) = true ->
   fs_exists (getChildFile folder m) (disk r) =
   ((binaryDataExpected project) || negb (String.eqb m "BinaryData.cpp" || String.eqb m "BinaryData.h"))).
Proof.
  unfold writeBinaryDataFiles, binaryDataExpected, binaryDataPath. cbv zeta.
  cbn [setBinaryDataCpp binaryDataCpp].
  destruct (0 <? numResourceFiles project)%nat.
  - destruct (resourceFileWrite project os _ _) as [ok s1] eqn:R.
    destruct ok; [|cbn [addError errors]; intros E; apply app_eq_nil in E as [_ E]; discriminate].
    intros _. apply resourceFileWrite_true in R
      as (A & B & _ & d1 & w1 & w2 & O1 & O2).
    cbn [setBinaryDataCpp appConfigFile binaryDataCpp disk] in A, B, O1.
    cbn [setGroup appConfigFile binaryDataCpp disk]. rewrite B.
    fold folder in O1, O2 |- *.
    rewrite withFileExtension_child in O2.
    split; [exact A|]. split; [reflexivity|].
    assert (C1 : fs_exists (getChildFile folder "BinaryData.cpp") d1 = true)
      by (eapply overwrite_exists; exact O1).
    split.
    + rewrite (overwrite_other os folder "BinaryData.cpp" "BinaryData.h"
                 (resourceHeader project) d1 (disk s1) w2);
        [exact C1 | discriminate | exact O2].
    + intros M. cbn [orb].
      assert (M1 : fs_exists (getChildFile folder m) d1 = true).
      { destruct (String.eqb m "BinaryData.cpp") eqn:E.
        - apply String.eqb_eq in E. subst m. exact C1.
        - apply String.eqb_neq in E.
          rewrite (overwrite_other os folder m "BinaryData.cpp" _ (disk s) d1 w1 E O1).
          exact M. }
      destruct (String.eqb m "BinaryData.h") eqn:E.
      * apply String.eqb_eq in E. subst m. eapply overwrite_exists. exact O2.
      * apply String.eqb_neq in E.
        rewrite (overwrite_other os folder m "BinaryData.h" _ d1 (disk s1) w2 E O2).
        exact M1.
  - intros _. fold folder.
    set (s0 := setBinaryDataCpp (getChildFile folder "BinaryData.cpp") s).
    destruct (deleteFile_fields (getChildFile folder "BinaryData.cpp") s0) as [A1 B1].
    rewrite B1. cbn [s0 setBinaryDataCpp binaryDataCpp].
    rewrite withFileExtension_child_nodot. fold s0.
    destruct (deleteFile_fields (getChildFile folder "BinaryData.h")
                (deleteFile (getChildFile folder "BinaryData.cpp") s0)) as [A2 B2].
    rewrite A2, A1, B2, B1. cbn [s0 setBinaryDataCpp appConfigFile binaryDataCpp].
    split; [reflexivity|]. split; [reflexivity|]. split.
    + rewrite (deleteFile_other folder "BinaryData.cpp" "BinaryData.h") by discriminate.
      apply deleteFile_gone.
    + intros M. cbn [orb].
      destruct (String.eqb m "BinaryData.h") eqn:Eh.
      * apply String.eqb_eq in Eh. subst m. rewrite orb_true_r. apply deleteFile_gone.
      * apply String.eqb_neq in Eh. rewrite (deleteFile_other folder m "BinaryData.h") by exact Eh.
        rewrite orb_false_r.
        destruct (String.eqb m "BinaryData.cpp") eqn:Ec.
        -- apply String.eqb_eq in Ec. subst m. apply deleteFile_gone.
        -- apply String.eqb_neq in Ec.
           rewrite (deleteFile_other folder m "BinaryData.cpp") by exact Ec.
           exact M.
Qed.

(** What the umbrella header's renderer reads of the saver in a run of
    [save] that reaches it. *)
Lemma saveBeforeHeader_reads os s :
  let t := saveBeforeHeader project projectFile os s in
  noErrors t = true ->
  appConfigFile t = appConfigPath /\ binaryDataCpp t = binaryDataPath /\
  fs_exists appConfigPath (disk t) = (appConfigExpected project) /\
  fs_exists binaryDataPath (disk t) = (binaryDataExpected project).
Proof.
  unfold saveBeforeHeader. cbv zeta. fold modules.
  set (s1 := writeMainProjectFile project projectFile os (setFile projectFile s)).
  set (t2 := if noErrors s1 then writeAppConfigFile project os modules s1 else s1).
  intros E3.
  destruct (gate_taken (writeBinaryDataFiles project os) t2
              (proj1 (quiet_writeBinaryDataFiles project os t2)) E3) as [E2 T3].
  destruct (gate_taken (writeAppConfigFile project os modules) s1
              (proj1 (quiet_writeAppConfigFile project os modules s1)) E2) as [E1 T2].
  fold t2 in T2. rewrite T3 in E3 |- *. rewrite T2 in E2, E3 |- *.
  apply noErrors_nil in E1, E2, E3.
  destruct (writeAppConfigFile_disk os s1) as (A2 & _ & X2).
  specialize (X2 (eq_trans E2 (eq_sym E1))).
  destruct (fs_exists_child_after_binary os (writeAppConfigFile project os modules s1)
              (getAppConfigFilename project) E3) as (A3 & B3 & C3 & M3).
  cbv zeta in A3, B3, C3, M3. fold appConfigPath in M3.
  specialize (M3 X2).
  repeat split; try assumption. congruence.
Qed.

End Renderers.

(** ** The extra content of the configuration header in a run of save *)

Section ExtraContent.

Variable project : Project.
Variable projectFile : File.
Variable os : Permissions.

Lemma extra_replaceFileIfDifferent f data s :
  extraAppConfigContent (snd (replaceFileIfDifferent os f data s)) = extraAppConfigContent s.
Proof.
  unfold replaceFileIfDifferent.
  destruct (overwriteFileWithNewDataIfDifferent os f data (disk s)) as [[d w]|];
    [destruct w|]; reflexivity.
Qed.

Lemma extra_addFileToGeneratedGroup file s :
  extraAppConfigContent (snd (addFileToGeneratedGroup file s)) = extraAppConfigContent s.
Proof. unfold addFileToGeneratedGroup. break_match; reflexivity. Qed.

Lemma extra_saveGeneratedFile filePath data s :
  extraAppConfigContent (snd (saveGeneratedFile project os filePath data s))
  = extraAppConfigContent s.
Proof.
  unfold saveGeneratedFile. destruct (createDirectory os _ _) as [d|]; [|reflexivity].
  pose proof (extra_replaceFileIfDifferent
                (getChildFile (generatedCodeFolder project) filePath) data (setDisk d s)) as X.
  destruct (replaceFileIfDifferent os _ data (setDisk d s)) as [ok s1]. cbn [snd] in X.
  destruct ok; cbn [snd]; [rewrite extra_addFileToGeneratedGroup|]; exact X.
Qed.

Lemma extra_runCall c s :
  extraAppConfigContent (runCall project os c s) = extraAfterCall c (extraAppConfigContent s).
Proof.
  destruct c; cbn [runCall extraAfterCall].
  - apply extra_saveGeneratedFile.
  - apply extra_addFileToGeneratedGroup.
  - reflexivity.
  - apply extra_replaceFileIfDifferent.
Qed.

Lemma extra_fold {A} (step : ProjectSaver -> A -> ProjectSaver)
  (pure : string -> A -> string) l :
  (forall a s, extraAppConfigContent (step s a) = pure (extraAppConfigContent s) a) ->
  forall s, extraAppConfigContent (fold_left step l s)
            = fold_left pure l (extraAppConfigContent s).
Proof.
  intros H. induction l as [|a l IH]; intros s; cbn [fold_left]; [reflexivity|].
  rewrite IH, H. reflexivity.
Qed.

Lemma extra_prepare exporter modules s :
  extraAppConfigContent (fold_left (modulePrepareExporter project os exporter) modules s)
  = extraAfterExporter modules exporter (extraAppConfigContent s).
Proof.
  unfold extraAfterExporter.
  apply (extra_fold (modulePrepareExporter project os exporter)).
  intros m s'. unfold modulePrepareExporter.
  apply (extra_fold (fun st c => runCall project os c st) (fun y c => extraAfterCall c y)).
  intros c s''. apply extra_runCall.
Qed.

(** An exporter's turn that ends without error had its folder created, and
    leaves the extra content its preparation set. *)
Lemma writeProject_noErrors modules g exporter s :
  noErrors (writeProject project os modules g exporter s) = true ->
  targetFolderCreated os exporter = true /\
  extraAppConfigContent (writeProject project os modules g exporter s)
  = extraAfterExporter modules exporter (extraAppConfigContent s).
Proof.
  unfold writeProject, createDirectory, targetFolderCreated.
  destruct (canCreateDirectory os (getTargetFolder exporter)).
  - intros _. split; [reflexivity|].
    match goal with
    | |- context [fold_left ?f modules ?s0] =>
        pose proof (extra_prepare exporter modules s0) as X;
        set (s1 := fold_left f modules s0) in *
    end.
    cbn [setGroup setDisk emit extraAppConfigContent] in X.
    destruct (create exporter _); exact X.
  - unfold noErrors. cbn [addError emit errors].
    destruct (errors s); discriminate.
Qed.

Lemma writeProjects_noErrors modules s :
  noErrors (writeProjects project os modules s) = true ->
  extraAppConfigContent (writeProjects project os modules s)
  = extraAfterExporters project modules (extraAppConfigContent s).
Proof.
  rewrite writeProjects_fold. unfold extraAfterExporters.
  generalize (generatedFilesGroup s) as g. intros g.
  generalize (rev (exporters project)) as l. intros l. revert s.
  induction l as [|e l IH]; intros s N; [reflexivity|].
  cbn [fold_left] in N |- *.
  assert (N1 : noErrors (writeProject project os modules g e s) = true).
  { eapply steady_noErrors; [|exact N].
    apply steady_fold. intros e' s'. apply steady_writeProject. }
  destruct (writeProject_noErrors modules g e s N1) as [_ X].
  rewrite (IH _ N), X. reflexivity.
Qed.

Lemma extra_writeBinaryDataFiles s :
  extraAppConfigContent (writeBinaryDataFiles project os s) = extraAppConfigContent s.
Proof.
  unfold writeBinaryDataFiles. destruct (0 <? numResourceFiles project)%nat.
  - assert (X : forall f s0,
               extraAppConfigContent (snd (resourceFileWrite project os f s0))
               = extraAppConfigContent s0).
    { intros f s0. unfold resourceFileWrite.
      destruct (overwriteFileWithNewDataIfDifferent os f _ (disk s0)) as [[d w]|];
        [|reflexivity].
      match goal with
      | |- context [overwriteFileWithNewDataIfDifferent os ?h ?data (disk ?s1)] =>
          destruct (overwriteFileWithNewDataIfDifferent os h data (disk s1)) as [[d' w']|]
      end; cbn [snd]; [destruct w'|]; destruct w; reflexivity. }
    match goal with
    | |- context [resourceFileWrite project os ?f ?s0] =>
        specialize (X f s0); destruct (resourceFileWrite project os f s0) as [ok s1]
    end.
    cbn [snd setBinaryDataCpp extraAppConfigContent] in X. destruct ok; exact X.
  - unfold deleteFile. cbv zeta.
    repeat match goal with
           | |- context [if fs_exists ?f ?d then _ else _] => destruct (fs_exists f d)
           end; reflexivity.
Qed.

(** The extra content at the end of a run of [save] that leaves no error:
    what the modules set while the exporters were prepared, from the last
    exporter to the first. *)
Lemma save_success_extra s :
  errors (snd (save project projectFile os s)) = [] ->
  extraAppConfigContent (snd (save project projectFile os s))
  = extraAfterExporters project (requiredModules project) (extraAppConfigContent s).
Proof.
  intros E.
  destruct (save_success project projectFile os s E)
    as (F & E1 & E2 & E3 & E4 & E5 & E6 & E7).
  rewrite F. clear F E.
  set (s1 := writeMainProjectFile project projectFile os (setFile projectFile s)) in *.
  set (s2 := writeAppConfigFile project os (requiredModules project) s1) in *.
  set (s3 := writeBinaryDataFiles project os s2) in *.
  set (s4 := writeAppHeaderFile project os (requiredModules project) s3) in *.
  set (s5 := writeProjects project os (requiredModules project) s4) in *.
  set (s6 := writeAppConfigFile project os (requiredModules project) s5) in *.
  assert (X7 : extraAppConfigContent
                 (if fs_exists (generatedCodeFolder project) (disk s6)
                  then writeReadmeFile project os s6 else s6)
               = extraAppConfigContent s6).
  { destruct (fs_exists _ _); [apply extra_replaceFileIfDifferent | reflexivity]. }
  rewrite X7.
  assert (X6 : extraAppConfigContent s6 = extraAppConfigContent s5)
    by (unfold s6, writeAppConfigFile; rewrite extra_saveGeneratedFile; reflexivity).
  assert (X5 : extraAppConfigContent s5 =
               extraAfterExporters project (requiredModules project) (extraAppConfigContent s4))
    by (apply writeProjects_noErrors, noErrors_nil; exact E5).
  assert (X4 : extraAppConfigContent s4 = extraAppConfigContent s3)
    by (unfold s4, writeAppHeaderFile; rewrite extra_saveGeneratedFile; reflexivity).
  assert (X3 : extraAppConfigContent s3 = extraAppConfigContent s2)
    by apply extra_writeBinaryDataFiles.
  assert (X2 : extraAppConfigContent s2 = extraAppConfigContent s1)
    by (unfold s2, writeAppConfigFile; rewrite extra_saveGeneratedFile; reflexivity).
  assert (X1 : extraAppConfigContent s1 = extraAppConfigContent s)
    by (unfold s1, writeMainProjectFile; rewrite extra_replaceFileIfDifferent; reflexivity).
  congruence.
Qed.

End ExtraContent.

(** ** The group the last exporter leaves *)

Section LastExporter.

Variable project : Project.
Variable projectFile : File.
Variable os : Permissions.

Lemma writeProject_files modules g exporter st :
  targetFolderCreated os exporter = true ->
  forall f, In f (itemFiles (generatedFilesGroup (writeProject project os modules g exporter st))) ->
            In f (itemFiles g) \/ In f (registeredFor project modules exporter).
Proof.
  unfold writeProject, createDirectory, targetFolderCreated. intros ->.
  match goal with
  | |- context [fold_left ?f modules ?s0] =>
      pose proof (registers_prepare project os exporter modules s0) as (_ & _ & R & _);
      set (s1 := fold_left f modules s0) in *
  end.
  cbn [setGroup generatedFilesGroup] in R.
  intros f Hf. apply R.
  eapply Permutation_in; [apply itemFiles_sortGroupRecursively|].
  destruct (create exporter _); exact Hf.
Qed.

(** When [writeProjects] leaves no error, the group it leaves has the files
    of the snapshot and files registered for the first declared exporter,
    which ran last, and no other. *)
Lemma writeProjects_final_files modules s :
  noErrors (writeProjects project os modules s) = true ->
  forall f, In f (itemFiles (generatedFilesGroup (writeProjects project os modules s))) ->
            In f (itemFiles (generatedFilesGroup s)) \/
            In f (registeredForLast project modules).
Proof.
  rewrite writeProjects_fold. unfold registeredForLast.
  destruct (exporters project) as [|first rest]; [cbn; auto|].
  cbn [rev]. rewrite fold_left_app. cbn [fold_left].
  intros N f Hf.
  destruct (writeProject_noErrors project os modules _ first _ N) as [C _].
  apply (writeProject_files modules _ first _ C f Hf).
Qed.

(** The files of the group at the end of a run of [save] that started with
    an empty group and leaves no error. *)
Lemma save_success_only s :
  isGroup (generatedFilesGroup s) = true ->
  itemFiles (generatedFilesGroup s) = [] ->
  errors (snd (save project projectFile os s)) = [] ->
  forall f, In f (itemFiles (generatedFilesGroup (snd (save project projectFile os s)))) ->
            In f (registeredBySave project) \/
            In f (registeredForLast project (requiredModules project)).
Proof.
  intros G Z E.
  destruct (save_success project projectFile os s E)
    as (F & E1 & E2 & E3 & E4 & E5 & E6 & E7).
  rewrite F. clear F E.
  set (modules := requiredModules project) in *.
  set (folder := generatedCodeFolder project) in *.
  set (s1 := writeMainProjectFile project projectFile os (setFile projectFile s)) in *.
  set (s2 := writeAppConfigFile project os modules s1) in *.
  set (s3 := writeBinaryDataFiles project os s2) in *.
  set (s4 := writeAppHeaderFile project os modules s3) in *.
  set (s5 := writeProjects project os modules s4) in *.
  set (s6 := writeAppConfigFile project os modules s5) in *.
  assert (G1 : generatedFilesGroup s1 = generatedFilesGroup s)
    by (unfold s1; rewrite group_writeMainProjectFile; reflexivity).
  assert (IG1 : isGroup (generatedFilesGroup s1) = true) by (rewrite G1; exact G).
  destruct (registers_writeAppConfigFile project os s1) as (IG2 & _ & O2 & _).
  fold modules s2 in IG2, O2. specialize (IG2 IG1).
  destruct (writeBinaryDataFiles_group project os s2 IG2 E3) as [IG3 F3].
  fold s3 folder in IG3, F3.
  destruct (registers_saveGeneratedFile project os (getJuceSourceHFilename project)
              (writeAppHeader project modules s3 EmptyString) s3) as (_ & _ & O4 & _).
  change (snd (saveGeneratedFile project os (getJuceSourceHFilename project)
                 (writeAppHeader project modules s3 EmptyString) s3)) with s4 in *.
  pose proof (writeProjects_final_files modules s4 (proj2 (noErrors_nil _) E5)) as O5.
  fold s5 in O5.
  destruct (registers_writeAppConfigFile project os s5) as (_ & _ & O6 & _).
  fold modules s6 in O6.
  assert (G7 : generatedFilesGroup
                 (if fs_exists folder (disk s6) then writeReadmeFile project os s6 else s6)
               = generatedFilesGroup s6).
  { destruct (fs_exists folder (disk s6)); [apply group_writeReadmeFile | reflexivity]. }
  rewrite G7. intros f Hf.
  unfold registeredBySave. fold folder.
  assert (A : forall x, In x [getChildFile folder (getAppConfigFilename project)] ->
                        In x (registeredBySave project))
    by (intros x Hx; unfold registeredBySave; fold folder; apply in_or_app; left; exact Hx).
  unfold registeredBySave in A. fold folder in A.
  destruct (O6 f Hf) as [H5|H6]; [|left; apply A; exact H6].
  destruct (O5 f H5) as [H4|HL]; [|right; exact HL].
  left.
  destruct (O4 f H4) as [H3|HH].
  - rewrite F3 in H3. apply in_app_or in H3 as [H2|HB].
    + destruct (O2 f H2) as [H1|HA]; [|apply A; exact HA].
      rewrite G1, Z in H1. destruct H1.
    + apply in_or_app. right. apply in_or_app. left. exact HB.
  - apply in_or_app. right. apply in_or_app. right. exact HH.
Qed.

End LastExporter.

Lemma saveAssertion_empty s :
  isGroup (generatedFilesGroup s) = true -> saveAssertion s = true ->
  itemFiles (generatedFilesGroup s) = [].
Proof.
  intros G A. apply isGroup_inv in G as (name & id & children & G).
  unfold saveAssertion, getNumChildren in A. rewrite G in *. cbn in *.
  apply Nat.eqb_eq in A. destruct children; [reflexivity | discriminate].
Qed.

Lemma saveAssertion_nonempty s f :
  In f (itemFiles (generatedFilesGroup s)) -> isGroup (generatedFilesGroup s) = true ->
  saveAssertion s = false.
Proof.
  intros H G. apply isGroup_inv in G as (name & id & children & G).
  unfold saveAssertion, getNumChildren. rewrite G in *. cbn in *.
  destruct children; [destruct H | reflexivity].
Qed.

(** C9 (as amended) -- The generated-files group at the end of [save].  In
    a run of [save] that starts with the empty group its assertion asks for
    and that leaves no error, the configuration header, the umbrella header
    and, when the project has resources, the two BinaryData files each have
    exactly one Item in the group, and no file has two (the name of the
    configuration header being none of the two BinaryData names).  The
    group holds these files and files registered for the first declared
    exporter, the last to run, and no other: what was registered for the
    other exporters is gone with the reset of their successor.  The README
    is not among them: [writeReadmeFile] writes it and leaves the group as
    it is. *)
Theorem generated_group_after_save :
  forall (project : Project) (projectFile : File) (os : Permissions) (s : ProjectSaver),
    isGroup (generatedFilesGroup s) = true ->
    saveAssertion s = true ->
    getAppConfigFilename project <> "BinaryData.cpp" ->
    getAppConfigFilename project <> "BinaryData.h" ->
    errors (snd (save project projectFile os s)) = [] ->
    let g := generatedFilesGroup (snd (save project projectFile os s)) in
    let folder := generatedCodeFolder project in
    countItemsFor (getChildFile folder (getAppConfigFilename project)) g = 1
    /\ countItemsFor (getChildFile folder (getJuceSourceHFilename project)) g = 1
    /\ ((0 < numResourceFiles project)%nat ->
        countItemsFor (getChildFile folder "BinaryData.cpp") g = 1 /\
        countItemsFor (getChildFile folder "BinaryData.h") g = 1)
    /\ NoDup (itemFiles g)
    /\ (forall f, In f (itemFiles g) ->
                  In f (registeredBySave project) \/
                  In f (registeredForLast project (requiredModules project)))
    /\ (forall s0, generatedFilesGroup (writeReadmeFile project os s0) =
                   generatedFilesGroup s0).
Proof.
  intros project projectFile os s G A N1 N2 E g folder.
  destruct (save_success_group project projectFile os s G E) as (_ & HA & HH & HB & HN).
  fold g folder in HA, HH, HB, HN.
  specialize (HN (saveAssertion_empty s G A) N1 N2).
  split; [apply count_one_of_NoDup; assumption|].
  split; [apply count_one_of_NoDup; assumption|].
  split; [|split; [exact HN | split; [| apply group_writeReadmeFile]]].
  - intros R. destruct (HB R). split; apply count_one_of_NoDup; assumption.
  - apply save_success_only; [exact G | apply saveAssertion_empty; assumption | exact E].
Qed.

(** C10 -- [save] can be called once.  The constructor leaves the
    generated-files group empty, so the assertion at the top of [save]
    holds for a first call.  After a call of [save] that registered a file
    the assertion is false, and a call that leaves no error has registered
    one (the configuration header): a second call on the same saver breaks
    the assertion. *)
Theorem save_single_shot :
  forall (project : Project) (projectFile : File) (os : Permissions)
         (location : File) (d : list FsNode) (s : ProjectSaver),
    saveAssertion (newProjectSaver project location d) = true
    /\ isGroup (generatedFilesGroup (newProjectSaver project location d)) = true
    /\ ((0 < getNumChildren (generatedFilesGroup (snd (save project projectFile os s))))%nat ->
        saveAssertion (snd (save project projectFile os s)) = false)
    /\ (isGroup (generatedFilesGroup s) = true ->
        errors (snd (save project projectFile os s)) = [] ->
        saveAssertion (snd (save project projectFile os s)) = false).
Proof.
  intros project projectFile os location d s.
  split; [reflexivity|]. split; [reflexivity|]. split.
  - intros H. unfold saveAssertion. apply Nat.eqb_neq. lia.
  - intros G E.
    destruct (save_success_group project projectFile os s G E) as (IG & HA & _).
    eapply saveAssertion_nonempty; eassumption.
Qed.

(** C8 (as amended) -- What the renderers read.  The text of the
    configuration header is a function of the project, the modules and the
    saver's extra content: two savers with the same extra content render
    the same text, whatever else differs.  The text of the umbrella header
    is not a function of these alone: its renderer reads the saver's
    members [appConfigFile] and [binaryDataCpp] and asks the disk whether
    the two files exist; it is a function of the project, the modules,
    these two members and the two answers.  In a run of [save] the members
    and the answers follow from the project (deletions taken to succeed).
    So two runs of [save] on savers with the same extra content, whatever
    the disks and the permissions they run on, render the same umbrella
    header when both reach it, and end with the same text of the
    configuration header when both leave no error. *)
Theorem renderers_deterministic :
  forall (project : Project) (projectFile : File) (out : string)
         (mods : list LibraryModule) (os1 os2 : Permissions) (s1 s2 : ProjectSaver),
    (extraAppConfigContent s1 = extraAppConfigContent s2 ->
     writeAppConfig project mods s1 out = writeAppConfig project mods s2 out)
    /\ (appConfigFile s1 = appConfigFile s2 -> binaryDataCpp s1 = binaryDataCpp s2 ->
        fs_exists (appConfigFile s1) (disk s1) = fs_exists (appConfigFile s2) (disk s2) ->
        fs_exists (binaryDataCpp s1) (disk s1) = fs_exists (binaryDataCpp s2) (disk s2) ->
        writeAppHeader project mods s1 out = writeAppHeader project mods s2 out)
    /\ (let t1 := saveBeforeHeader project projectFile os1 s1 in
        let t2 := saveBeforeHeader project projectFile os2 s2 in
        noErrors t1 = true -> noErrors t2 = true ->
        writeAppHeader project mods t1 out = writeAppHeader project mods t2 out)
    /\ (let r1 := snd (save project projectFile os1 s1) in
        let r2 := snd (save project projectFile os2 s2) in
        extraAppConfigContent s1 = extraAppConfigContent s2 ->
        errors r1 = [] -> errors r2 = [] ->
        writeAppConfig project mods r1 out = writeAppConfig project mods r2 out).
Proof.
  intros project projectFile out mods os1 os2 s1 s2.
  assert (H1 : forall a b : ProjectSaver,
             extraAppConfigContent a = extraAppConfigContent b ->
             writeAppConfig project mods a out = writeAppConfig project mods b out).
  { intros a b E. rewrite !writeAppConfig_text, E. reflexivity. }
  assert (H2 : forall a b : ProjectSaver,
             appConfigFile a = appConfigFile b -> binaryDataCpp a = binaryDataCpp b ->
             fs_exists (appConfigFile a) (disk a) = fs_exists (appConfigFile b) (disk b) ->
             fs_exists (binaryDataCpp a) (disk a) = fs_exists (binaryDataCpp b) (disk b) ->
             writeAppHeader project mods a out = writeAppHeader project mods b out).
  { intros a b A B XA XB. unfold writeAppHeader. rewrite XA, XB, A, B. reflexivity. }
  split; [apply H1|]. split; [apply H2|]. split.
  - intros t1 t2 N1 N2.
    destruct (saveBeforeHeader_reads project projectFile os1 s1 N1) as (A1 & B1 & X1 & Y1).
    destruct (saveBeforeHeader_reads project projectFile os2 s2 N2) as (A2 & B2 & X2 & Y2).
    fold t1 in A1, B1, X1, Y1. fold t2 in A2, B2, X2, Y2.
    apply H2; congruence.
  - intros r1 r2 E N1 N2. apply H1. subst r1 r2.
    rewrite (save_success_extra project projectFile os1 s1 N1).
    rewrite (save_success_extra project projectFile os2 s2 N2).
    rewrite E. reflexivity.
Qed.

(* ===================================================================== *)
(** * The properties on the projects of the examples *)
(* ===================================================================== *)

(** Three exporters, the second one's folder cannot be created: the third
    and the first are called, and the one error names the second one's
    folder. *)
Lemma save_partial_failure_example :
  let r := save threeExporters targetFile noVisualStudioFolder freshSaver in
  exporterCalls (trace (snd r)) = [exporterLinux; exporterXCode]
  /\ In (cantCreateFolder exporterVisualStudio) (errors (snd r))
  /\ errors (snd r) = ["Can't create folder: /proj/Builds/VisualStudio"]
  /\ fst r = "Can't create folder: /proj/Builds/VisualStudio".
Proof.
  destruct (save_partial_failure threeExporters targetFile noVisualStudioFolder freshSaver
              exporterXCode exporterVisualStudio exporterLinux)
    as (Calls & _ & Recorded & Only);
    [reflexivity | reflexivity | reflexivity | reflexivity | vm_compute; reflexivity |].
  destruct Only as [Errors Returned];
    [reflexivity | reflexivity | reflexivity | reflexivity |].
  cbv zeta. repeat split; assumption.
Defined.

(** Two exporters: the file registered while the Linux exporter, which runs
    first, was prepared is in its group and not in the group of the XCode
    exporter, which runs after it. *)
Lemma exporter_isolation_example :
  let s := saveBeforeProjects twoExporters targetFile allowAll freshSaver in
  let handed := handedGroups (trace (writeProjects twoExporters allowAll [moduleLinuxOnly] s)) in
  map (fun p => getName (fst p)) handed = ["Linux"; "XCode"]
  /\ containsFile (snd (nth 0 handed (exporterXCode, generatedFilesGroup s))) linuxOnlyFile = true
  /\ containsFile (snd (nth 1 handed (exporterXCode, generatedFilesGroup s))) linuxOnlyFile = false.
Proof.
  intros s handed.
  split; [vm_compute; reflexivity|]. split; [vm_compute; reflexivity|].
  refine (proj2 (exporter_isolation twoExporters allowAll [moduleLinuxOnly] s handed
                   (fst (nth 1 handed (exporterXCode, generatedFilesGroup s)))
                   (snd (nth 1 handed (exporterXCode, generatedFilesGroup s))) _ _)
                linuxOnlyFile _ _).
  - vm_compute. reflexivity.
  - vm_compute. right. left. reflexivity.
  - vm_compute. reflexivity.
  - vm_compute. reflexivity.
Defined.

(** Against C4 as the specification states it: the exporters are declared
    XCode, Linux and are called Linux, XCode. *)
Lemma exporters_not_called_in_declared_order :
  map getName (exporters twoExporters) = ["XCode"; "Linux"]
  /\ map getName (exporterCalls (trace (snd (save twoExporters targetFile allowAll freshSaver))))
     = ["Linux"; "XCode"].
Proof. split; vm_compute; reflexivity. Qed.

Lemma exporters_called_last_to_first_example :
  exporterCalls (trace (snd (save threeExporters targetFile allowAll freshSaver)))
  = [exporterLinux; exporterVisualStudio; exporterXCode].
Proof.
  rewrite (exporters_called_last_to_first threeExporters targetFile allowAll freshSaver)
    by (vm_compute; reflexivity).
  reflexivity.
Defined.

(** Registering a file twice: the second registration returns the Item of
    the first and leaves the one Item in the group. *)
Lemma addFileToGeneratedGroup_example :
  let r := addFileToGeneratedGroup readmeFile freshSaver in
  r = (Some (ItemFile readmeFile true),
       setGroup (ItemGroup "Juce Library Code" "__jucelibfiles" [ItemFile readmeFile true])
                freshSaver)
  /\ addFileToGeneratedGroup readmeFile (snd r) = r
  /\ countItemsFor readmeFile (generatedFilesGroup (snd r)) = 1.
Proof.
  destruct (addFileToGeneratedGroup_idempotent freshSaver readmeFile
              "Juce Library Code" "__jucelibfiles" [] eq_refl) as (_ & New & Again & Count).
  cbv zeta. split; [apply New; reflexivity|]. split; [exact Again | exact Count].
Defined.

Example deleteNonHiddenFilesIn_staleFolder :
  deleteNonHiddenFilesIn ["proj"; "JuceLibraryCode"] staleFolder =
  (false,
   [FsDir ".svn" [FsFile "entries" "12"; FsFile "old.h" "x"]],
   [ ["proj"; "JuceLibraryCode"; "modules"; "sub"; "y.h"];
     ["proj"; "JuceLibraryCode"; "modules"; "sub"];
     ["proj"; "JuceLibraryCode"; "modules"; "juce_core.cpp"];
     ["proj"; "JuceLibraryCode"; "modules"];
     ["proj"; "JuceLibraryCode"; "AppConfig.h"] ]).
Proof. reflexivity. Qed.

(** The constructor on a disk with the stale folder: the .svn directory is
    all that is left of it. *)
Example newProjectSaver_staleFolder :
  disk (newProjectSaver exampleProject projectLocationBefore [FsDir "proj" [staleFolder]])
  = [FsDir "proj"
       [FsDir "JuceLibraryCode"
          [FsDir ".svn" [FsFile "entries" "12"; FsFile "old.h" "x"]]]].
Proof. reflexivity. Qed.

(** Against C7 as the specification states it, on its own example: the
    header has no line [#define C 0], [#define A 1] or [//#define B] (the
    text [#define C 0] stands nowhere in it); the lines of the three flags
    are padded. *)
Lemma config_header_lines_are_padded :
  let text := writeAppConfig exampleProject [moduleM1; moduleM2] freshSaver EmptyString in
  String.index 0 "#define C 0" text = None
  /\ countLines "#define C 0" text = 0
  /\ countLines "#define A 1" text = 0
  /\ countLines "//#define B" text = 0
  /\ countLines "#define    C 0" text = 1
  /\ countLines "#define    A 1" text = 1
  /\ countLines "//#define  B" text = 1
  /\ countLines "#define JUCE_MODULE_AVAILABLE_juce_core      1" text = 1
  /\ countLines "#define JUCE_MODULE_AVAILABLE_juce_gui       1" text = 1.
Proof. vm_compute. repeat split. Qed.

(** Against C9 as the specification states it: the README is written by a
    run of [save] that leaves no error, and the group has no Item for it. *)
Lemma readme_written_not_registered :
  let r := save exampleProject targetFile allowAll freshSaver in
  errors (snd r) = []
  /\ existsb (File_eqb readmeFile) (writtenFiles (trace (snd r))) = true
  /\ countItemsFor readmeFile (generatedFilesGroup (snd r)) = 0.
Proof. vm_compute. repeat split. Qed.

Lemma generated_group_after_save_example :
  let g := generatedFilesGroup (snd (save withResources targetFile allowAll freshSaver)) in
  countItemsFor ["proj"; "JuceLibraryCode"; "AppConfig.h"] g = 1
  /\ countItemsFor ["proj"; "JuceLibraryCode"; "JuceHeader.h"] g = 1
  /\ countItemsFor ["proj"; "JuceLibraryCode"; "BinaryData.cpp"] g = 1
  /\ countItemsFor ["proj"; "JuceLibraryCode"; "BinaryData.h"] g = 1
  /\ NoDup (itemFiles g).
Proof.
  destruct (generated_group_after_save withResources targetFile allowAll freshSaver)
    as (Config & Header & Binary & Once & _);
    [reflexivity | reflexivity | discriminate | discriminate | vm_compute; reflexivity |].
  destruct Binary as [Cpp H]; [cbn; lia|].
  cbv zeta. repeat split; assumption.
Defined.

(** A second call of [save] on the same saver finds the group of the first
    call: the assertion is false. *)
Example second_save_breaks_assertion :
  saveAssertion freshSaver = true
  /\ saveAssertion (snd (save exampleProject targetFile allowAll freshSaver)) = false.
Proof. split; vm_compute; reflexivity. Qed.

(** An error restores the location the project had; without error the
    location is the target file. *)
Example save_error_outcome_example :
  projectLocation (snd (save threeExporters targetFile noVisualStudioFolder freshSaver))
    = projectLocationBefore
  /\ projectLocation (snd (save threeExporters targetFile allowAll freshSaver)) = targetFile
  /\ fst (save threeExporters targetFile allowAll freshSaver) = EmptyString.
Proof. repeat split; vm_compute; reflexivity. Qed.

(** Two runs of [save] on different disks render the same umbrella header:
    with the stale folder on the disk or with nothing. *)
Lemma renderers_deterministic_example :
  let t1 := saveBeforeHeader exampleProject targetFile allowAll freshSaver in
  let t2 := saveBeforeHeader exampleProject targetFile allowAll
              (newProjectSaver exampleProject projectLocationBefore
                 [FsDir "proj" [staleFolder; FsFile "Demo.jucer" "old"]]) in
  fs_exists ["proj"; "JuceLibraryCode"; ".svn"] (disk t1) = false
  /\ fs_exists ["proj"; "JuceLibraryCode"; ".svn"] (disk t2) = true
  /\ writeAppHeader exampleProject [moduleM1; moduleM2] t1 EmptyString
     = writeAppHeader exampleProject [moduleM1; moduleM2] t2 EmptyString.
Proof.
  split; [vm_compute; reflexivity|]. split; [vm_compute; reflexivity|].
  apply (renderers_deterministic exampleProject targetFile EmptyString
           [moduleM1; moduleM2] allowAll allowAll); vm_compute; reflexivity.
Defined.

(** Against C8 as the specification states it: one project, one list of
    modules, the same extra content, and two umbrella headers.  On a saver
    fresh from the constructor, whose [appConfigFile] names no file, the
    umbrella header has no include of the configuration header; on the
    saver as [save] has it when it comes to the umbrella header, it has
    one; and on that saver again, members and all, once the disk has lost
    the file, it has none. *)
Lemma umbrella_header_reads_saver_state :
  let inRun := saveBeforeHeader exampleProject targetFile allowAll freshSaver in
  let emptied := setDisk [] inRun in
  let includes := fun s =>
    countLines (createIncludeStatement "AppConfig.h")
               (writeAppHeader exampleProject [moduleM1; moduleM2] s EmptyString) in
  extraAppConfigContent freshSaver = extraAppConfigContent inRun
  /\ extraAppConfigContent emptied = extraAppConfigContent inRun
  /\ appConfigFile emptied = appConfigFile inRun
  /\ binaryDataCpp emptied = binaryDataCpp inRun
  /\ includes freshSaver = 0
  /\ includes inRun = 1
  /\ includes emptied = 0.
Proof. repeat split; vm_compute; reflexivity. Qed.

(** A file registered while the Linux exporter was prepared is written, and
    is not in the group at the end of [save]: the XCode exporter ran after
    it, on the snapshot. *)
Example exporter_file_not_in_final_group :
  let r := save twoExporters targetFile allowAll freshSaver in
  errors (snd r) = []
  /\ existsb (File_eqb linuxOnlyFile) (writtenFiles (trace (snd r))) = true
  /\ countItemsFor linuxOnlyFile (generatedFilesGroup (snd r)) = 0.
Proof. vm_compute. repeat split. Qed.

(* ===================================================================== *)
(** * More on the folder reset *)
(* ===================================================================== *)

Lemma visitEntries_app recurse parent es1 es2 :
  visitEntries recurse parent (es1 ++ es2) =
  let '(e1, d1, l1, g1) := visitEntries recurse parent es1 in
  let '(e2, d2, l2, g2) := visitEntries recurse parent es2 in
  (e1 && e2, d1 ++ d2, l1 ++ l2, g1 ++ g2)%list.
Proof.
  induction es1 as [|f more IH].
  - cbn [app]. change (visitEntries recurse parent []) with (true, @nil File, @nil FsNode, @nil File).
    destruct (visitEntries recurse parent es2) as [[[e2 d2] l2] g2]. reflexivity.
  - rewrite <- app_comm_cons, !visitEntries_cons, IH.
    destruct (visitEntry recurse parent f) as [[[e0 d0] l0] g0].
    destruct (visitEntries recurse parent more) as [[[e1 d1] l1] g1].
    destruct (visitEntries recurse parent es2) as [[[e2 d2] l2] g2].
    rewrite andb_assoc, !app_assoc. reflexivity.
Qed.

(** What the reset left holds a kept entry exactly when the entry did. *)
Lemma existsb_containsKept_keptPart f :
  existsb containsKept (keptPart f) = containsKept f.
Proof.
  induction f as [name data | name es IH] using FsNode_forall_ind.
  - cbn [keptPart containsKept getFileName].
    destruct (shouldFileBeKept name) eqn:K; cbn [existsb containsKept getFileName orb];
      rewrite ?K; reflexivity.
  - cbn [keptPart containsKept getFileName].
    destruct (shouldFileBeKept name) eqn:K.
    + cbn [existsb containsKept getFileName orb]. rewrite K. reflexivity.
    + destruct (existsb containsKept es) eqn:C; [|reflexivity].
      cbn [existsb containsKept getFileName orb]. rewrite K. cbn [orb].
      rewrite orb_false_r.
      clear K. induction IH as [|f more Hf _ IHmore]; [discriminate|].
      cbn [flat_map existsb] in *. rewrite existsb_app, Hf.
      destruct (containsKept f); [reflexivity|]. cbn [orb] in *. auto.
Qed.

Lemma existsb_containsKept_flat es :
  existsb containsKept (flat_map keptPart es) = existsb containsKept es.
Proof.
  induction es as [|f more IH]; [reflexivity|].
  cbn [flat_map existsb]. rewrite existsb_app, existsb_containsKept_keptPart, IH.
  reflexivity.
Qed.

(** Resetting what a reset left changes nothing. *)
Lemma keptPart_keptPart f : flat_map keptPart (keptPart f) = keptPart f.
Proof.
  induction f as [name data | name es IH] using FsNode_forall_ind.
  - cbn [keptPart getFileName].
    destruct (shouldFileBeKept name) eqn:K; [|reflexivity].
    cbn [flat_map keptPart getFileName]. rewrite K. reflexivity.
  - cbn [keptPart getFileName].
    destruct (shouldFileBeKept name) eqn:K.
    + cbn [flat_map keptPart getFileName]. rewrite K. reflexivity.
    + destruct (existsb containsKept es) eqn:C; [|reflexivity].
      cbn [flat_map keptPart getFileName]. rewrite K, existsb_containsKept_flat, C.
      rewrite app_nil_r. do 2 f_equal.
      clear K C. induction IH as [|f more Hf _ IHmore]; [reflexivity|].
      cbn [flat_map]. rewrite flat_map_app, Hf, IHmore. reflexivity.
Qed.

Lemma flat_keptPart_keptPart es :
  flat_map keptPart (flat_map keptPart es) = flat_map keptPart es.
Proof.
  induction es as [|f more IH]; [reflexivity|].
  cbn [flat_map]. rewrite flat_map_app, keptPart_keptPart, IH. reflexivity.
Qed.

(** On what a reset left of an entry, the loop collects nothing to delete
    and its nested calls delete nothing. *)
Lemma visitEntries_keptPart f :
  forall parent,
    snd (fst (fst (visitEntries deleteNonHiddenFilesIn parent (keptPart f)))) = [] /\
    snd (visitEntries deleteNonHiddenFilesIn parent (keptPart f)) = [].
Proof.
  induction f as [name data | name es IH] using FsNode_forall_ind; intros parent.
  - cbn [keptPart getFileName].
    destruct (shouldFileBeKept name) eqn:K; [|split; reflexivity].
    rewrite visitEntries_cons. unfold visitEntry. cbn [getFileName]. rewrite K.
    split; reflexivity.
  - cbn [keptPart getFileName].
    destruct (shouldFileBeKept name) eqn:K.
    + rewrite visitEntries_cons. unfold visitEntry. cbn [getFileName]. rewrite K.
      split; reflexivity.
    + destruct (existsb containsKept es) eqn:C; [|split; reflexivity].
      rewrite visitEntries_cons. unfold visitEntry. cbn [getFileName]. rewrite K.
      rewrite deleteNonHiddenFilesIn_unfold.
      set (path := getChildFile parent name).
      assert (Inner : snd (fst (fst (visitEntries deleteNonHiddenFilesIn path
                                       (flat_map keptPart es)))) = [] /\
                      snd (visitEntries deleteNonHiddenFilesIn path (flat_map keptPart es)) = []).
      { clear K C. induction IH as [|f more Hf _ IHmore]; [split; reflexivity|].
        cbn [flat_map]. rewrite visitEntries_app.
        destruct (Hf path) as [D1 G1]. destruct IHmore as [D2 G2].
        destruct (visitEntries deleteNonHiddenFilesIn path (keptPart f)) as [[[e1 d1] l1] g1].
        destruct (visitEntries deleteNonHiddenFilesIn path (flat_map keptPart more))
          as [[[e2 d2] l2] g2].
        cbn [fst snd] in *. subst. split; reflexivity. }
      destruct (visitEntries_agrees path (flat_map keptPart es)) as [Flag _].
      { apply Forall_forall. intros x _. apply deleteNonHiddenFilesIn_agrees. }
      rewrite existsb_containsKept_flat, C in Flag.
      destruct Inner as [D G].
      destruct (visitEntries deleteNonHiddenFilesIn path (flat_map keptPart es))
        as [[[e d] l] g].
      cbn [fst snd negb] in *. subst. split; reflexivity.
Qed.

Lemma visitEntries_flat_keptPart es parent :
  snd (fst (fst (visitEntries deleteNonHiddenFilesIn parent (flat_map keptPart es)))) = [] /\
  snd (visitEntries deleteNonHiddenFilesIn parent (flat_map keptPart es)) = [].
Proof.
  induction es as [|f more IH]; [split; reflexivity|].
  cbn [flat_map]. rewrite visitEntries_app.
  destruct (visitEntries_keptPart f parent) as [D1 G1]. destruct IH as [D2 G2].
  destruct (visitEntries deleteNonHiddenFilesIn parent (keptPart f)) as [[[e1 d1] l1] g1].
  destruct (visitEntries deleteNonHiddenFilesIn parent (flat_map keptPart more))
    as [[[e2 d2] l2] g2].
  cbn [fst snd] in *. subst. split; reflexivity.
Qed.

(** X4 -- The reset is idempotent: run again on the directory it left, in any
    place, [deleteNonHiddenFilesIn] deletes nothing, leaves every entry as
    it is, and returns the flag of the first run. *)
Theorem deleteNonHiddenFilesIn_idempotent :
  forall (parent parent' : File) (name name' : string) (es : list FsNode),
    let r := deleteNonHiddenFilesIn parent (FsDir name es) in
    deleteNonHiddenFilesIn parent' (FsDir name' (resetLeft r))
    = (resetFlag r, resetLeft r, []).
Proof.
  intros parent parent' name name' es r.
  destruct (deleteNonHiddenFilesIn_agrees (FsDir name es) parent) as [Hb Hl].
  fold r in Hb, Hl. cbn [dirEntries] in Hb, Hl.
  unfold resetFlag, resetLeft. rewrite Hb, Hl.
  destruct (deleteNonHiddenFilesIn_agrees (FsDir name' (flat_map keptPart es)) parent')
    as [Hb' Hl'].
  cbn [dirEntries] in Hb', Hl'.
  rewrite existsb_containsKept_flat in Hb'. rewrite flat_keptPart_keptPart in Hl'.
  assert (Log : snd (deleteNonHiddenFilesIn parent' (FsDir name' (flat_map keptPart es))) = []).
  { rewrite deleteNonHiddenFilesIn_unfold.
    destruct (visitEntries_flat_keptPart es parent') as [D G].
    destruct (visitEntries deleteNonHiddenFilesIn parent' (flat_map keptPart es))
      as [[[e d] l] g].
    cbn [fst snd] in *. subst. reflexivity. }
  destruct (deleteNonHiddenFilesIn parent' (FsDir name' (flat_map keptPart es)))
    as [[flag remaining] log].
  cbn [fst snd] in *. subst. reflexivity.
Qed.

(* ===================================================================== *)
(** * The constructor and the disk *)
(* ===================================================================== *)

Lemma entriesOf_setEntry_other x es n :
  getFileName x <> n -> entriesOf n (setEntry x es) = entriesOf n es.
Proof.
  intros N. unfold entriesOf. rewrite findEntry_setEntry.
  destruct (String.eqb (getFileName x) n) eqn:E; [|reflexivity].
  apply String.eqb_eq in E. congruence.
Qed.

Lemma fs_find_setEntry_other x es a p :
  getFileName x <> a -> fs_find (a :: p) (setEntry x es) = fs_find (a :: p) es.
Proof.
  intros N. cbn [fs_find]. destruct p.
  - rewrite findEntry_setEntry.
    destruct (String.eqb (getFileName x) a) eqn:E; [|reflexivity].
    apply String.eqb_eq in E. congruence.
  - rewrite entriesOf_setEntry_other by exact N. reflexivity.
Qed.

Lemma pathsDiverge_not_nil p q : pathsDiverge p q = true -> p <> [] /\ q <> [].
Proof. destruct p, q; cbn; intros H; try discriminate; split; discriminate. Qed.

(** Putting a node at a path changes nothing at a path that parts from it. *)
Lemma fs_find_update_diverge (leaf : string -> FsNode) :
  (forall c, getFileName (leaf c) = c) ->
  forall p f root,
    pathsDiverge p f = true ->
    fs_find p (fs_update f leaf root) = fs_find p root.
Proof.
  intros leaf_name p. induction p as [|a p IH]; intros f root D; [discriminate|].
  destruct f as [|b f]; [discriminate|]. cbn [pathsDiverge] in D.
  destruct (String.eqb a b) eqn:E.
  - apply String.eqb_eq in E. subst b.
    destruct (pathsDiverge_not_nil p f D) as [Np Nf].
    rewrite fs_update_cons, !fs_find_cons by assumption.
    rewrite entriesOf_setEntry_dir. apply IH. exact D.
  - apply String.eqb_neq in E.
    assert (X : exists x, fs_update (b :: f) leaf root = setEntry x root /\ getFileName x = b).
    { cbn [fs_update]. destruct f; eexists; (split; [reflexivity|]);
        [apply leaf_name | reflexivity]. }
    destruct X as (x & -> & Nx).
    apply fs_find_setEntry_other. congruence.
Qed.

(** What lies below a directory is looked up in its entries. *)
Lemma fs_find_below folder q root n :
  fs_find folder root = Some n -> q <> [] ->
  fs_find (folder ++ q)%list root = fs_find q (dirEntries n).
Proof.
  revert root. induction folder as [|c folder IH]; intros root F Q; [discriminate|].
  destruct folder as [|c' folder].
  - cbn [app]. rewrite fs_find_cons by exact Q.
    cbn [fs_find] in F. unfold entriesOf. rewrite F. reflexivity.
  - rewrite <- app_comm_cons, fs_find_cons by discriminate.
    rewrite fs_find_cons in F by discriminate. apply IH; assumption.
Qed.

Lemma fs_find_below_absent folder q root :
  folder <> [] -> q <> [] ->
  match fs_find folder root with
  | Some (FsDir _ _) => False
  | _ => True
  end ->
  fs_find (folder ++ q)%list root = None.
Proof.
  revert root. induction folder as [|c folder IH]; intros root N Q F; [congruence|].
  destruct folder as [|c' folder].
  - cbn [app]. rewrite fs_find_cons by exact Q.
    cbn [fs_find] in F. unfold entriesOf.
    destruct (findEntry c root) as [[name data | name sub]|]; [| destruct F |];
      apply fs_find_nil.
  - rewrite <- app_comm_cons, fs_find_cons by discriminate.
    rewrite fs_find_cons in F by discriminate. apply IH; [discriminate | exact Q | exact F].
Qed.

(** After a directory was put at a path, what lies below the path is looked
    up in the entries it was given. *)
Lemma fs_find_update_below folder q sub root :
  folder <> [] -> q <> [] ->
  fs_find (folder ++ q)%list (fs_update folder (fun c => FsDir c sub) root) = fs_find q sub.
Proof.
  revert root. induction folder as [|c folder IH]; intros root N Q; [congruence|].
  destruct folder as [|c' folder].
  - cbn [app fs_update]. rewrite fs_find_cons by exact Q.
    rewrite entriesOf_setEntry_dir. reflexivity.
  - rewrite <- app_comm_cons, fs_update_cons, fs_find_cons by discriminate.
    rewrite entriesOf_setEntry_dir. apply IH; [discriminate | exact Q].
Qed.

Lemma keptPart_names f x : In x (keptPart f) -> getFileName x = getFileName f.
Proof.
  destruct f as [name data | name es]; cbn [keptPart getFileName].
  - destruct (shouldFileBeKept name); [intros [<-|[]]; reflexivity | intros []].
  - destruct (shouldFileBeKept name); [intros [<-|[]]; reflexivity|].
    destruct (existsb containsKept es); [intros [<-|[]]; reflexivity | intros []].
Qed.

Lemma findEntry_other_names n more es :
  (forall x, In x more -> getFileName x <> n) ->
  findEntry n (more ++ es) = findEntry n es.
Proof.
  induction more as [|y more IH]; intros H; [reflexivity|].
  cbn [app findEntry].
  destruct (String.eqb (getFileName y) n) eqn:E.
  - apply String.eqb_eq in E. exfalso. apply (H y); [left; reflexivity | exact E].
  - apply IH. intros x Hx. apply H. right. exact Hx.
Qed.

(** An entry on the keep-list is found after the reset as before. *)
Lemma findEntry_kept n es :
  shouldFileBeKept n = true ->
  findEntry n (flat_map keptPart es) = findEntry n es.
Proof.
  intros K. induction es as [|e more IH]; [reflexivity|].
  cbn [flat_map findEntry].
  destruct (String.eqb (getFileName e) n) eqn:E.
  - apply String.eqb_eq in E.
    assert (P : keptPart e = [e]).
    { destruct e; cbn [keptPart getFileName] in *; subst; rewrite K; reflexivity. }
    rewrite P. cbn [app findEntry]. subst n. rewrite String.eqb_refl. reflexivity.
  - rewrite findEntry_other_names; [exact IH|].
    intros x Hx. apply keptPart_names in Hx. rewrite Hx.
    apply String.eqb_neq. exact E.
Qed.

(** An entry that is not on the keep-list and is found after the reset is a
    directory. *)
Lemma findEntry_not_kept n es x :
  shouldFileBeKept n = false ->
  findEntry n (flat_map keptPart es) = Some x -> isFolder x = true.
Proof.
  intros K. induction es as [|e more IH]; [discriminate|].
  cbn [flat_map].
  destruct (String.eqb (getFileName e) n) eqn:E.
  - apply String.eqb_eq in E.
    destruct e as [name data | name sub]; cbn [keptPart getFileName] in *; subst name;
      rewrite K.
    + exact IH.
    + destruct (existsb containsKept sub); [|exact IH].
      cbn [app findEntry getFileName]. rewrite String.eqb_refl.
      intros H. injection H as <-. reflexivity.
  - rewrite findEntry_other_names; [exact IH|].
    intros y Hy. apply keptPart_names in Hy. rewrite Hy.
    apply String.eqb_neq. exact E.
Qed.

Lemma newProjectSaver_disk project location d :
  disk (newProjectSaver project location d) =
  match fs_find (generatedCodeFolder project) d with
  | Some (FsDir name entries) =>
      fs_update (generatedCodeFolder project)
        (fun c => FsDir c (flat_map keptPart entries)) d
  | _ => d
  end.
Proof.
  unfold newProjectSaver. cbv zeta. cbn [disk].
  destruct (fs_find (generatedCodeFolder project) d) as [[name data | name entries]|];
    try reflexivity.
  cbn [fst].
  destruct (deleteNonHiddenFilesIn_agrees (FsDir name entries) (generatedCodeFolder project))
    as [_ L].
  unfold resetLeft. rewrite L. reflexivity.
Qed.

Lemma fs_find_dir_not_nil f root n : fs_find f root = Some n -> f <> [].
Proof. destruct f; [discriminate | discriminate]. Qed.

(** X1 -- The constructor works inside the generated-code folder only.  A path
    that parts from the folder's path is found on the disk as before; every
    deletion is strictly below the folder; and when the folder is not a
    directory of the disk, the disk is left as it is and nothing is
    deleted. *)
Theorem newProjectSaver_outside_untouched :
  forall (project : Project) (location : File) (d : list FsNode) (p : File),
    pathsDiverge p (generatedCodeFolder project) = true ->
    let s := newProjectSaver project location d in
    fs_find p (disk s) = fs_find p d
    /\ (forall q, In q (deletedFiles (trace s)) ->
                  isProperPrefix (generatedCodeFolder project) q)
    /\ (fs_isDirectory (generatedCodeFolder project) d = false ->
        disk s = d /\ trace s = []).
Proof.
  intros project location d p D s. subst s. split; [|split].
  - rewrite newProjectSaver_disk.
    destruct (fs_find (generatedCodeFolder project) d) as [[name data | name entries]|];
      try reflexivity.
    apply fs_find_update_diverge; [reflexivity | exact D].
  - unfold newProjectSaver. cbv zeta. cbn [trace].
    destruct (fs_find (generatedCodeFolder project) d) as [[name data | name entries]|];
      cbn [snd deletedFiles]; try (intros q []).
    intros q Hq.
    apply (deleteNonHiddenFilesIn_below (FsDir name entries) (generatedCodeFolder project)).
    unfold resetLog in Hq.
    induction (snd (deleteNonHiddenFilesIn (generatedCodeFolder project) (FsDir name entries)))
      as [|x l IH]; [destruct Hq|].
    cbn [map deletedFiles In] in Hq |- *. destruct Hq as [<-|Hq]; [left; reflexivity|].
    right. apply IH. exact Hq.
  - unfold fs_isDirectory, newProjectSaver. cbv zeta. cbn [disk trace].
    destruct (fs_find (generatedCodeFolder project) d) as [[name data | name entries]|];
      cbn [isFolder fst snd]; intros H; try discriminate; split; reflexivity.
Qed.

(** X2 -- The constructor leaves the version-control entries of the folder alone:
    an entry of the generated-code folder whose name is on the keep-list
    (.svn, .cvs, CMakeLists.txt), and everything below such an entry, is on
    the disk after the constructor as it was before. *)
Theorem newProjectSaver_keeps_version_control :
  forall (project : Project) (location : File) (d : list FsNode)
         (kept : string) (below : File),
    shouldFileBeKept kept = true ->
    let p := (generatedCodeFolder project ++ kept :: below)%list in
    fs_find p (disk (newProjectSaver project location d)) = fs_find p d.
Proof.
  intros project location d kept below K p. subst p.
  rewrite newProjectSaver_disk.
  destruct (fs_find (generatedCodeFolder project) d) as [[name data | name entries]|] eqn:F;
    try reflexivity.
  pose proof (fs_find_dir_not_nil _ _ _ F) as N.
  rewrite fs_find_update_below by (exact N || discriminate).
  rewrite (fs_find_below _ (kept :: below) d _ F) by discriminate.
  cbn [dirEntries fs_find]. destruct below.
  - apply findEntry_kept. exact K.
  - unfold entriesOf. rewrite findEntry_kept by exact K. reflexivity.
Qed.

(** X3 -- The constructor leaves no ordinary file in the generated-code folder:
    an entry of the folder whose name is not on the keep-list, if there is
    one after the constructor, is a directory (one that holds a kept entry
    at some depth).  So no file generated by an earlier save is left. *)
Theorem newProjectSaver_clears_files :
  forall (project : Project) (location : File) (d : list FsNode) (name : string),
    generatedCodeFolder project <> [] ->
    shouldFileBeKept name = false ->
    let f := getChildFile (generatedCodeFolder project) name in
    let after := disk (newProjectSaver project location d) in
    fs_exists f after = fs_isDirectory f after.
Proof.
  intros project location d name N K f after. subst f after.
  rewrite newProjectSaver_disk. unfold fs_exists, fs_isDirectory, getChildFile.
  destruct (fs_find (generatedCodeFolder project) d) as [[fname data | fname entries]|] eqn:F.
  - rewrite fs_find_below_absent; [reflexivity | exact N | discriminate |].
    rewrite F. exact I.
  - rewrite fs_find_update_below by (exact N || discriminate).
    cbn [fs_find].
    destruct (findEntry name (flat_map keptPart entries)) as [x|] eqn:E; [|reflexivity].
    rewrite (findEntry_not_kept name entries x K E). reflexivity.
  - rewrite fs_find_below_absent; [reflexivity | exact N | discriminate |].
    rewrite F. exact I.
Qed.

(* ===================================================================== *)
(** * How a run of save fails *)
(* ===================================================================== *)

Lemma oneErrorOf_incl m m' s s' :
  incl m m' -> oneErrorOf m s s' -> oneErrorOf m' s s'.
Proof.
  intros I [E | (msg & Hin & E)]; [left; exact E|].
  right. exists msg. split; [apply I; exact Hin | exact E].
Qed.

Lemma oneErrorOf_same m s s' : errors s' = errors s -> oneErrorOf m s s'.
Proof. intros E. left. exact E. Qed.

Section Failures.

Variable project : Project.
Variable projectFile : File.
Variable os : Permissions.

Let modules := requiredModules project.
Let folder := generatedCodeFolder project.

Lemma oneErrorOf_replaceFileIfDifferent f data s :
  oneErrorOf ["Can't write to file: " ++ getFullPathName f] s
             (snd (replaceFileIfDifferent os f data s)).
Proof.
  unfold replaceFileIfDifferent.
  destruct (overwriteFileWithNewDataIfDifferent os f data (disk s)) as [[d w]|].
  - left. destruct w; reflexivity.
  - right. eexists. split; [left; reflexivity | reflexivity].
Qed.

Lemma oneErrorOf_saveGeneratedFile filePath data s :
  oneErrorOf ["Couldn't create folder: " ++ getFullPathName folder;
              "Can't write to file: " ++ getFullPathName (getChildFile folder filePath)]
             s (snd (saveGeneratedFile project os filePath data s)).
Proof.
  unfold saveGeneratedFile.
  destruct (createDirectory os (generatedCodeFolder project) (disk s)) as [d|].
  - match goal with
    | |- context [replaceFileIfDifferent os ?f data ?s0] =>
        pose proof (oneErrorOf_replaceFileIfDifferent f data s0) as R;
        destruct (replaceFileIfDifferent os f data s0) as [ok s1]
    end.
    cbn [snd] in R.
    assert (R' : oneErrorOf
                   ["Couldn't create folder: " ++ getFullPathName folder;
                    "Can't write to file: " ++ getFullPathName (getChildFile folder filePath)]
                   s s1).
    { destruct R as [E | (msg & [<-|[]] & E)]; [left; exact E|].
      right. eexists. split; [right; left; reflexivity | exact E]. }
    destruct ok; [|exact R'].
    destruct R' as [E | (msg & Hin & E)].
    + left. rewrite errors_addFileToGeneratedGroup. exact E.
    + right. exists msg. rewrite errors_addFileToGeneratedGroup. auto.
  - right. eexists. split; [left; reflexivity | reflexivity].
Qed.

Lemma errors_deleteFile f s : errors (deleteFile f s) = errors s.
Proof. unfold deleteFile. destruct (fs_exists f (disk s)); reflexivity. Qed.

Lemma errors_resourceFileWrite f s :
  errors (snd (resourceFileWrite project os f s)) = errors s.
Proof.
  unfold resourceFileWrite.
  destruct (overwriteFileWithNewDataIfDifferent os f _ (disk s)) as [[d w]|];
    [|reflexivity].
  match goal with
  | |- context [overwriteFileWithNewDataIfDifferent os ?g ?data ?d0] =>
      destruct (overwriteFileWithNewDataIfDifferent os g data d0) as [[d' w']|]
  end; destruct w; try destruct w'; reflexivity.
Qed.

Lemma oneErrorOf_writeBinaryDataFiles s :
  oneErrorOf ["Can't create binary resources file: "
                ++ getFullPathName (getChildFile folder "BinaryData.cpp")]
             s (writeBinaryDataFiles project os s).
Proof.
  unfold writeBinaryDataFiles. cbv zeta.
  destruct (0 <? numResourceFiles project)%nat.
  - cbn [setBinaryDataCpp binaryDataCpp].
    match goal with
    | |- context [resourceFileWrite project os ?f ?s0] =>
        pose proof (errors_resourceFileWrite f s0) as R;
        assert (B : binaryDataCpp (snd (resourceFileWrite project os f s0)) = f);
        [| destruct (resourceFileWrite project os f s0) as [ok s1]]
    end.
    { unfold resourceFileWrite. repeat break_match; reflexivity. }
    cbn [snd setBinaryDataCpp errors] in R, B. destruct ok.
    + left. exact R.
    + right. eexists. split; [left; reflexivity|].
      cbn [addError errors]. rewrite R, B. reflexivity.
  - left. rewrite !errors_deleteFile. reflexivity.
Qed.

(** One gated step of [save], in a run that has met one error at most. *)
Lemma oneError_gate (m : list string) (step : ProjectSaver -> ProjectSaver) s :
  oneErrorOf m s (step s) ->
  (errors s = [] \/ exists message, In message m /\ errors s = [message]) ->
  let s' := if noErrors s then step s else s in
  errors s' = [] \/ exists message, In message m /\ errors s' = [message].
Proof.
  intros O [E | (msg & Hin & E)]; cbv zeta.
  - unfold noErrors. rewrite E.
    destruct O as [O | (msg & Hin & O)]; rewrite E in O; [left; exact O|].
    right. exists msg. auto.
  - unfold noErrors. rewrite E. right. exists msg. auto.
Qed.

(** Before it comes to the exporters, a run of [save] on a saver without
    errors has met no error, or one, after which it did nothing. *)
Lemma saveBeforeProjects_oneError s :
  errors s = [] ->
  let t := saveBeforeProjects project projectFile os s in
  errors t = [] \/
  exists message, In message (errorsBeforeExporters project projectFile) /\
                  errors t = [message].
Proof.
  intros E. unfold saveBeforeProjects, saveBeforeHeader. cbv zeta.
  set (s1 := writeMainProjectFile project projectFile os (setFile projectFile s)).
  assert (H1 : errors s1 = [] \/
               exists message, In message (errorsBeforeExporters project projectFile) /\
                               errors s1 = [message]).
  { unfold s1, writeMainProjectFile.
    destruct (oneErrorOf_replaceFileIfDifferent projectFile (projectRootXml project)
                (setFile projectFile s)) as [O | (msg & [<-|[]] & O)];
      cbn [setFile errors] in O; rewrite E in O; [left; exact O|].
    right. eexists. split; [left; reflexivity | exact O]. }
  set (t2 := if noErrors s1 then writeAppConfigFile project os (requiredModules project) s1
             else s1).
  assert (H2 : errors t2 = [] \/
               exists message, In message (errorsBeforeExporters project projectFile) /\
                               errors t2 = [message]).
  { apply (oneError_gate _ (writeAppConfigFile project os (requiredModules project)) s1);
      [|exact H1].
    unfold writeAppConfigFile. cbv zeta.
    match goal with
    | |- context [saveGeneratedFile project os ?p ?data ?s0] =>
        pose proof (oneErrorOf_saveGeneratedFile p data s0) as O
    end.
    eapply oneErrorOf_incl; [|exact O].
    intros x [<-|[<-|[]]]; [right; left; reflexivity | right; right; left; reflexivity]. }
  set (t3 := if noErrors t2 then writeBinaryDataFiles project os t2 else t2).
  assert (H3 : errors t3 = [] \/
               exists message, In message (errorsBeforeExporters project projectFile) /\
                               errors t3 = [message]).
  { apply (oneError_gate _ (writeBinaryDataFiles project os) t2); [|exact H2].
    eapply oneErrorOf_incl; [|apply oneErrorOf_writeBinaryDataFiles].
    intros x [<-|[]]. do 3 right. left. reflexivity. }
  apply (oneError_gate _ (writeAppHeaderFile project os (requiredModules project)) t3);
    [|exact H3].
  unfold writeAppHeaderFile. cbv zeta.
  match goal with
  | |- context [saveGeneratedFile project os ?p ?data ?s0] =>
      pose proof (oneErrorOf_saveGeneratedFile p data s0) as O
  end.
  eapply oneErrorOf_incl; [|exact O].
  intros x [<-|[<-|[]]]; [right; left; reflexivity | do 4 right; left; reflexivity].
Qed.

(** What [save] does after a step before the exporters left an error:
    it restores the location, and nothing else. *)
Lemma save_after_early_error s :
  noErrors (saveBeforeProjects project projectFile os s) = false ->
  save project projectFile os s =
  (nth 0 (errors (saveBeforeProjects project projectFile os s)) EmptyString,
   setFile (projectLocation s) (saveBeforeProjects project projectFile os s)).
Proof.
  intros N. unfold save, saveFiles. cbv zeta.
  rewrite N. cbv iota. rewrite N. cbv iota. rewrite N, andb_false_r. cbv iota.
  rewrite N. reflexivity.
Qed.

End Failures.

(** X6 -- When the main project file cannot be written, [save] stops there: it
    returns the error "Can't write to file: " with the path of the project
    file, which is the one error on record, and it leaves the disk, the
    generated-files group, the trace and the project's location as they
    were; no file of the generated-code folder is written and no exporter
    runs. *)
Theorem save_project_file_unwritable :
  forall (project : Project) (projectFile : File) (os : Permissions) (s : ProjectSaver),
    errors s = [] ->
    overwriteFileWithNewDataIfDifferent os projectFile (projectRootXml project) (disk s)
      = None ->
    save project projectFile os s =
    ("Can't write to file: " ++ getFullPathName projectFile,
     addError ("Can't write to file: " ++ getFullPathName projectFile) s).
Proof.
  intros project projectFile os s E W.
  assert (S1 : writeMainProjectFile project projectFile os (setFile projectFile s)
               = addError ("Can't write to file: " ++ getFullPathName projectFile)
                          (setFile projectFile s)).
  { unfold writeMainProjectFile, replaceFileIfDifferent. cbn [setFile disk].
    rewrite W. reflexivity. }
  assert (T : saveBeforeProjects project projectFile os s
              = addError ("Can't write to file: " ++ getFullPathName projectFile)
                         (setFile projectFile s)).
  { assert (N1 : noErrors (addError ("Can't write to file: " ++ getFullPathName projectFile)
                                      (setFile projectFile s)) = false).
    { unfold noErrors. cbn [addError setFile errors]. rewrite E. reflexivity. }
    unfold saveBeforeProjects, saveBeforeHeader. cbv zeta. rewrite S1.
    repeat (rewrite N1; cbv iota). reflexivity. }
  rewrite save_after_early_error; rewrite T.
  - cbn [addError setFile errors]. rewrite E. reflexivity.
  - unfold noErrors. cbn [addError setFile errors]. rewrite E. reflexivity.
Qed.

(** X8 -- A failure before the exporters ends the run.  When a step of [save]
    before [writeProjects] leaves an error on a saver that had none, this
    error is the only one on record at the end and the string [save]
    returns; it is one of the five errors these steps can raise; after the
    failing step [save] only restores the project's location: no exporter
    is called, and nothing more is written. *)
Theorem save_failure_before_exporters :
  forall (project : Project) (projectFile : File) (os : Permissions) (s : ProjectSaver),
    errors s = [] ->
    noErrors (saveBeforeProjects project projectFile os s) = false ->
    let r := save project projectFile os s in
    (exists message,
        In message (errorsBeforeExporters project projectFile) /\
        errors (snd r) = [message] /\ fst r = message)
    /\ snd r = setFile (projectLocation s) (saveBeforeProjects project projectFile os s)
    /\ handedGroups (trace (snd r)) = handedGroups (trace s).
Proof.
  intros project projectFile os s E N r. subst r.
  rewrite (save_after_early_error project projectFile os s N). cbn [fst snd].
  split; [|split; [reflexivity|]].
  - destruct (saveBeforeProjects_oneError project projectFile os s E)
      as [Z | (msg & Hin & Z)].
    + unfold noErrors in N. rewrite Z in N. discriminate.
    + exists msg. cbn [setFile errors]. rewrite Z. auto.
  - cbn [setFile trace]. apply saveBeforeProjects_handed.
Qed.

(* ===================================================================== *)
(** * The stable writer on any path *)
(* ===================================================================== *)

Lemma findEntry_name c root n : findEntry c root = Some n -> getFileName n = c.
Proof.
  induction root as [|e rest IH]; [discriminate|]. cbn [findEntry].
  destruct (String.eqb (getFileName e) c) eqn:E; [|exact IH].
  intros H. injection H as <-. apply String.eqb_eq. exact E.
Qed.

Lemma fs_find_name f root n : fs_find f root = Some n -> getFileName n = last f EmptyString.
Proof.
  revert root. induction f as [|c rest IH]; intros root; [discriminate|].
  destruct rest as [|c' rest].
  - cbn [fs_find last]. apply findEntry_name.
  - rewrite fs_find_cons by discriminate.
    change (last (c :: c' :: rest) EmptyString) with (last (c' :: rest) EmptyString).
    apply IH.
Qed.

Lemma path_split (f : File) : f <> [] -> f = getChildFile (removelast f) (last f EmptyString).
Proof. intros N. unfold getChildFile. apply app_removelast_last. exact N. Qed.

Lemma fs_find_write_same f data root :
  f <> [] -> fs_find f (fs_write f data root) = Some (FsFile (last f EmptyString) data).
Proof.
  intros N. rewrite (path_split f N) at 1 2. unfold fs_write.
  rewrite (fs_find_update_same (fun c => FsFile c data)); reflexivity.
Qed.

(** What the stable writer leaves at the path it was given, and at a path
    that parts from it. *)
Lemma overwrite_result os f data root d written :
  f <> [] ->
  overwriteFileWithNewDataIfDifferent os f data root = Some (d, written) ->
  fs_find f d = Some (FsFile (last f EmptyString) data).
Proof.
  intros N. unfold overwriteFileWithNewDataIfDifferent.
  destruct (fs_find f root) as [[name old | name sub]|] eqn:F.
  - destruct (String.eqb old data) eqn:E.
    + intros H. injection H as <- _. rewrite F.
      apply String.eqb_eq in E. subst old.
      apply fs_find_name in F. cbn [getFileName] in F. subst name. reflexivity.
    + destruct (canWriteFile os f); [|discriminate].
      intros H. injection H as <- _. apply fs_find_write_same. exact N.
  - destruct (canWriteFile os f); [|discriminate].
    intros H. injection H as <- _. apply fs_find_write_same. exact N.
  - destruct (canWriteFile os f); [|discriminate].
    intros H. injection H as <- _. apply fs_find_write_same. exact N.
Qed.

Lemma overwrite_diverge os f data root d written p :
  pathsDiverge p f = true ->
  overwriteFileWithNewDataIfDifferent os f data root = Some (d, written) ->
  fs_find p d = fs_find p root.
Proof.
  intros D. unfold overwriteFileWithNewDataIfDifferent, fs_write.
  destruct (fs_find f root) as [[name old | name sub]|];
    [destruct (String.eqb old data); [intros H; injection H as <- _; reflexivity|]| |];
    (destruct (canWriteFile os f); [|discriminate]);
    intros H; injection H as <- _;
    apply fs_find_update_diverge; auto.
Qed.

Lemma overwrite_allowed os f data root :
  canWriteFile os f = true ->
  exists d written, overwriteFileWithNewDataIfDifferent os f data root = Some (d, written).
Proof.
  intros W. unfold overwriteFileWithNewDataIfDifferent. rewrite W.
  destruct (fs_find f root) as [[name old | name sub]|];
    [destruct (String.eqb old data)| |]; eauto.
Qed.

(** X7 -- When the generated-code folder cannot be created, [save] has written
    the main project file and nothing else.  It returns the error
    "Couldn't create folder: " with the folder's path, the one error on
    record; the project's location is restored and the generated-files
    group is as it was; the project file is on the disk with the project's
    XML, and every path that parts from the project file's is on the disk
    as before. *)
Theorem save_folder_not_creatable :
  forall (project : Project) (projectFile : File) (os : Permissions) (s : ProjectSaver),
    errors s = [] ->
    projectFile <> [] ->
    canWriteFile os projectFile = true ->
    canCreateDirectory os (generatedCodeFolder project) = false ->
    let r := save project projectFile os s in
    let message := "Couldn't create folder: " ++ getFullPathName (generatedCodeFolder project) in
    fst r = message
    /\ errors (snd r) = [message]
    /\ projectLocation (snd r) = projectLocation s
    /\ generatedFilesGroup (snd r) = generatedFilesGroup s
    /\ fs_find projectFile (disk (snd r))
       = Some (FsFile (last projectFile EmptyString) (projectRootXml project))
    /\ (forall p, pathsDiverge p projectFile = true ->
                  fs_find p (disk (snd r)) = fs_find p (disk s)).
Proof.
  intros project projectFile os s E N W C r message.
  destruct (overwrite_allowed os projectFile (projectRootXml project) (disk s) W)
    as (d & w & O).
  set (s1 := writeMainProjectFile project projectFile os (setFile projectFile s)).
  assert (F1 : errors s1 = [] /\ disk s1 = d /\
               generatedFilesGroup s1 = generatedFilesGroup s).
  { unfold s1, writeMainProjectFile, replaceFileIfDifferent. cbn [setFile disk].
    rewrite O. destruct w; cbn; auto. }
  destruct F1 as (E1 & D1 & G1).
  set (t := addError message
              (setAppConfigFile
                 (getChildFile (generatedCodeFolder project) (getAppConfigFilename project)) s1)).
  assert (N2 : noErrors t = false).
  { unfold noErrors, t. cbn [addError setAppConfigFile errors]. rewrite E1. reflexivity. }
  assert (T : saveBeforeProjects project projectFile os s = t).
  { unfold saveBeforeProjects, saveBeforeHeader. cbv zeta. fold s1.
    assert (N1 : noErrors s1 = true) by (apply noErrors_nil; exact E1).
    rewrite N1.
    assert (A : writeAppConfigFile project os (requiredModules project) s1 = t).
    { unfold writeAppConfigFile, saveGeneratedFile, createDirectory. cbv zeta.
      rewrite C. reflexivity. }
    rewrite A. repeat (rewrite N2; cbv iota). reflexivity. }
  subst r. rewrite save_after_early_error; rewrite T; [|exact N2].
  clear T N2. clearbody s1. subst t.
  cbn [fst snd setFile addError setAppConfigFile errors projectLocation
       generatedFilesGroup disk].
  rewrite E1, D1, G1. cbn [app nth].
  repeat split.
  - apply (overwrite_result os projectFile _ (disk s) d w N O).
  - intros p D. apply (overwrite_diverge os projectFile _ (disk s) d w p D O).
Qed.

(* ===================================================================== *)
(** * The turns of the exporters *)
(* ===================================================================== *)

Lemma stdoutLines_app t1 t2 : stdoutLines (t1 ++ t2) = (stdoutLines t1 ++ stdoutLines t2)%list.
Proof.
  induction t1 as [|e t1 IH]; [reflexivity|].
  destruct e; cbn [app stdoutLines]; rewrite IH; reflexivity.
Qed.

Lemma deletedFiles_app t1 t2 :
  deletedFiles (t1 ++ t2) = (deletedFiles t1 ++ deletedFiles t2)%list.
Proof.
  induction t1 as [|e t1 IH]; [reflexivity|].
  destruct e; cbn [app deletedFiles]; rewrite IH; reflexivity.
Qed.

Lemma stdoutLines_written files : stdoutLines (map EvWritten files) = [].
Proof. induction files; [reflexivity | assumption]. Qed.

Lemma deletedFiles_written files : deletedFiles (map EvWritten files) = [].
Proof. induction files; [reflexivity | assumption]. Qed.

Lemma handedGroups_written files : handedGroups (map EvWritten files) = [].
Proof. induction files; [reflexivity | assumption]. Qed.

Lemma writesOnly_refl s : writesOnly s s.
Proof. exists []. cbn. rewrite app_nil_r. reflexivity. Qed.

Lemma writesOnly_trans s1 s2 s3 : writesOnly s1 s2 -> writesOnly s2 s3 -> writesOnly s1 s3.
Proof.
  intros [f1 E1] [f2 E2]. exists (f1 ++ f2)%list.
  rewrite E2, E1, map_app, app_assoc. reflexivity.
Qed.

Lemma writesOnly_fields s s' : trace s' = trace s -> writesOnly s s'.
Proof. intros E. exists []. cbn. rewrite app_nil_r. exact E. Qed.

Lemma writesOnly_stdout s s' : writesOnly s s' -> stdoutLines (trace s') = stdoutLines (trace s).
Proof.
  intros [files E]. rewrite E, stdoutLines_app, stdoutLines_written. apply app_nil_r.
Qed.

Lemma writesOnly_deleted s s' :
  writesOnly s s' -> deletedFiles (trace s') = deletedFiles (trace s).
Proof.
  intros [files E]. rewrite E, deletedFiles_app, deletedFiles_written. apply app_nil_r.
Qed.

Section Turns.

Variable project : Project.
Variable os : Permissions.

Lemma writesOnly_replaceFileIfDifferent f data s :
  writesOnly s (snd (replaceFileIfDifferent os f data s)).
Proof.
  unfold replaceFileIfDifferent.
  destruct (overwriteFileWithNewDataIfDifferent os f data (disk s)) as [[d w]|]; cbn [snd].
  - destruct w; [exists [f]; reflexivity | apply writesOnly_fields; reflexivity].
  - apply writesOnly_fields. reflexivity.
Qed.

Lemma writesOnly_addFileToGeneratedGroup file s :
  writesOnly s (snd (addFileToGeneratedGroup file s)).
Proof.
  unfold addFileToGeneratedGroup. break_match; cbn [snd];
    [apply writesOnly_refl | apply writesOnly_fields; reflexivity].
Qed.

Lemma writesOnly_saveGeneratedFile filePath data s :
  writesOnly s (snd (saveGeneratedFile project os filePath data s)).
Proof.
  unfold saveGeneratedFile. destruct (createDirectory os _ _) as [d|]; cbn [snd].
  - pose proof (writesOnly_replaceFileIfDifferent
                  (getChildFile (generatedCodeFolder project) filePath) data (setDisk d s)) as Q.
    destruct (replaceFileIfDifferent os _ data (setDisk d s)) as [ok s1]. cbn [snd] in Q.
    destruct ok; cbn [snd]; [|exact Q].
    eapply writesOnly_trans; [exact Q | apply writesOnly_addFileToGeneratedGroup].
  - apply writesOnly_fields. reflexivity.
Qed.

Lemma writesOnly_runCall c s : writesOnly s (runCall project os c s).
Proof.
  destruct c; cbn [runCall].
  - apply writesOnly_saveGeneratedFile.
  - apply writesOnly_addFileToGeneratedGroup.
  - apply writesOnly_fields; reflexivity.
  - apply writesOnly_replaceFileIfDifferent.
Qed.

Lemma writesOnly_fold {A} (step : ProjectSaver -> A -> ProjectSaver) l :
  (forall a s, writesOnly s (step s a)) -> forall s, writesOnly s (fold_left step l s).
Proof.
  intros H. induction l as [|a l IH]; intros s; cbn; [apply writesOnly_refl|].
  eapply writesOnly_trans; [apply H | apply IH].
Qed.

Lemma writesOnly_prepare exporter modules s :
  writesOnly s (fold_left (modulePrepareExporter project os exporter) modules s).
Proof.
  apply writesOnly_fold. intros m s'. unfold modulePrepareExporter.
  apply writesOnly_fold. intros c s''. apply writesOnly_runCall.
Qed.

(** One turn prints one line. *)
Lemma writeProject_stdout modules g exporter s :
  stdoutLines (trace (writeProject project os modules g exporter s)) =
  (stdoutLines (trace s) ++ [announcement exporter])%list.
Proof.
  unfold writeProject. destruct (createDirectory os _ _) as [d|].
  - match goal with
    | |- context [fold_left ?f modules ?s0] =>
        pose proof (writesOnly_stdout _ _ (writesOnly_prepare exporter modules s0)) as W;
        set (s1 := fold_left f modules s0) in *
    end.
    cbn [setGroup setDisk emit trace] in W. rewrite stdoutLines_app in W.
    cbn [stdoutLines] in W. unfold announcement.
    destruct (create exporter _);
      cbn [addError emit setGroup trace]; rewrite stdoutLines_app, W;
      cbn [stdoutLines]; rewrite app_nil_r; reflexivity.
  - cbn [addError emit trace]. rewrite stdoutLines_app. reflexivity.
Qed.

Lemma fold_stdout modules g l s :
  stdoutLines (trace (fold_left (fun st e => writeProject project os modules g e st) l s)) =
  (stdoutLines (trace s) ++ map announcement l)%list.
Proof.
  revert s. induction l as [|e l IH]; intros s; cbn [fold_left map].
  - rewrite app_nil_r. reflexivity.
  - rewrite IH, writeProject_stdout, <- app_assoc. reflexivity.
Qed.

(** The turn of an exporter whose target folder cannot be created. *)
Lemma writeProject_not_created modules g exporter s :
  targetFolderCreated os exporter = false ->
  writeProject project os modules g exporter s =
  addError (cantCreateFolder exporter) (emit (EvStdout (announcement exporter)) s).
Proof.
  unfold targetFolderCreated, writeProject, createDirectory. cbn [emit disk].
  intros ->. reflexivity.
Qed.

Lemma fold_not_created modules g l s :
  (forall e, In e l -> targetFolderCreated os e = false) ->
  let s' := fold_left (fun st e => writeProject project os modules g e st) l s in
  generatedFilesGroup s' = generatedFilesGroup s
  /\ disk s' = disk s
  /\ errors s' = (errors s ++ map cantCreateFolder l)%list
  /\ trace s' = (trace s ++ map (fun e => EvStdout (announcement e)) l)%list.
Proof.
  revert s. induction l as [|e l IH]; intros s H; cbn [fold_left map].
  - rewrite !app_nil_r. repeat split; reflexivity.
  - rewrite writeProject_not_created by (apply H; left; reflexivity).
    destruct (IH (addError (cantCreateFolder e) (emit (EvStdout (announcement e)) s)))
      as (G & D & E & T); [intros e' He'; apply H; right; exact He'|].
    cbv zeta in G, D, E, T. rewrite G, D, E, T.
    cbn [addError emit generatedFilesGroup disk errors trace].
    rewrite <- !app_assoc. repeat split; reflexivity.
Qed.

(** The saver's group after a turn: the group handed to the exporter, if it
    was called. *)
Lemma writeProject_last_handed modules g exporter s :
  (exists handed,
      handedGroups (trace (writeProject project os modules g exporter s))
        = (handedGroups (trace s) ++ [(exporter, handed)])%list /\
      generatedFilesGroup (writeProject project os modules g exporter s) = handed)
  \/ (handedGroups (trace (writeProject project os modules g exporter s))
        = handedGroups (trace s) /\
      generatedFilesGroup (writeProject project os modules g exporter s)
        = generatedFilesGroup s).
Proof.
  unfold writeProject. destruct (createDirectory os _ _) as [d|].
  - left.
    match goal with
    | |- context [fold_left ?f modules ?s0] =>
        destruct (writesOnly_prepare exporter modules s0) as [files W];
        set (s1 := fold_left f modules s0) in *
    end.
    cbn [setGroup setDisk emit trace] in W.
    exists (sortGroupRecursively (generatedFilesGroup s1)).
    destruct (create exporter _);
      cbn [addError emit setGroup trace generatedFilesGroup];
      rewrite W, !handedGroups_app, handedGroups_written; cbn [handedGroups];
      rewrite !app_nil_r; split; reflexivity.
  - right. cbn [addError emit trace generatedFilesGroup].
    rewrite handedGroups_app. cbn [handedGroups]. rewrite app_nil_r. split; reflexivity.
Qed.

Lemma fold_last_handed modules g l s base g0 :
  (exists added, handedGroups (trace s) = (base ++ added)%list /\
                 generatedFilesGroup s = last (map snd added) g0) ->
  exists added,
    handedGroups (trace (fold_left (fun st e => writeProject project os modules g e st) l s))
      = (base ++ added)%list /\
    generatedFilesGroup (fold_left (fun st e => writeProject project os modules g e st) l s)
      = last (map snd added) g0.
Proof.
  revert s. induction l as [|e l IH]; intros s H; [exact H|].
  cbn [fold_left]. apply IH. destruct H as (added & T & G).
  destruct (writeProject_last_handed modules g e s) as [(handed & T' & G') | (T' & G')].
  - exists (added ++ [(e, handed)])%list. rewrite T', T, app_assoc. split; [reflexivity|].
    rewrite map_app. cbn [map snd]. rewrite last_last. exact G'.
  - exists added. rewrite T', G'. auto.
Qed.

End Turns.

(** X23 -- Every exporter is announced.  [writeProjects] prints one line
    "Writing files for: " with the exporter's name for each exporter of the
    project, from the last declared to the first, whether or not the
    exporter's target folder can be created afterwards, and prints nothing
    else. *)
Theorem writeProjects_announces_every_exporter :
  forall (project : Project) (os : Permissions) (modules : list LibraryModule)
         (s : ProjectSaver),
    stdoutLines (trace (writeProjects project os modules s)) =
    (stdoutLines (trace s) ++ map announcement (rev (exporters project)))%list.
Proof.
  intros project os modules s. rewrite writeProjects_fold. apply fold_stdout.
Qed.

(** X24 -- When no target folder can be created, [writeProjects] records one error
    "Can't create folder: " per exporter, from the last declared exporter
    to the first, calls no exporter, and leaves the generated-files group
    and the disk as they were; with no exporter at all it does nothing. *)
Theorem writeProjects_no_folder_created :
  forall (project : Project) (os : Permissions) (modules : list LibraryModule)
         (s : ProjectSaver),
    (forall e, In e (exporters project) -> targetFolderCreated os e = false) ->
    let s' := writeProjects project os modules s in
    errors s' = (errors s ++ map cantCreateFolder (rev (exporters project)))%list
    /\ generatedFilesGroup s' = generatedFilesGroup s
    /\ disk s' = disk s
    /\ exporterCalls (trace s') = exporterCalls (trace s)
    /\ (exporters project = [] -> s' = s).
Proof.
  intros project os modules s H s'. subst s'. rewrite writeProjects_fold.
  destruct (fold_not_created project os modules (generatedFilesGroup s)
              (rev (exporters project)) s) as (G & D & E & T).
  { intros e He. apply H. apply in_rev. exact He. }
  cbv zeta in G, D, E, T. repeat split; try assumption.
  - unfold exporterCalls. rewrite T, handedGroups_app.
    assert (Z : forall l, handedGroups (map (fun e => EvStdout (announcement e)) l) = []).
    { induction l; [reflexivity | assumption]. }
    rewrite Z, app_nil_r. reflexivity.
  - intros ->. reflexivity.
Qed.

(** X25 -- The group [writeProjects] leaves in the saver is the group handed to
    the exporter it called last; when it called none, the group is the one
    it found. *)
Theorem writeProjects_leaves_last_handed_group :
  forall (project : Project) (os : Permissions) (modules : list LibraryModule)
         (s : ProjectSaver),
    handedGroups (trace s) = [] ->
    let s' := writeProjects project os modules s in
    generatedFilesGroup s' = last (map snd (handedGroups (trace s'))) (generatedFilesGroup s).
Proof.
  intros project os modules s H s'. subst s'. rewrite writeProjects_fold.
  destruct (fold_last_handed project os modules (generatedFilesGroup s)
              (rev (exporters project)) s [] (generatedFilesGroup s)) as (added & T & G).
  { exists []. rewrite H. split; reflexivity. }
  rewrite T, G. reflexivity.
Qed.

(* ===================================================================== *)
(** * Saving one generated file, and the binary resources *)
(* ===================================================================== *)

Lemma last_child folder n : last (getChildFile folder n) EmptyString = n.
Proof. unfold getChildFile. apply last_last. Qed.

Lemma addFileToGeneratedGroup_lookup file s :
  isGroup (generatedFilesGroup s) = true ->
  let r := addFileToGeneratedGroup file s in
  exists item, fst r = Some item /\
               findItemForFile (generatedFilesGroup (snd r)) file = Some item /\
               disk (snd r) = disk s /\ errors (snd r) = errors s.
Proof.
  intros G. apply isGroup_inv in G as (name & id & children & G).
  cbv zeta.
  destruct (findItemForFile (generatedFilesGroup s) file) as [item|] eqn:F.
  - rewrite (addFileToGeneratedGroup_found s file item F). exists item. auto.
  - rewrite (addFileToGeneratedGroup_new s file name id children G F).
    eexists. split; [reflexivity|].
    cbn [snd setGroup generatedFilesGroup disk errors].
    rewrite findItemForFile_app. cbn [findItemForFile]. rewrite File_eqb_refl. auto.
Qed.

(** X15 -- The two outcomes of [saveGeneratedFile].  Either it returns an Item:
    then no error was added, the file is on the disk in the generated-code
    folder with exactly the bytes given, and the Item is the one the
    generated-files group has for the file.  Or it returns no Item: then
    exactly one error was added, "Couldn't create folder: " with the
    folder's path (and the disk is as it was) or "Can't write to file: "
    with the file's path, and the group is as it was.  So an Item is
    returned exactly when no error is recorded. *)
Theorem saveGeneratedFile_outcomes :
  forall (project : Project) (os : Permissions) (filePath newData : string)
         (s : ProjectSaver),
    isGroup (generatedFilesGroup s) = true ->
    let r := saveGeneratedFile project os filePath newData s in
    let folder := generatedCodeFolder project in
    let file := getChildFile folder filePath in
    match fst r with
    | Some item =>
        errors (snd r) = errors s
        /\ fs_find file (disk (snd r)) = Some (FsFile filePath newData)
        /\ findItemForFile (generatedFilesGroup (snd r)) file = Some item
    | None =>
        generatedFilesGroup (snd r) = generatedFilesGroup s
        /\ ((errors (snd r)
             = (errors s ++ [("Couldn't create folder: " ++ getFullPathName folder)%string])%list
             /\ disk (snd r) = disk s)
            \/ errors (snd r)
               = (errors s ++ [("Can't write to file: " ++ getFullPathName file)%string])%list)
    end.
Proof.
  intros project os filePath newData s G r folder file. subst r.
  unfold saveGeneratedFile.
  destruct (createDirectory os (generatedCodeFolder project) (disk s)) as [d|].
  - unfold replaceFileIfDifferent. cbn [setDisk disk].
    destruct (overwriteFileWithNewDataIfDifferent os
                (getChildFile (generatedCodeFolder project) filePath) newData d)
      as [[d' w]|] eqn:O.
    + pose proof (overwrite_result os _ newData d d' w (child_not_nil _ _) O) as F.
      rewrite last_child in F.
      match goal with
      | |- context [addFileToGeneratedGroup ?f ?s0] =>
          assert (G0 : isGroup (generatedFilesGroup s0) = true) by (destruct w; exact G);
          assert (D0 : disk s0 = d') by (destruct w; reflexivity);
          assert (E0 : errors s0 = errors s) by (destruct w; reflexivity);
          destruct (addFileToGeneratedGroup_lookup f s0 G0) as (item & R & L & D & E)
      end.
      cbv zeta in R, L, D, E. rewrite R.
      rewrite E, E0, D, D0. auto.
    + cbn [fst snd addError setDisk generatedFilesGroup errors].
      split; [reflexivity | right; reflexivity].
  - cbn [fst snd addError generatedFilesGroup errors disk].
    split; [reflexivity | left; split; reflexivity].
Qed.

Section BinaryData.

Variable project : Project.
Variable os : Permissions.

Let folder := generatedCodeFolder project.
Let cpp := getChildFile folder "BinaryData.cpp".
Let header := getChildFile folder "BinaryData.h".

Lemma deleteFile_find_other n m s :
  n <> m ->
  fs_find (getChildFile folder n) (disk (deleteFile (getChildFile folder m) s)) =
  fs_find (getChildFile folder n) (disk s).
Proof.
  intros N. unfold deleteFile.
  destruct (fs_exists (getChildFile folder m) (disk s)); [|reflexivity].
  cbn [emit setDisk disk]. apply fs_find_remove_other. exact N.
Qed.

Lemma deleteFile_deleted f s :
  deletedFiles (trace (deleteFile f s)) =
  (deletedFiles (trace s) ++ (if fs_exists f (disk s) then [f] else []))%list.
Proof.
  unfold deleteFile. destruct (fs_exists f (disk s)).
  - cbn [emit setDisk trace]. rewrite deletedFiles_app. reflexivity.
  - rewrite app_nil_r. reflexivity.
Qed.

Lemma writeBinaryDataFiles_without s :
  (0 <? numResourceFiles project)%nat = false ->
  writeBinaryDataFiles project os s =
  deleteFile header (deleteFile cpp (setBinaryDataCpp cpp s)).
Proof.
  intros Z. unfold writeBinaryDataFiles, cpp, header, folder. cbv zeta. rewrite Z.
  set (s0 := setBinaryDataCpp _ s).
  change (binaryDataCpp s0)
    with (getChildFile (generatedCodeFolder project) "BinaryData.cpp").
  rewrite (proj2 (deleteFile_fields _ s0)).
  change (binaryDataCpp s0)
    with (getChildFile (generatedCodeFolder project) "BinaryData.cpp").
  rewrite withFileExtension_child_nodot. reflexivity.
Qed.

End BinaryData.

(** X20 -- A project without resources gets its stale BinaryData files removed.
    When the project has no resource file, [writeBinaryDataFiles] leaves
    neither BinaryData.cpp nor BinaryData.h in the generated-code folder,
    deletes nothing else (every other entry of the folder is found as
    before), adds no error, and leaves the generated-files group as it
    was. *)
Theorem writeBinaryDataFiles_no_resources :
  forall (project : Project) (os : Permissions) (s : ProjectSaver),
    numResourceFiles project = 0%nat ->
    let folder := generatedCodeFolder project in
    let s' := writeBinaryDataFiles project os s in
    fs_exists (getChildFile folder "BinaryData.cpp") (disk s') = false
    /\ fs_exists (getChildFile folder "BinaryData.h") (disk s') = false
    /\ (forall name, name <> "BinaryData.cpp" -> name <> "BinaryData.h" ->
          fs_find (getChildFile folder name) (disk s')
          = fs_find (getChildFile folder name) (disk s))
    /\ errors s' = errors s
    /\ generatedFilesGroup s' = generatedFilesGroup s
    /\ binaryDataCpp s' = getChildFile folder "BinaryData.cpp".
Proof.
  intros project os s Z folder s'. subst s'.
  rewrite writeBinaryDataFiles_without by (rewrite Z; reflexivity).
  fold folder.
  set (s0 := setBinaryDataCpp (getChildFile folder "BinaryData.cpp") s).
  split; [|split; [|split; [|split; [|split]]]].
  - rewrite (deleteFile_other folder "BinaryData.cpp" "BinaryData.h") by discriminate.
    apply deleteFile_gone.
  - apply deleteFile_gone.
  - intros name N1 N2.
    rewrite (deleteFile_find_other project name "BinaryData.h") by exact N2.
    rewrite (deleteFile_find_other project name "BinaryData.cpp") by exact N1.
    reflexivity.
  - rewrite !errors_deleteFile. reflexivity.
  - rewrite !group_deleteFile. reflexivity.
  - destruct (deleteFile_fields (getChildFile folder "BinaryData.h")
                (deleteFile (getChildFile folder "BinaryData.cpp") s0)) as [_ B1].
    destruct (deleteFile_fields (getChildFile folder "BinaryData.cpp") s0) as [_ B2].
    rewrite B1, B2. reflexivity.
Qed.

(** X21 -- The binary resources are registered without a look at the group.  When
    the project has resources, [writeBinaryDataFiles] either adds no error
    and appends two Items to the generated-files group, one for
    BinaryData.cpp and one for BinaryData.h in this order, whether or not
    the group has Items for these files already (each file has one Item
    more than before); or it adds the one error "Can't create binary
    resources file: " with the path of BinaryData.cpp and leaves the group
    as it was. *)
Theorem writeBinaryDataFiles_registers_unchecked :
  forall (project : Project) (os : Permissions) (s : ProjectSaver),
    (0 < numResourceFiles project)%nat ->
    isGroup (generatedFilesGroup s) = true ->
    let folder := generatedCodeFolder project in
    let cpp := getChildFile folder "BinaryData.cpp" in
    let header := getChildFile folder "BinaryData.h" in
    let s' := writeBinaryDataFiles project os s in
    (errors s' = errors s
     /\ itemFiles (generatedFilesGroup s')
        = (itemFiles (generatedFilesGroup s) ++ [cpp; header])%list
     /\ countItemsFor cpp (generatedFilesGroup s')
        = S (countItemsFor cpp (generatedFilesGroup s))
     /\ countItemsFor header (generatedFilesGroup s')
        = S (countItemsFor header (generatedFilesGroup s)))
    \/ (errors s'
        = (errors s ++ [("Can't create binary resources file: " ++ getFullPathName cpp)%string])%list
        /\ generatedFilesGroup s' = generatedFilesGroup s).
Proof.
  intros project os s R G. cbv zeta.
  unfold writeBinaryDataFiles. cbv zeta.
  apply Nat.ltb_lt in R. rewrite R.
  cbn [setBinaryDataCpp binaryDataCpp].
  assert (N1 : File_eqb (getChildFile (generatedCodeFolder project) "BinaryData.cpp")
                        (getChildFile (generatedCodeFolder project) "BinaryData.h") = false).
  { apply File_eqb_neq. unfold getChildFile. intros H.
    apply app_inj_tail in H as [_ H]. discriminate. }
  assert (N2 : File_eqb (getChildFile (generatedCodeFolder project) "BinaryData.h")
                        (getChildFile (generatedCodeFolder project) "BinaryData.cpp") = false).
  { apply File_eqb_neq. unfold getChildFile. intros H.
    apply app_inj_tail in H as [_ H]. discriminate. }
  pose proof (withFileExtension_child (generatedCodeFolder project)) as X.
  remember (getChildFile (generatedCodeFolder project) "BinaryData.cpp") as cpp eqn:Hcpp in *.
  remember (getChildFile (generatedCodeFolder project) "BinaryData.h") as header eqn:Hh in *.
  match goal with
  | |- context [resourceFileWrite project os cpp ?s0] =>
      pose proof (errors_resourceFileWrite project os cpp s0) as E1;
      destruct (group_resourceFileWrite project os cpp s0) as [G1 B1];
      destruct (resourceFileWrite project os cpp s0) as [ok s1]
  end.
  cbn [snd setBinaryDataCpp errors generatedFilesGroup binaryDataCpp] in E1, G1, B1.
  destruct ok.
  - left. cbn [setGroup generatedFilesGroup binaryDataCpp errors]. rewrite G1, B1, X.
    apply isGroup_inv in G as (name & id & children & G). rewrite G.
    split; [exact E1|].
    assert (F : itemFiles (addFile (addFile (ItemGroup name id children) cpp true) header false)
                = (itemFiles (ItemGroup name id children) ++ [cpp; header])%list).
    { cbn [addFile itemFiles]. rewrite !flat_map_app. cbn [flat_map itemFiles app].
      rewrite <- app_assoc. reflexivity. }
    split; [exact F|].
    unfold countItemsFor. rewrite F, !filter_app, !length_app.
    cbn [filter]. rewrite !File_eqb_refl, N1, N2. cbn [length]. split; lia.
  - right. cbn [addError errors generatedFilesGroup]. rewrite E1, G1, B1. auto.
Qed.

(* ===================================================================== *)
(** * What a run of save leaves on the disk *)
(* ===================================================================== *)

Lemma pathsDiverge_children folder n m :
  n <> m -> pathsDiverge (getChildFile folder n) (getChildFile folder m) = true.
Proof.
  intros N. unfold getChildFile. induction folder as [|c folder IH].
  - cbn. apply String.eqb_neq in N. rewrite N. reflexivity.
  - cbn [app pathsDiverge]. rewrite String.eqb_refl. exact IH.
Qed.

Lemma fs_exists_parent folder n root :
  folder <> [] -> fs_exists (getChildFile folder n) root = true ->
  fs_isDirectory folder root = true.
Proof.
  intros N. unfold fs_exists, fs_isDirectory, getChildFile.
  destruct (fs_find folder root) as [[name data | name sub]|] eqn:F; [|reflexivity|];
    rewrite fs_find_below_absent; try discriminate; try exact N; rewrite F; exact I.
Qed.

Lemma fs_isDirectory_exists f root : fs_isDirectory f root = true -> fs_exists f root = true.
Proof.
  unfold fs_isDirectory, fs_exists. destruct (fs_find f root); [reflexivity | discriminate].
Qed.

Section OnDisk.

Variable project : Project.
Variable projectFile : File.
Variable os : Permissions.

Let modules := requiredModules project.
Let folder := generatedCodeFolder project.

(** What [replaceFileIfDifferent] leaves at its file when it adds no error,
    and at a path that parts from its file's in any case. *)
Lemma replaceFileIfDifferent_find f data s :
  f <> [] ->
  errors (snd (replaceFileIfDifferent os f data s)) = errors s ->
  fs_find f (disk (snd (replaceFileIfDifferent os f data s)))
  = Some (FsFile (last f EmptyString) data).
Proof.
  intros N. unfold replaceFileIfDifferent.
  destruct (overwriteFileWithNewDataIfDifferent os f data (disk s)) as [[d w]|] eqn:O.
  - intros _. replace (disk (snd (true, if w then emit (EvWritten f) (setDisk d s)
                                        else setDisk d s))) with d
      by (destruct w; reflexivity).
    apply (overwrite_result os f data (disk s) d w N O).
  - cbn [snd addError errors]. intros E. exfalso. eapply app_one_neq. exact E.
Qed.

Lemma replaceFileIfDifferent_diverge f data s p :
  pathsDiverge p f = true ->
  fs_find p (disk (snd (replaceFileIfDifferent os f data s))) = fs_find p (disk s).
Proof.
  intros D. unfold replaceFileIfDifferent.
  destruct (overwriteFileWithNewDataIfDifferent os f data (disk s)) as [[d w]|] eqn:O.
  - replace (disk (snd (true, if w then emit (EvWritten f) (setDisk d s)
                              else setDisk d s))) with d
      by (destruct w; reflexivity).
    apply (overwrite_diverge os f data (disk s) d w p D O).
  - reflexivity.
Qed.

(** What [saveGeneratedFile] leaves at its file when it adds no error. *)
Lemma saveGeneratedFile_find filePath data s :
  errors (snd (saveGeneratedFile project os filePath data s)) = errors s ->
  fs_find (getChildFile folder filePath)
          (disk (snd (saveGeneratedFile project os filePath data s)))
  = Some (FsFile filePath data).
Proof.
  unfold saveGeneratedFile.
  destruct (createDirectory os (generatedCodeFolder project) (disk s)) as [d|].
  - pose proof (replaceFileIfDifferent_find
                  (getChildFile (generatedCodeFolder project) filePath) data (setDisk d s)
                  (child_not_nil _ _)) as R.
    pose proof (oneErrorOf_replaceFileIfDifferent os
                  (getChildFile (generatedCodeFolder project) filePath) data (setDisk d s)) as O.
    rewrite last_child in R.
    destruct (replaceFileIfDifferent os _ data (setDisk d s)) as [ok s1] eqn:Q.
    cbn [snd setDisk errors] in R, O.
    assert (K : ok = true -> errors s1 = errors s).
    { intros ->. unfold replaceFileIfDifferent in Q.
      destruct (overwriteFileWithNewDataIfDifferent os _ data (disk (setDisk d s)))
        as [[d' w]|]; [|discriminate].
      injection Q as <-. destruct w; reflexivity. }
    destruct ok.
    + intros _.
      assert (D : disk (snd (addFileToGeneratedGroup
                               (getChildFile (generatedCodeFolder project) filePath) s1))
                  = disk s1).
      { unfold addFileToGeneratedGroup. break_match; reflexivity. }
      rewrite D. apply R. apply K. reflexivity.
    + cbn [snd]. intros E. apply R. exact E.
  - cbn [snd addError errors]. intros E. exfalso. eapply app_one_neq. exact E.
Qed.

Lemma writeAppConfigFile_find s :
  errors (writeAppConfigFile project os modules s) = errors s ->
  fs_find (getChildFile folder (getAppConfigFilename project))
          (disk (writeAppConfigFile project os modules s))
  = Some (FsFile (getAppConfigFilename project) (writeAppConfig project modules s EmptyString)).
Proof.
  unfold writeAppConfigFile. cbv zeta. intros E.
  match goal with
  | |- context [saveGeneratedFile project os ?p ?data ?s0] =>
      rewrite (saveGeneratedFile_find p data s0 E)
  end.
  reflexivity.
Qed.

(** The text of the umbrella header, piece by piece. *)
Lemma concat_includes ms out :
  fold_left (fun o m => o << writeIncludes m) ms out =
  (out ++ String.concat EmptyString (map writeIncludes ms))%string.
Proof.
  revert out. induction ms as [|m ms IH]; intros out; cbn [fold_left map].
  - cbn. symmetry. apply string_app_nil_r.
  - rewrite IH, string_app_assoc. f_equal.
    destruct ms as [|m' ms'].
    + cbn [map String.concat]. apply string_app_nil_r.
    + reflexivity.
Qed.

Lemma writeAppHeader_text ms s out :
  writeAppHeader project ms s out =
  (out ++ appHeaderProlog project
       ++ (if fs_exists (appConfigFile s) (disk s)
           then includeLine (getAppConfigFilename project) else EmptyString)
       ++ String.concat EmptyString (map writeIncludes ms)
       ++ (if fs_exists (binaryDataCpp s) (disk s)
           then createIncludeStatementFrom (withFileExtension (binaryDataCpp s) ".h")
                                           (appConfigFile s) ++ newLine
           else EmptyString)
       ++ appHeaderEpilog project)%string.
Proof.
  unfold writeAppHeader. cbv zeta. rewrite concat_includes.
  unfold appHeaderProlog, appHeaderEpilog, appHeaderGuard, writeAutoGenWarningComment,
    includeLine, createIncludeStatement.
  cbn [joinLines].
  destruct (fs_exists (appConfigFile s) (disk s));
    destruct (fs_exists (binaryDataCpp s) (disk s));
    rewrite !string_app_assoc; cbn [String.append]; reflexivity.
Qed.

Lemma binaryData_include :
  createIncludeStatementFrom
    (withFileExtension (getChildFile folder "BinaryData.cpp") ".h")
    (getChildFile folder (getAppConfigFilename project)) ++ newLine
  = includeLine "BinaryData.h".
Proof.
  rewrite withFileExtension_child. unfold createIncludeStatementFrom, getChildFile.
  rewrite !removelast_last, File_eqb_refl, last_last. reflexivity.
Qed.

End OnDisk.

Section AfterSave.

Variable project : Project.
Variable projectFile : File.
Variable os : Permissions.

Let modules := requiredModules project.
Let folder := generatedCodeFolder project.

(** The last two steps of a run of [save] that leaves no error: the second
    writing of the configuration header, and the README. *)
Lemma save_success_end s :
  errors (snd (save project projectFile os s)) = [] ->
  exists s5,
    let s6 := writeAppConfigFile project os modules s5 in
    let s7 := if fs_exists folder (disk s6) then writeReadmeFile project os s6 else s6 in
    snd (save project projectFile os s) = s7 /\
    errors s5 = [] /\ errors s6 = [] /\ errors s7 = [].
Proof.
  intros E.
  destruct (save_success project projectFile os s E) as (F & _ & _ & _ & _ & E5 & E6 & E7).
  eexists. cbv zeta. split; [exact F|]. auto.
Qed.

Lemma extra_writeReadmeFile s :
  extraAppConfigContent (writeReadmeFile project os s) = extraAppConfigContent s.
Proof. apply extra_replaceFileIfDifferent. Qed.

End AfterSave.

(** X11 -- A run of [save] that leaves no error leaves the README in the
    generated-code folder: the file ReadMe.txt of the folder holds the text
    of [writeReadmeFile]. *)
Theorem save_leaves_readme :
  forall (project : Project) (projectFile : File) (os : Permissions) (s : ProjectSaver),
    generatedCodeFolder project <> [] ->
    errors (snd (save project projectFile os s)) = [] ->
    fs_find (getChildFile (generatedCodeFolder project) "ReadMe.txt")
            (disk (snd (save project projectFile os s)))
    = Some (FsFile "ReadMe.txt" readmeText).
Proof.
  intros project projectFile os s N E.
  destruct (save_success_end project projectFile os s E) as (s5 & F & E5 & E6 & E7).
  cbv zeta in F, E6, E7. rewrite F. clear F E.
  set (s6 := writeAppConfigFile project os (requiredModules project) s5) in *.
  assert (D : fs_exists (generatedCodeFolder project) (disk s6) = true).
  { apply fs_isDirectory_exists.
    apply (fs_exists_parent _ (getAppConfigFilename project)); [exact N|].
    unfold fs_exists, s6. rewrite writeAppConfigFile_find; [reflexivity|].
    fold s6. congruence. }
  rewrite D in E7 |- *.
  unfold writeReadmeFile in *.
  rewrite replaceFileIfDifferent_find.
  - rewrite last_child. reflexivity.
  - apply child_not_nil.
  - congruence.
Qed.

(** X10 -- What the modules set reaches the configuration header.  At the end of
    a run of [save] that leaves no error, the configuration header on the
    disk holds the text [writeAppConfig] renders for the saver as the run
    leaves it, whose extra content is what the modules set through
    [setExtraAppConfigFileContent] while the exporters were prepared, the
    last call of the last turn winning (the content at entry, when no
    module set any). *)
Theorem save_leaves_config_header :
  forall (project : Project) (projectFile : File) (os : Permissions) (s : ProjectSaver),
    getAppConfigFilename project <> "ReadMe.txt" ->
    errors (snd (save project projectFile os s)) = [] ->
    let final := snd (save project projectFile os s) in
    fs_find (getChildFile (generatedCodeFolder project) (getAppConfigFilename project))
            (disk final)
    = Some (FsFile (getAppConfigFilename project)
                   (writeAppConfig project (requiredModules project) final EmptyString))
    /\ extraAppConfigContent final
       = extraAfterExporters project (requiredModules project) (extraAppConfigContent s).
Proof.
  intros project projectFile os s N E final. subst final.
  split; [|apply save_success_extra; exact E].
  destruct (save_success_end project projectFile os s E) as (s5 & F & E5 & E6 & E7).
  cbv zeta in F, E6, E7. rewrite F. clear F E.
  set (s6 := writeAppConfigFile project os (requiredModules project) s5) in *.
  assert (C : fs_find (getChildFile (generatedCodeFolder project) (getAppConfigFilename project))
                      (disk s6)
              = Some (FsFile (getAppConfigFilename project)
                             (writeAppConfig project (requiredModules project) s5 EmptyString))).
  { unfold s6. apply writeAppConfigFile_find. fold s6. congruence. }
  assert (X6 : extraAppConfigContent s6 = extraAppConfigContent s5).
  { unfold s6, writeAppConfigFile. cbv zeta. rewrite extra_saveGeneratedFile. reflexivity. }
  destruct (fs_exists (generatedCodeFolder project) (disk s6)).
  - unfold writeReadmeFile.
    rewrite replaceFileIfDifferent_diverge by (apply pathsDiverge_children; exact N).
    rewrite C. do 2 f_equal.
    rewrite !writeAppConfig_text, extra_replaceFileIfDifferent, X6. reflexivity.
  - rewrite C. do 2 f_equal. rewrite !writeAppConfig_text, X6. reflexivity.
Qed.

(** X12 -- The umbrella header as [save] writes it.  When the steps of [save] up
    to the umbrella header leave no error, the umbrella header is on the
    disk in the generated-code folder and holds: the prolog; the include of
    the configuration header; what each module includes, in the order of
    the modules; the include of BinaryData.h, by its bare name, exactly
    when the project has resources; the epilog.  (The include of the
    configuration header is missing in one case: a project without
    resources whose configuration header bears one of the two BinaryData
    names, and was deleted with them.  Deletions are taken to succeed: the
    include of BinaryData.h is missing for a project without resources
    because the stale BinaryData.cpp is gone.) *)
Theorem save_writes_umbrella_header :
  forall (project : Project) (projectFile : File) (os : Permissions) (s : ProjectSaver),
    noErrors (saveBeforeProjects project projectFile os s) = true ->
    fs_find (getChildFile (generatedCodeFolder project) (getJuceSourceHFilename project))
            (disk (saveBeforeProjects project projectFile os s))
    = Some (FsFile (getJuceSourceHFilename project)
              (appHeaderText project (requiredModules project)
                 (appConfigExpected project) (binaryDataExpected project))).
Proof.
  intros project projectFile os s N.
  unfold saveBeforeProjects in *. cbv zeta in *.
  set (t := saveBeforeHeader project projectFile os s) in *.
  assert (Q : steady t (writeAppHeaderFile project os (requiredModules project) t))
    by apply quiet_writeAppHeaderFile.
  destruct (gate_taken (writeAppHeaderFile project os (requiredModules project)) t Q N)
    as [Nt G].
  rewrite G in N |- *.
  destruct (saveBeforeHeader_reads project projectFile os s Nt) as (A & B & XA & XB).
  fold t in A, B, XA, XB.
  unfold writeAppHeaderFile in *. cbv zeta in *.
  rewrite saveGeneratedFile_find.
  - do 2 f_equal. rewrite writeAppHeader_text. cbn [String.append].
    rewrite A, B, XA, XB. unfold appHeaderText.
    rewrite binaryData_include. reflexivity.
  - apply noErrors_nil in N, Nt. congruence.
Qed.

(* ===================================================================== *)
(** * Where a run of save works *)
(* ===================================================================== *)

Lemma pathsDiverge_app p q r :
  pathsDiverge p q = true -> pathsDiverge p (q ++ r)%list = true.
Proof.
  revert q. induction p as [|a p IH]; intros q D; [discriminate|].
  destruct q as [|b q]; [discriminate|].
  cbn [app pathsDiverge] in *. destruct (String.eqb a b); [apply IH; exact D | reflexivity].
Qed.

Lemma pathsDiverge_child p folder n :
  pathsDiverge p folder = true -> pathsDiverge p (getChildFile folder n) = true.
Proof. apply pathsDiverge_app. Qed.

Lemma entriesOf_removeEntry_other m es n :
  m <> n -> entriesOf n (removeEntry m es) = entriesOf n es.
Proof.
  intros N. unfold entriesOf. rewrite findEntry_removeEntry.
  destruct (String.eqb m n) eqn:E; [|reflexivity].
  apply String.eqb_eq in E. congruence.
Qed.

(** Removing a path changes nothing at a path that parts from it. *)
Lemma fs_find_remove_diverge p :
  forall f root, pathsDiverge p f = true -> fs_find p (fs_remove f root) = fs_find p root.
Proof.
  induction p as [|a p IH]; intros f root D; [discriminate|].
  destruct f as [|b f]; [discriminate|]. cbn [pathsDiverge] in D.
  destruct (String.eqb a b) eqn:E.
  - apply String.eqb_eq in E. subst b.
    destruct (pathsDiverge_not_nil p f D) as [Np Nf].
    rewrite fs_remove_cons by exact Nf.
    destruct (findEntry a root) as [[name data | name sub]|] eqn:F; try reflexivity.
    rewrite !fs_find_cons by exact Np.
    rewrite entriesOf_setEntry_dir, IH by exact D.
    unfold entriesOf. rewrite F. reflexivity.
  - apply String.eqb_neq in E.
    destruct f as [|c f].
    + cbn [fs_remove fs_find]. destruct p.
      * rewrite findEntry_removeEntry.
        destruct (String.eqb b a) eqn:E'; [|reflexivity].
        apply String.eqb_eq in E'. congruence.
      * rewrite entriesOf_removeEntry_other by congruence. reflexivity.
    + rewrite fs_remove_cons by discriminate.
      destruct (findEntry b root) as [[name data | name sub]|]; try reflexivity.
      apply fs_find_setEntry_other. cbn [getFileName]. congruence.
Qed.

Lemma createDirectory_diverge os f root d p :
  pathsDiverge p f = true -> createDirectory os f root = Some d ->
  fs_find p d = fs_find p root.
Proof.
  intros D. unfold createDirectory.
  destruct (canCreateDirectory os f); [|discriminate].
  intros H. injection H as <-.
  destruct (fs_isDirectory f root); [reflexivity|].
  apply fs_find_update_diverge; [reflexivity | exact D].
Qed.

Lemma diskSameAt_refl p s : diskSameAt p s s.
Proof. reflexivity. Qed.

Lemma diskSameAt_trans p s1 s2 s3 :
  diskSameAt p s1 s2 -> diskSameAt p s2 s3 -> diskSameAt p s1 s3.
Proof. unfold diskSameAt. congruence. Qed.

Lemma diskSameAt_fields p s s' : disk s' = disk s -> diskSameAt p s s'.
Proof. unfold diskSameAt. intros ->. reflexivity. Qed.

Lemma diskSameAt_gate p (step : ProjectSaver -> ProjectSaver) (b : bool) s :
  diskSameAt p s (step s) -> diskSameAt p s (if b then step s else s).
Proof. destruct b; [auto | intros _; apply diskSameAt_refl]. Qed.

Lemma diskSameAt_fold {A} p (place : A -> Prop) (step : ProjectSaver -> A -> ProjectSaver) l :
  (forall a s, place a -> diskSameAt p s (step s a)) ->
  (forall a, In a l -> place a) ->
  forall s, diskSameAt p s (fold_left step l s).
Proof.
  intros H. induction l as [|a l IH]; intros P s; cbn [fold_left]; [apply diskSameAt_refl|].
  eapply diskSameAt_trans; [apply H; apply P; left; reflexivity|].
  apply IH. intros x Hx. apply P. right. exact Hx.
Qed.

Lemma partsFromAll_In p places q :
  partsFromAll p places = true -> In q places -> pathsDiverge p q = true.
Proof. unfold partsFromAll. intros H. apply (proj1 (forallb_forall _ _) H). Qed.

Section Places.

Variable project : Project.
Variable projectFile : File.
Variable os : Permissions.
Variable p : File.

Let modules := requiredModules project.
Let folder := generatedCodeFolder project.

Lemma diskSameAt_replaceFileIfDifferent f data s :
  pathsDiverge p f = true -> diskSameAt p s (snd (replaceFileIfDifferent os f data s)).
Proof. intros D. apply replaceFileIfDifferent_diverge. exact D. Qed.

Lemma diskSameAt_addFileToGeneratedGroup file s :
  diskSameAt p s (snd (addFileToGeneratedGroup file s)).
Proof.
  apply diskSameAt_fields. unfold addFileToGeneratedGroup. break_match; reflexivity.
Qed.

Lemma diskSameAt_saveGeneratedFile filePath data s :
  pathsDiverge p folder = true ->
  diskSameAt p s (snd (saveGeneratedFile project os filePath data s)).
Proof.
  intros D. unfold saveGeneratedFile.
  destruct (createDirectory os (generatedCodeFolder project) (disk s)) as [d|] eqn:C;
    [|apply diskSameAt_fields; reflexivity].
  pose proof (createDirectory_diverge os _ _ d p D C) as H0.
  pose proof (diskSameAt_replaceFileIfDifferent
                (getChildFile (generatedCodeFolder project) filePath) data (setDisk d s)
                (pathsDiverge_child p _ filePath D)) as H1.
  destruct (replaceFileIfDifferent os _ data (setDisk d s)) as [ok s1].
  cbn [snd] in H1. unfold diskSameAt in *. cbn [setDisk disk] in H1.
  destruct ok; cbn [snd]; [rewrite diskSameAt_addFileToGeneratedGroup|]; congruence.
Qed.

Lemma diskSameAt_runCall c s :
  (forall q, In q (callWrites folder c) -> pathsDiverge p q = true) ->
  diskSameAt p s (runCall project os c s).
Proof.
  intros D. destruct c; cbn [runCall callWrites] in *.
  - apply diskSameAt_saveGeneratedFile. apply D. left. reflexivity.
  - apply diskSameAt_addFileToGeneratedGroup.
  - apply diskSameAt_fields. reflexivity.
  - apply diskSameAt_replaceFileIfDifferent. apply D. left. reflexivity.
Qed.

Lemma diskSameAt_prepare exporter ms s :
  (forall q, In q (flat_map (fun m => flat_map (callWrites folder) (prepareExporter m exporter)) ms) ->
             pathsDiverge p q = true) ->
  diskSameAt p s (fold_left (modulePrepareExporter project os exporter) ms s).
Proof.
  intros D.
  apply (diskSameAt_fold p
           (fun m => forall q, In q (flat_map (callWrites folder) (prepareExporter m exporter)) ->
                               pathsDiverge p q = true)).
  - intros m s' Hm. unfold modulePrepareExporter.
    apply (diskSameAt_fold p
             (fun c => forall q, In q (callWrites folder c) -> pathsDiverge p q = true)).
    + intros c s'' Hc. apply diskSameAt_runCall. exact Hc.
    + intros c Hc q Hq. apply Hm. apply in_flat_map. exists c. auto.
  - intros m Hm q Hq. apply D. apply in_flat_map. exists m. auto.
Qed.

Lemma diskSameAt_writeProject ms g exporter s :
  (forall q, In q (exporterPlaces folder ms exporter) -> pathsDiverge p q = true) ->
  diskSameAt p s (writeProject project os ms g exporter s).
Proof.
  intros D. unfold writeProject.
  destruct (createDirectory os (getTargetFolder exporter) _) as [d|] eqn:C;
    [|apply diskSameAt_fields; reflexivity].
  cbn [emit disk] in C.
  pose proof (createDirectory_diverge os _ _ d p (D _ (or_introl eq_refl)) C) as H0.
  match goal with
  | |- context [fold_left ?f ms ?s0] =>
      pose proof (diskSameAt_prepare exporter ms s0
                    (fun q Hq => D q (or_intror Hq))) as H1;
      set (s1 := fold_left f ms s0) in *
  end.
  unfold diskSameAt in *. cbn [setGroup setDisk emit disk] in H1.
  destruct (create exporter _); cbn [addError emit setGroup disk]; congruence.
Qed.

Lemma diskSameAt_writeProjects ms s :
  (forall q, In q (flat_map (exporterPlaces folder ms) (exporters project)) ->
             pathsDiverge p q = true) ->
  diskSameAt p s (writeProjects project os ms s).
Proof.
  intros D. rewrite writeProjects_fold.
  apply (diskSameAt_fold p
           (fun e => forall q, In q (exporterPlaces folder ms e) -> pathsDiverge p q = true)).
  - intros e s' He. apply diskSameAt_writeProject. exact He.
  - intros e He q Hq. apply D. apply in_flat_map. exists e. split; [|exact Hq].
    apply in_rev. exact He.
Qed.

Lemma diskSameAt_deleteFile f s :
  pathsDiverge p f = true -> diskSameAt p s (deleteFile f s).
Proof.
  intros D. unfold deleteFile, diskSameAt.
  destruct (fs_exists f (disk s)); [|reflexivity].
  cbn [emit setDisk disk]. apply fs_find_remove_diverge. exact D.
Qed.

Lemma diskSameAt_resourceFileWrite f s :
  pathsDiverge p f = true -> pathsDiverge p (withFileExtension f ".h") = true ->
  diskSameAt p s (snd (resourceFileWrite project os f s)).
Proof.
  intros D1 D2. unfold resourceFileWrite, diskSameAt.
  destruct (overwriteFileWithNewDataIfDifferent os f _ (disk s)) as [[d w]|] eqn:O1;
    [|reflexivity].
  pose proof (overwrite_diverge os f _ (disk s) d w p D1 O1) as H1.
  assert (Dk : disk (if w then emit (EvWritten f) (setDisk d s) else setDisk d s) = d)
    by (destruct w; reflexivity).
  rewrite Dk.
  destruct (overwriteFileWithNewDataIfDifferent os (withFileExtension f ".h") _ d)
    as [[d' w']|] eqn:O2; cbn [snd].
  - pose proof (overwrite_diverge os _ _ d d' w' p D2 O2) as H2.
    replace (disk (if w' then _ else _)) with d' by (destruct w'; reflexivity).
    congruence.
  - rewrite Dk. exact H1.
Qed.

Lemma diskSameAt_writeBinaryDataFiles s :
  pathsDiverge p folder = true -> diskSameAt p s (writeBinaryDataFiles project os s).
Proof.
  intros D.
  assert (Dc : pathsDiverge p (getChildFile folder "BinaryData.cpp") = true)
    by (apply pathsDiverge_child; exact D).
  assert (Dh : pathsDiverge p (getChildFile folder "BinaryData.h") = true)
    by (apply pathsDiverge_child; exact D).
  destruct (0 <? numResourceFiles project)%nat eqn:R.
  - unfold writeBinaryDataFiles. cbv zeta. rewrite R.
    cbn [setBinaryDataCpp binaryDataCpp].
    match goal with
    | |- context [resourceFileWrite project os ?f ?s0] =>
        pose proof (diskSameAt_resourceFileWrite f s0 Dc) as H;
        destruct (resourceFileWrite project os f s0) as [ok s1]
    end.
    rewrite withFileExtension_child in H. specialize (H Dh).
    unfold diskSameAt in *. cbn [snd setBinaryDataCpp disk] in H.
    destruct ok; cbn [setGroup addError disk]; exact H.
  - rewrite writeBinaryDataFiles_without by exact R.
    eapply diskSameAt_trans; [|apply diskSameAt_deleteFile; exact Dh].
    eapply diskSameAt_trans; [|apply diskSameAt_deleteFile; exact Dc].
    apply diskSameAt_fields. reflexivity.
Qed.

Lemma diskSameAt_writeAppConfigFile s :
  pathsDiverge p folder = true -> diskSameAt p s (writeAppConfigFile project os modules s).
Proof.
  intros D. unfold writeAppConfigFile. cbv zeta.
  match goal with
  | |- context [saveGeneratedFile project os ?n ?data ?s0] =>
      pose proof (diskSameAt_saveGeneratedFile n data s0 D) as H
  end.
  exact H.
Qed.

Lemma diskSameAt_saveFiles s :
  partsFromAll p (savePlaces project projectFile) = true ->
  diskSameAt p s (saveFiles project projectFile os s).
Proof.
  intros P.
  assert (Dp : pathsDiverge p projectFile = true)
    by (apply (partsFromAll_In _ _ _ P); left; reflexivity).
  assert (Df : pathsDiverge p folder = true)
    by (apply (partsFromAll_In _ _ _ P); right; left; reflexivity).
  assert (De : forall q, In q (flat_map (exporterPlaces folder modules) (exporters project)) ->
                         pathsDiverge p q = true).
  { intros q Hq. apply (partsFromAll_In _ _ _ P). right. right. exact Hq. }
  unfold saveFiles, saveBeforeProjects, saveBeforeHeader. cbv zeta.
  repeat first
    [ eapply diskSameAt_trans;
      [| first [ apply diskSameAt_gate, diskSameAt_replaceFileIfDifferent, pathsDiverge_child, Df
               | apply diskSameAt_gate, diskSameAt_writeAppConfigFile, Df
               | apply diskSameAt_gate, diskSameAt_writeProjects, De
               | apply diskSameAt_gate; unfold writeAppHeaderFile;
                 apply diskSameAt_saveGeneratedFile, Df
               | apply diskSameAt_gate, diskSameAt_writeBinaryDataFiles, Df ] ] ].
  unfold writeMainProjectFile.
  eapply diskSameAt_trans; [|apply diskSameAt_replaceFileIfDifferent, Dp].
  apply diskSameAt_fields. reflexivity.
Qed.

End Places.

(** X13 -- A run of [save] works at its own places only.  A path that parts from
    the project file, from the generated-code folder, from the target
    folder of every exporter and from every file a module replaces while an
    exporter is prepared is on the disk after [save] as it was before,
    whether [save] fails or not. *)
Theorem save_works_at_its_places :
  forall (project : Project) (projectFile : File) (os : Permissions) (s : ProjectSaver)
         (p : File),
    partsFromAll p (savePlaces project projectFile) = true ->
    fs_find p (disk (snd (save project projectFile os s))) = fs_find p (disk s).
Proof.
  intros project projectFile os s p P.
  pose proof (diskSameAt_saveFiles project projectFile os p s P) as H.
  unfold save. cbn [snd]. unfold diskSameAt in H. rewrite <- H.
  destruct (negb _); reflexivity.
Qed.

(* ===================================================================== *)
(** * What a run of save deletes *)
(* ===================================================================== *)

Section Deletions.

Variable project : Project.
Variable projectFile : File.
Variable os : Permissions.

Let modules := requiredModules project.
Let folder := generatedCodeFolder project.

Lemma writesOnly_writeAppConfigFile s :
  writesOnly s (writeAppConfigFile project os modules s).
Proof.
  unfold writeAppConfigFile. cbv zeta.
  eapply writesOnly_trans; [|apply writesOnly_saveGeneratedFile].
  apply writesOnly_fields. reflexivity.
Qed.

Lemma deleted_writeProject ms g exporter s :
  deletedFiles (trace (writeProject project os ms g exporter s)) = deletedFiles (trace s).
Proof.
  unfold writeProject. destruct (createDirectory os _ _) as [d|].
  - match goal with
    | |- context [fold_left ?f ms ?s0] =>
        pose proof (writesOnly_deleted _ _ (writesOnly_prepare project os exporter ms s0)) as W;
        set (s1 := fold_left f ms s0) in *
    end.
    cbn [setGroup setDisk emit trace] in W. rewrite deletedFiles_app in W.
    cbn [deletedFiles] in W. rewrite app_nil_r in W.
    destruct (create exporter _);
      cbn [addError emit setGroup trace]; rewrite deletedFiles_app, W;
      cbn [deletedFiles]; apply app_nil_r.
  - cbn [addError emit trace]. rewrite deletedFiles_app. cbn [deletedFiles]. apply app_nil_r.
Qed.

Lemma deleted_writeProjects ms s :
  deletedFiles (trace (writeProjects project os ms s)) = deletedFiles (trace s).
Proof.
  rewrite writeProjects_fold. generalize (generatedFilesGroup s) as g.
  intros g. revert s. induction (rev (exporters project)) as [|e l IH]; intros s;
    cbn [fold_left]; [reflexivity|].
  rewrite IH. apply deleted_writeProject.
Qed.

Lemma deleted_resourceFileWrite f s :
  deletedFiles (trace (snd (resourceFileWrite project os f s))) = deletedFiles (trace s).
Proof.
  apply writesOnly_deleted. unfold resourceFileWrite.
  destruct (overwriteFileWithNewDataIfDifferent os f _ (disk s)) as [[d w]|];
    [|apply writesOnly_refl].
  assert (W1 : writesOnly s (if w then emit (EvWritten f) (setDisk d s) else setDisk d s))
    by (destruct w; [exists [f]; reflexivity | apply writesOnly_fields; reflexivity]).
  set (s1 := if w then _ else _) in *.
  destruct (overwriteFileWithNewDataIfDifferent os _ _ (disk s1)) as [[d' w']|];
    cbn [snd]; [|exact W1].
  eapply writesOnly_trans; [exact W1|].
  destruct w'; [eexists [_]; reflexivity | apply writesOnly_fields; reflexivity].
Qed.

(** What [writeBinaryDataFiles] deletes: nothing for a project with
    resources, else the BinaryData files that are there. *)
Lemma deleted_writeBinaryDataFiles s :
  exists stale,
    deletedFiles (trace (writeBinaryDataFiles project os s))
      = (deletedFiles (trace s) ++ stale)%list /\
    forall f, In f stale ->
      (f = getChildFile folder "BinaryData.cpp" \/ f = getChildFile folder "BinaryData.h") /\
      (0 <? numResourceFiles project)%nat = false.
Proof.
  destruct (0 <? numResourceFiles project)%nat eqn:R.
  - exists []. rewrite app_nil_r. split; [|intros f []].
    unfold writeBinaryDataFiles. cbv zeta. rewrite R.
    match goal with
    | |- context [resourceFileWrite project os ?f ?s0] =>
        pose proof (deleted_resourceFileWrite f s0) as H;
        destruct (resourceFileWrite project os f s0) as [ok s1]
    end.
    cbn [snd setBinaryDataCpp trace] in H. destruct ok; exact H.
  - rewrite writeBinaryDataFiles_without by exact R.
    rewrite !deleteFile_deleted. cbn [setBinaryDataCpp trace disk].
    eexists. rewrite <- app_assoc. split; [reflexivity|].
    intros f Hf. split; [|reflexivity].
    apply in_app_or in Hf as [Hf|Hf];
      match type of Hf with
      | In _ (if ?b then _ else _) => destruct b
      end; try (destruct Hf; fail); destruct Hf as [<-|[]]; auto.
Qed.

Lemma deleted_gate (step : ProjectSaver -> ProjectSaver) (b : bool) s :
  deletedFiles (trace (step s)) = deletedFiles (trace s) ->
  deletedFiles (trace (if b then step s else s)) = deletedFiles (trace s).
Proof. destruct b; auto. Qed.

End Deletions.

(** X14 -- A run of [save] deletes nothing but stale binary resources.  The files
    [save] deletes are among BinaryData.cpp and BinaryData.h of the
    generated-code folder, and it deletes them only for a project without
    resource files; for a project with resources it deletes nothing. *)
Theorem save_deletes_only_stale_binary_data :
  forall (project : Project) (projectFile : File) (os : Permissions) (s : ProjectSaver),
    let folder := generatedCodeFolder project in
    exists stale,
      deletedFiles (trace (snd (save project projectFile os s)))
        = (deletedFiles (trace s) ++ stale)%list
      /\ (forall f, In f stale ->
            (f = getChildFile folder "BinaryData.cpp" \/ f = getChildFile folder "BinaryData.h")
            /\ numResourceFiles project = 0%nat).
Proof.
  intros project projectFile os s folder.
  unfold save. cbn [snd].
  match goal with
  | |- context [trace (if ?b then setFile ?f ?x else ?x)] =>
      replace (trace (if b then setFile f x else x)) with (trace x)
        by (destruct b; reflexivity)
  end.
  unfold saveFiles, saveBeforeProjects, saveBeforeHeader. cbv zeta.
  set (s1 := writeMainProjectFile project projectFile os (setFile projectFile s)).
  set (t2 := if noErrors s1 then writeAppConfigFile project os (requiredModules project) s1
             else s1).
  set (t3 := if noErrors t2 then writeBinaryDataFiles project os t2 else t2).
  set (t4 := if noErrors t3 then writeAppHeaderFile project os (requiredModules project) t3
             else t3).
  set (t5 := if noErrors t4 then writeProjects project os (requiredModules project) t4
             else t4).
  set (t6 := if noErrors t5 then writeAppConfigFile project os (requiredModules project) t5
             else t5).
  assert (D1 : deletedFiles (trace s1) = deletedFiles (trace s)).
  { unfold s1, writeMainProjectFile.
    rewrite (writesOnly_deleted _ _ (writesOnly_replaceFileIfDifferent os _ _ _)).
    reflexivity. }
  assert (D2 : deletedFiles (trace t2) = deletedFiles (trace s1)).
  { apply deleted_gate, writesOnly_deleted, writesOnly_writeAppConfigFile. }
  assert (D4 : deletedFiles (trace t4) = deletedFiles (trace t3)).
  { apply deleted_gate, writesOnly_deleted. unfold writeAppHeaderFile.
    apply writesOnly_saveGeneratedFile. }
  assert (D5 : deletedFiles (trace t5) = deletedFiles (trace t4)).
  { apply deleted_gate, deleted_writeProjects. }
  assert (D6 : deletedFiles (trace t6) = deletedFiles (trace t5)).
  { apply deleted_gate, writesOnly_deleted, writesOnly_writeAppConfigFile. }
  assert (D7 : deletedFiles (trace (if fs_exists (generatedCodeFolder project) (disk t6)
                                      && noErrors t6
                                   then writeReadmeFile project os t6 else t6))
               = deletedFiles (trace t6)).
  { apply deleted_gate, writesOnly_deleted. unfold writeReadmeFile.
    apply writesOnly_replaceFileIfDifferent. }
  rewrite D7, D6, D5, D4.
  assert (D3 : exists stale,
             deletedFiles (trace t3) = (deletedFiles (trace t2) ++ stale)%list /\
             forall f, In f stale ->
               (f = getChildFile folder "BinaryData.cpp" \/
                f = getChildFile folder "BinaryData.h") /\
               (0 <? numResourceFiles project)%nat = false).
  { unfold t3. destruct (noErrors t2).
    - apply deleted_writeBinaryDataFiles.
    - exists []. rewrite app_nil_r. split; [reflexivity | intros f []]. }
  destruct D3 as (stale & D3 & H). exists stale. rewrite D3, D2, D1.
  split; [reflexivity|].
  intros f Hf. destruct (H f Hf) as [W Z]. split; [exact W|].
  apply Nat.ltb_ge in Z. lia.
Qed.

(* ===================================================================== *)
(** * The extra content of the configuration header *)
(* ===================================================================== *)

Lemma trimEnd_allWhitespace ws : allWhitespace ws = true -> trimEnd ws = EmptyString.
Proof.
  induction ws as [|c rest IH]; [reflexivity|].
  cbn [allWhitespace trimEnd]. intros H. apply andb_true_iff in H as [W R].
  rewrite (IH R), W. reflexivity.
Qed.

(** White space at the end of a string does not count. *)
Lemma trimEnd_app_whitespace content ws :
  allWhitespace ws = true -> trimEnd (content ++ ws) = trimEnd content.
Proof.
  intros W. induction content as [|c rest IH].
  - cbn [String.append trimEnd]. apply trimEnd_allWhitespace. exact W.
  - cbn [String.append trimEnd]. rewrite IH. reflexivity.
Qed.

Lemma isNotEmpty_app content ws :
  isNotEmpty content = true -> isNotEmpty (content ++ ws) = true.
Proof. destruct content; [discriminate | reflexivity]. Qed.

Lemma configEpilog_whitespace project ws :
  allWhitespace ws = true -> isNotEmpty ws = true ->
  configEpilog project ws = (newLine ++ newLine ++ configEpilog project EmptyString)%string.
Proof.
  intros W N. unfold configEpilog. rewrite N, (trimEnd_allWhitespace ws W). reflexivity.
Qed.

(** X18 -- White space at the end of the extra content never reaches the
    configuration header: extra content that differs from other extra
    content, not empty, by white space at its end only gives the same
    header.  Extra content made of white space only is not taken for
    empty: it gives the header of a single space, which is the header of
    the empty content with two more ends of line (four characters). *)
Theorem writeAppConfig_extra_whitespace :
  forall (project : Project) (modules : list LibraryModule) (s : ProjectSaver)
         (out content ws : string),
    allWhitespace ws = true ->
    let render := fun extra =>
      writeAppConfig project modules (setExtraAppConfigFileContent extra s) out in
    (isNotEmpty content = true -> render (content ++ ws)%string = render content)
    /\ (isNotEmpty ws = true ->
        render ws = render " " /\
        String.length (render ws) = String.length (render EmptyString) + 4).
Proof.
  intros project modules s out content ws W render. subst render. cbv beta.
  rewrite !writeAppConfig_text.
  cbn [setExtraAppConfigFileContent extraAppConfigContent].
  split.
  - intros N. unfold configEpilog.
    rewrite (isNotEmpty_app content ws N), N, (trimEnd_app_whitespace content ws W).
    reflexivity.
  - intros N. rewrite (configEpilog_whitespace project ws W N).
    rewrite (configEpilog_whitespace project " " eq_refl eq_refl).
    split; [reflexivity|].
    rewrite !string_length_app. change (String.length newLine) with 2. lia.
Qed.

(* ===================================================================== *)
(** * Sorting and registering *)
(* ===================================================================== *)

Lemma getNumChildren_sortGroupRecursively i :
  getNumChildren (sortGroupRecursively i) = getNumChildren i.
Proof.
  destruct i as [f c | name id children]; [reflexivity|].
  unfold getNumChildren. cbn [sortGroupRecursively getChildren].
  rewrite (Permutation_length (sortAlphabetically_perm _)). apply length_map.
Qed.

(** X22 -- [sortGroupRecursively] reorders and does nothing else.  The sorted
    group has the files of the group, each as often as before, at any
    depth; it has the group's name and the group's number of children; and
    sorting the group and then each child, as the code does, gives what
    sorting each child and then the group gives. *)
Theorem sortGroupRecursively_reorders_only :
  forall (group : Item),
    Permutation (itemFiles (sortGroupRecursively group)) (itemFiles group)
    /\ (forall f, countItemsFor f (sortGroupRecursively group) = countItemsFor f group)
    /\ (forall f, containsFile (sortGroupRecursively group) f = containsFile group f)
    /\ itemName (sortGroupRecursively group) = itemName group
    /\ isGroup (sortGroupRecursively group) = isGroup group
    /\ getNumChildren (sortGroupRecursively group) = getNumChildren group
    /\ (forall name id children,
          sortGroupRecursively (ItemGroup name id children) =
          ItemGroup name id (map sortGroupRecursively (sortAlphabetically children))).
Proof.
  intros group.
  pose proof (itemFiles_sortGroupRecursively group) as P.
  split; [exact P|]. split; [intros f; apply countItemsFor_perm; exact P|].
  split.
  { intros f. unfold containsFile.
    destruct (existsb (File_eqb f) (itemFiles group)) eqn:E.
    - apply existsb_exists in E as (x & Hx & Ex). apply existsb_exists.
      exists x. split; [|exact Ex]. eapply Permutation_in; [symmetry; exact P | exact Hx].
    - destruct (existsb (File_eqb f) (itemFiles (sortGroupRecursively group))) eqn:E';
        [|reflexivity].
      apply existsb_exists in E' as (x & Hx & Ex).
      assert (T : existsb (File_eqb f) (itemFiles group) = true).
      { apply existsb_exists. exists x. split; [|exact Ex].
        eapply Permutation_in; [exact P | exact Hx]. }
      congruence. }
  split; [apply itemName_sortGroupRecursively|].
  split; [apply isGroup_sortGroupRecursively|].
  split; [apply getNumChildren_sortGroupRecursively|].
  apply sortGroupRecursively_unfold.
Qed.

Lemma findItemForFile_addFile_other group file other c :
  File_eqb other file = false ->
  findItemForFile (addFile group file c) other = findItemForFile group other.
Proof.
  intros N. destruct group as [f c' | name id children]; [reflexivity|].
  cbn [addFile]. rewrite findItemForFile_app. cbn [findItemForFile].
  assert (N' : File_eqb file other = false).
  { apply File_eqb_neq. intros E. subst. rewrite File_eqb_refl in N. discriminate. }
  rewrite N'. reflexivity.
Qed.

(** X16 -- Registering a file touches nothing but this file's place in the group:
    [addFileToGeneratedGroup] changes the generated-files group only (the
    disk, the errors, the trace and every other member stay), the Item the
    group has for any other file is the one it had, and no file of the
    group is lost. *)
Theorem addFileToGeneratedGroup_changes_group_only :
  forall (file other : File) (s : ProjectSaver),
    File_eqb other file = false ->
    let r := addFileToGeneratedGroup file s in
    snd r = setGroup (generatedFilesGroup (snd r)) s
    /\ findItemForFile (generatedFilesGroup (snd r)) other
       = findItemForFile (generatedFilesGroup s) other
    /\ incl (itemFiles (generatedFilesGroup s)) (itemFiles (generatedFilesGroup (snd r))).
Proof.
  intros file other s N r. subst r. unfold addFileToGeneratedGroup.
  destruct (findItemForFile (generatedFilesGroup s) file) as [item|] eqn:F; cbn [snd].
  - split; [destruct s; reflexivity|]. split; [reflexivity | apply incl_refl].
  - cbn [setGroup generatedFilesGroup]. split; [reflexivity|].
    split; [apply findItemForFile_addFile_other; exact N|].
    destruct (generatedFilesGroup s) as [f c | name id children]; [apply incl_refl|].
    rewrite itemFiles_addFile. apply incl_appl, incl_refl.
Qed.

(* ===================================================================== *)
(** * The main project file *)
(* ===================================================================== *)

Section ProjectFile.

Variable project : Project.
Variable projectFile : File.
Variable os : Permissions.
Variable p : File.

Let modules := requiredModules project.
Let folder := generatedCodeFolder project.

(** The steps of [save] after the first one, at a path that parts from
    their places. *)
Lemma diskSameAt_after_writeMainProjectFile s :
  partsFromAll p (folder :: flat_map (exporterPlaces folder modules) (exporters project))
    = true ->
  diskSameAt p (writeMainProjectFile project projectFile os (setFile projectFile s))
             (saveFiles project projectFile os s).
Proof.
  intros P.
  assert (Df : pathsDiverge p folder = true)
    by (apply (partsFromAll_In _ _ _ P); left; reflexivity).
  assert (De : forall q, In q (flat_map (exporterPlaces folder modules) (exporters project)) ->
                         pathsDiverge p q = true).
  { intros q Hq. apply (partsFromAll_In _ _ _ P). right. exact Hq. }
  unfold saveFiles, saveBeforeProjects, saveBeforeHeader. cbv zeta.
  set (s1 := writeMainProjectFile project projectFile os (setFile projectFile s)).
  set (t2 := if noErrors s1 then writeAppConfigFile project os (requiredModules project) s1
             else s1).
  set (t3 := if noErrors t2 then writeBinaryDataFiles project os t2 else t2).
  set (t4 := if noErrors t3 then writeAppHeaderFile project os (requiredModules project) t3
             else t3).
  set (t5 := if noErrors t4 then writeProjects project os (requiredModules project) t4
             else t4).
  set (t6 := if noErrors t5 then writeAppConfigFile project os (requiredModules project) t5
             else t5).
  assert (H2 : diskSameAt p s1 t2)
    by (apply diskSameAt_gate, diskSameAt_writeAppConfigFile, Df).
  assert (H3 : diskSameAt p t2 t3)
    by (apply diskSameAt_gate, diskSameAt_writeBinaryDataFiles, Df).
  assert (H4 : diskSameAt p t3 t4)
    by (apply diskSameAt_gate; unfold writeAppHeaderFile;
        apply diskSameAt_saveGeneratedFile, Df).
  assert (H5 : diskSameAt p t4 t5)
    by (apply diskSameAt_gate, diskSameAt_writeProjects, De).
  assert (H6 : diskSameAt p t5 t6)
    by (apply diskSameAt_gate, diskSameAt_writeAppConfigFile, Df).
  assert (H7 : diskSameAt p t6 (if fs_exists (generatedCodeFolder project) (disk t6)
                                   && noErrors t6
                                then writeReadmeFile project os t6 else t6)).
  { apply diskSameAt_gate. unfold writeReadmeFile.
    apply diskSameAt_replaceFileIfDifferent, pathsDiverge_child, Df. }
  unfold diskSameAt in *. congruence.
Qed.

End ProjectFile.

(** X9 -- The project file that was written stays.  When the project file is not
    in the way of the later steps (its path parts from the generated-code
    folder, from the target folder of every exporter and from every file a
    module replaces) and [writeMainProjectFile] could write it, the
    project file is on the disk at the end of [save] with the project's
    XML, whatever the later steps do and whether they fail or not. *)
Theorem save_leaves_project_file :
  forall (project : Project) (projectFile : File) (os : Permissions) (s : ProjectSaver),
    projectFile <> [] ->
    partsFromAll projectFile
      (generatedCodeFolder project
         :: flat_map (exporterPlaces (generatedCodeFolder project) (requiredModules project))
                     (exporters project)) = true ->
    errors (writeMainProjectFile project projectFile os (setFile projectFile s)) = errors s ->
    fs_find projectFile (disk (snd (save project projectFile os s)))
    = Some (FsFile (last projectFile EmptyString) (projectRootXml project)).
Proof.
  intros project projectFile os s N P E.
  pose proof (diskSameAt_after_writeMainProjectFile project projectFile os projectFile s P)
    as H.
  unfold save. cbn [snd].
  replace (disk (if negb (noErrors (saveFiles project projectFile os s))
                 then setFile (projectLocation s) (saveFiles project projectFile os s)
                 else saveFiles project projectFile os s))
    with (disk (saveFiles project projectFile os s))
    by (destruct (negb _); reflexivity).
  unfold diskSameAt in H. rewrite H.
  unfold writeMainProjectFile in *.
  apply replaceFileIfDifferent_find; [exact N | exact E].
Qed.

(* ===================================================================== *)
(** * The stable writer, twice *)
(* ===================================================================== *)

Lemma setDisk_same s : setDisk (disk s) s = s.
Proof. destruct s; reflexivity. Qed.

(** X17 -- Writing the same bytes again changes nothing.  After a call of
    [replaceFileIfDifferent] that returned true, a second call for the same
    file and the same bytes returns true and leaves the saver as it is: no
    byte is written, no error is added, whatever the permissions have
    become. *)
Theorem replaceFileIfDifferent_twice :
  forall (os os' : Permissions) (f : File) (newData : string) (s : ProjectSaver),
    f <> [] ->
    fst (replaceFileIfDifferent os f newData s) = true ->
    let s' := snd (replaceFileIfDifferent os f newData s) in
    replaceFileIfDifferent os' f newData s' = (true, s')
    /\ errors s' = errors s
    /\ fs_find f (disk s') = Some (FsFile (last f EmptyString) newData).
Proof.
  intros os os' f newData s N T s'.
  assert (E : errors s' = errors s).
  { subst s'. unfold replaceFileIfDifferent in *.
    destruct (overwriteFileWithNewDataIfDifferent os f newData (disk s)) as [[d w]|];
      [destruct w; reflexivity | discriminate]. }
  assert (F : fs_find f (disk s') = Some (FsFile (last f EmptyString) newData))
    by (apply replaceFileIfDifferent_find; assumption).
  split; [|split; assumption].
  unfold replaceFileIfDifferent at 1, overwriteFileWithNewDataIfDifferent.
  rewrite F, String.eqb_refl, setDisk_same. reflexivity.
Qed.

(* ===================================================================== *)
(** * The two renderers and the stream *)
(* ===================================================================== *)

Lemma prefix_app (a b : string) : String.prefix a (a ++ b) = true.
Proof.
  induction a as [|c a IH]; cbn [String.append String.prefix].
  - destruct b; reflexivity.
  - destruct (Ascii.ascii_dec c c); [exact IH | congruence].
Qed.

(** X19 -- The generated headers open with the warning, and the renderers only
    append.  The text [writeAppConfig] and [writeAppHeader] write starts
    with the comment of [writeAutoGenWarningComment]; and each of the three
    writes after what the stream holds already, leaving it as it is: the
    result on a stream is the stream followed by the result on the empty
    stream. *)
Theorem renderers_open_with_warning :
  forall (project : Project) (modules : list LibraryModule) (s : ProjectSaver)
         (out : string),
    writeAutoGenWarningComment out = (out ++ writeAutoGenWarningComment EmptyString)%string
    /\ writeAppConfig project modules s out
       = (out ++ writeAppConfig project modules s EmptyString)%string
    /\ writeAppHeader project modules s out
       = (out ++ writeAppHeader project modules s EmptyString)%string
    /\ String.prefix (writeAutoGenWarningComment EmptyString)
                      (writeAppConfig project modules s EmptyString) = true
    /\ String.prefix (writeAutoGenWarningComment EmptyString)
                      (writeAppHeader project modules s EmptyString) = true.
Proof.
  intros project modules s out.
  split; [unfold writeAutoGenWarningComment; rewrite !string_app_assoc; reflexivity|].
  split; [rewrite !writeAppConfig_text; reflexivity|].
  split; [rewrite !writeAppHeader_text; reflexivity|].
  split.
  - assert (H : exists rest, writeAppConfig project modules s EmptyString
                             = (writeAutoGenWarningComment EmptyString ++ rest)%string).
    { rewrite writeAppConfig_text. unfold configProlog, writeAutoGenWarningComment.
      cbn [joinLines String.append]. rewrite !string_app_assoc.
      repeat (rewrite <- string_app_assoc). rewrite !string_app_assoc.
      eexists. cbn [String.append]. reflexivity. }
    destruct H as [rest ->]. apply prefix_app.
  - assert (H : exists rest, writeAppHeader project modules s EmptyString
                             = (writeAutoGenWarningComment EmptyString ++ rest)%string).
    { rewrite writeAppHeader_text. unfold appHeaderProlog, writeAutoGenWarningComment.
      cbn [joinLines String.append]. rewrite !string_app_assoc.
      eexists. cbn [String.append]. reflexivity. }
    destruct H as [rest ->]. apply prefix_app.
Qed.

(* ===================================================================== *)
(** * When a run of save succeeds *)
(* ===================================================================== *)

Section Permitted.

Variable project : Project.
Variable projectFile : File.
Variable os : Permissions.

Hypothesis all_writable : forall f, canWriteFile os f = true.
Hypothesis folder_creatable : canCreateDirectory os (generatedCodeFolder project) = true.

Lemma resourceFileWrite_permitted f s :
  fst (resourceFileWrite project os f s) = true.
Proof.
  unfold resourceFileWrite.
  pose proof (overwrite_succeeds os all_writable f (resourceCpp project) (disk s)) as O1.
  destruct (overwriteFileWithNewDataIfDifferent os f _ (disk s)) as [[d w]|]; [|congruence].
  match goal with
  | |- context [overwriteFileWithNewDataIfDifferent os ?g ?data ?d0] =>
      pose proof (overwrite_succeeds os all_writable g data d0) as O2;
      destruct (overwriteFileWithNewDataIfDifferent os g data d0) as [[d' w']|]
  end; [reflexivity | congruence].
Qed.

Lemma errors_writeBinaryDataFiles_permitted s :
  errors (writeBinaryDataFiles project os s) = errors s.
Proof.
  unfold writeBinaryDataFiles. cbv zeta.
  destruct (0 <? numResourceFiles project)%nat.
  - match goal with
    | |- context [resourceFileWrite project os ?f ?s0] =>
        pose proof (resourceFileWrite_permitted f s0) as T;
        pose proof (errors_resourceFileWrite project os f s0) as E;
        destruct (resourceFileWrite project os f s0) as [ok s1]
    end.
    cbn [fst snd setBinaryDataCpp errors] in T, E. subst ok. exact E.
  - rewrite !errors_deleteFile. reflexivity.
Qed.

Lemma errors_writeProjects_permitted s :
  (forall e, In e (exporters project) ->
             targetFolderCreated os e = true /\ forall g, create e g = None) ->
  errors (writeProjects project os (requiredModules project) s) = errors s.
Proof.
  intros H. rewrite writeProjects_fold.
  generalize (generatedFilesGroup s) as g. intros g.
  assert (H' : forall e, In e (rev (exporters project)) ->
                         targetFolderCreated os e = true /\ forall g, create e g = None).
  { intros e He. apply H. apply in_rev. exact He. }
  clear H. revert s. induction (rev (exporters project)) as [|e l IH]; intros s;
    cbn [fold_left]; [reflexivity|].
  rewrite IH by (intros e' He'; apply H'; right; exact He').
  destruct (H' e (or_introl eq_refl)) as [C N].
  apply writeProject_succeeds; assumption.
Qed.

Lemma permitted_gate (step : ProjectSaver -> ProjectSaver) (b : bool) s :
  errors s = [] -> errors (step s) = errors s ->
  errors (if b then step s else s) = [].
Proof. intros E S. destruct b; congruence. Qed.

End Permitted.

Lemma filter_all {A} (f : A -> bool) l : (forall x, In x l -> f x = true) -> filter f l = l.
Proof.
  induction l as [|x l IH]; intros H; [reflexivity|].
  cbn [filter]. rewrite (H x (or_introl eq_refl)). f_equal.
  apply IH. intros y Hy. apply H. right. exact Hy.
Qed.

(** X5 -- A run of [save] succeeds when nothing stands in its way.  When every
    file can be written, the generated-code folder and the exporters'
    target folders can be created, and no exporter throws, [save] on a
    saver without errors returns the empty string and leaves no error; the
    project's location is the file it was given, and every exporter was
    called, from the last declared one to the first. *)
Theorem save_succeeds_when_permitted :
  forall (project : Project) (projectFile : File) (os : Permissions) (s : ProjectSaver),
    errors s = [] ->
    (forall f, canWriteFile os f = true) ->
    canCreateDirectory os (generatedCodeFolder project) = true ->
    (forall e, In e (exporters project) ->
               targetFolderCreated os e = true /\ forall g, create e g = None) ->
    let r := save project projectFile os s in
    fst r = EmptyString
    /\ errors (snd r) = []
    /\ projectLocation (snd r) = projectFile
    /\ exporterCalls (trace (snd r))
       = (exporterCalls (trace s) ++ rev (exporters project))%list.
Proof.
  intros project projectFile os s E W C X r.
  assert (Chain : errors (saveBeforeProjects project projectFile os s) = [] /\
                  errors (saveFiles project projectFile os s) = []).
  { unfold saveFiles, saveBeforeProjects, saveBeforeHeader. cbv zeta.
    set (s1 := writeMainProjectFile project projectFile os (setFile projectFile s)).
    assert (E1 : errors s1 = []).
    { unfold s1, writeMainProjectFile.
      rewrite (proj1 (errors_replaceFileIfDifferent os W _ _ _)). exact E. }
    set (t2 := if noErrors s1 then writeAppConfigFile project os (requiredModules project) s1
               else s1).
    assert (E2 : errors t2 = []).
    { apply permitted_gate; [exact E1|]. unfold writeAppConfigFile. cbv zeta.
      rewrite (errors_saveGeneratedFile project os W C). reflexivity. }
    set (t3 := if noErrors t2 then writeBinaryDataFiles project os t2 else t2).
    assert (E3 : errors t3 = []).
    { apply permitted_gate; [exact E2|]. apply errors_writeBinaryDataFiles_permitted. exact W. }
    set (t4 := if noErrors t3 then writeAppHeaderFile project os (requiredModules project) t3
               else t3).
    assert (E4 : errors t4 = []).
    { apply permitted_gate; [exact E3|]. unfold writeAppHeaderFile. cbv zeta.
      apply (errors_saveGeneratedFile project os W C). }
    split; [exact E4|].
    set (t5 := if noErrors t4 then writeProjects project os (requiredModules project) t4
               else t4).
    assert (E5 : errors t5 = []).
    { apply permitted_gate; [exact E4|]. apply errors_writeProjects_permitted; assumption. }
    set (t6 := if noErrors t5 then writeAppConfigFile project os (requiredModules project) t5
               else t5).
    assert (E6 : errors t6 = []).
    { apply permitted_gate; [exact E5|]. unfold writeAppConfigFile. cbv zeta.
      rewrite (errors_saveGeneratedFile project os W C). reflexivity. }
    apply permitted_gate; [exact E6|]. unfold writeReadmeFile.
    apply (errors_replaceFileIfDifferent os W). }
  destruct Chain as [E4 E8].
  assert (Calls : exporterCalls (trace (snd (save project projectFile os s)))
                  = (exporterCalls (trace s) ++ rev (exporters project))%list).
  { rewrite save_exporterCalls by (apply noErrors_nil; exact E4).
    rewrite filter_all; [reflexivity|].
    intros e He. apply X. apply in_rev. exact He. }
  subst r. split; [|split; [|split; [|exact Calls]]];
    unfold save; cbn [fst snd];
    rewrite (proj2 (noErrors_nil _) E8); cbn [negb].
  - rewrite E8. reflexivity.
  - exact E8.
  - destruct (steady_saveFiles project projectFile os s) as [L _]. exact L.
Qed.

(* ===================================================================== *)
(** * What the exporters are handed, and what they throw *)
(* ===================================================================== *)

Section Handed.

Variable project : Project.
Variable projectFile : File.
Variable os : Permissions.

Let modules := requiredModules project.
Let folder := generatedCodeFolder project.

(** The generated-files group when [save] comes to the exporters. *)
Lemma saveBeforeProjects_group s :
  isGroup (generatedFilesGroup s) = true ->
  noErrors (saveBeforeProjects project projectFile os s) = true ->
  let g := generatedFilesGroup (saveBeforeProjects project projectFile os s) in
  In (getChildFile folder (getAppConfigFilename project)) (itemFiles g)
  /\ In (getChildFile folder (getJuceSourceHFilename project)) (itemFiles g)
  /\ ((0 < numResourceFiles project)%nat ->
      In (getChildFile folder "BinaryData.cpp") (itemFiles g) /\
      In (getChildFile folder "BinaryData.h") (itemFiles g)).
Proof.
  intros G N. cbv zeta.
  unfold saveBeforeProjects, saveBeforeHeader in *. cbv zeta in *.
  set (s1 := writeMainProjectFile project projectFile os (setFile projectFile s)) in *.
  set (t2 := if noErrors s1 then writeAppConfigFile project os (requiredModules project) s1
             else s1) in *.
  set (t3 := if noErrors t2 then writeBinaryDataFiles project os t2 else t2) in *.
  destruct (gate_taken (writeAppHeaderFile project os (requiredModules project)) t3
              (proj1 (quiet_writeAppHeaderFile project os _ t3)) N) as [N3 F4].
  rewrite F4 in N |- *.
  destruct (gate_taken (writeBinaryDataFiles project os) t2
              (proj1 (quiet_writeBinaryDataFiles project os t2)) N3) as [N2 F3].
  unfold t3 in *. rewrite F3 in *. clear t3 F3.
  destruct (gate_taken (writeAppConfigFile project os (requiredModules project)) s1
              (proj1 (quiet_writeAppConfigFile project os _ s1)) N2) as [N1 F2].
  unfold t2 in *. rewrite F2 in *. clear t2 F2.
  apply noErrors_nil in N, N1, N2, N3.
  set (s2 := writeAppConfigFile project os (requiredModules project) s1) in *.
  set (s3 := writeBinaryDataFiles project os s2) in *.
  set (s4 := writeAppHeaderFile project os (requiredModules project) s3) in *.
  assert (G1 : generatedFilesGroup s1 = generatedFilesGroup s)
    by (unfold s1; rewrite group_writeMainProjectFile; reflexivity).
  assert (IG1 : isGroup (generatedFilesGroup s1) = true) by (rewrite G1; exact G).
  destruct (registers_writeAppConfigFile project os s1) as (IG2 & _).
  fold s2 in IG2. specialize (IG2 IG1).
  pose proof (writeAppConfigFile_registered project os s1 IG1 N1 N2) as A2. fold s2 in A2.
  destruct (writeBinaryDataFiles_group project os s2 IG2 N3) as [IG3 F3]. fold s3 in IG3, F3.
  destruct (registers_saveGeneratedFile project os (getJuceSourceHFilename project)
              (writeAppHeader project (requiredModules project) s3 EmptyString) s3)
    as (_ & I4 & _).
  change (snd (saveGeneratedFile project os (getJuceSourceHFilename project)
                 (writeAppHeader project (requiredModules project) s3 EmptyString) s3))
    with s4 in *.
  pose proof (writeAppHeaderFile_registered project os s3 IG3 N3 N) as A4. fold s4 in A4.
  split; [|split; [exact A4|]].
  - apply I4. rewrite F3. apply in_or_app. left. exact A2.
  - intros R. apply Nat.ltb_lt in R. rewrite R in F3.
    split; apply I4; rewrite F3; apply in_or_app; right; cbn; auto.
Qed.

(** The calls of [create] in a run of [save] that called an exporter. *)
Lemma save_handed_calls s :
  handedGroups (trace s) = [] ->
  handedGroups (trace (snd (save project projectFile os s))) <> [] ->
  noErrors (saveBeforeProjects project projectFile os s) = true /\
  handedGroups (trace (snd (save project projectFile os s)))
  = handedGroups (trace (writeProjects project os modules
                           (saveBeforeProjects project projectFile os s))).
Proof.
  intros Z H. rewrite save_handed in H |- *. cbv zeta in *.
  destruct (noErrors (saveBeforeProjects project projectFile os s)); [auto|].
  rewrite saveBeforeProjects_handed in H. contradiction.
Qed.

End Handed.

(** X26 -- Every exporter is handed the generated files.  In a run of
    [save], the group handed to an exporter holds the configuration header
    and the umbrella header, and BinaryData.cpp and BinaryData.h when the
    project has resources; and the exporter is one of the project's. *)
Theorem exporters_are_handed_generated_files :
  forall (project : Project) (projectFile : File) (os : Permissions) (s : ProjectSaver)
         (exporter : ProjectExporter) (group : Item),
    isGroup (generatedFilesGroup s) = true ->
    handedGroups (trace s) = [] ->
    In (exporter, group) (handedGroups (trace (snd (save project projectFile os s)))) ->
    let folder := generatedCodeFolder project in
    In exporter (exporters project)
    /\ containsFile group (getChildFile folder (getAppConfigFilename project)) = true
    /\ containsFile group (getChildFile folder (getJuceSourceHFilename project)) = true
    /\ ((0 < numResourceFiles project)%nat ->
        containsFile group (getChildFile folder "BinaryData.cpp") = true /\
        containsFile group (getChildFile folder "BinaryData.h") = true).
Proof.
  intros project projectFile os s exporter group G Z Hin folder.
  destruct (save_handed_calls project projectFile os s Z) as [N T].
  { intros E. rewrite E in Hin. destruct Hin. }
  rewrite T in Hin.
  destruct (saveBeforeProjects_group project projectFile os s G N) as (A & H & B).
  destruct (writeProjects_handed project os (requiredModules project)
              (saveBeforeProjects project projectFile os s)) as (handed & T' & _ & P).
  rewrite T', saveBeforeProjects_handed, Z in Hin. cbn [app] in Hin.
  destruct (P exporter group Hin) as (E & Keep & _).
  split; [exact E|].
  split; [apply containsFile_In, Keep, A|].
  split; [apply containsFile_In, Keep, H|].
  intros R. destruct (B R) as [Bc Bh].
  split; apply containsFile_In, Keep; assumption.
Qed.

Section Thrown.

Variable project : Project.
Variable os : Permissions.

(** One turn of the loop of [writeProjects]: the call it makes, if any, and
    the errors it adds: those of the preparation (or of the target folder),
    then what the exporter threw. *)
Lemma writeProject_turn ms g0 e st :
  exists h prep,
    handedGroups (trace (writeProject project os ms g0 e st))
      = (handedGroups (trace st) ++ h)%list /\
    errors (writeProject project os ms g0 e st)
      = (errors st ++ prep ++ flat_map thrown h)%list /\
    ((forall f, canWriteFile os f = true) ->
     canCreateDirectory os (generatedCodeFolder project) = true ->
     targetFolderCreated os e = true -> prep = []).
Proof.
  unfold writeProject, targetFolderCreated, createDirectory. cbn [emit disk].
  destruct (canCreateDirectory os (getTargetFolder e)).
  - match goal with
    | |- context [fold_left ?step ms ?s0] =>
        destruct (writesOnly_prepare project os e ms s0) as [files W];
        pose proof (quiet_fold step ms
                      (fun a s' => quiet_modulePrepareExporter project os e s' a) s0)
          as [[_ [added A]] _];
        assert (P : (forall x, canWriteFile os x = true) ->
                    canCreateDirectory os (generatedCodeFolder project) = true ->
                    errors (fold_left step ms s0) = errors s0);
        [| set (s1 := fold_left step ms s0) in * ]
    end.
    { intros Wr Fc. apply errors_fold. intros m s'. unfold modulePrepareExporter.
      apply errors_fold. intros c s''. apply errors_runCall; assumption. }
    cbn [setGroup setDisk emit trace errors] in W, A, P. clearbody s1.
    exists [(e, sortGroupRecursively (generatedFilesGroup s1))], added.
    split; [|split].
    + destruct (create e _); cbn [addError emit setGroup trace generatedFilesGroup];
        rewrite W, !handedGroups_app, handedGroups_written; cbn [handedGroups];
        rewrite !app_nil_r; reflexivity.
    + cbn [flat_map]. unfold thrown. cbn [fst snd emit setGroup generatedFilesGroup].
      destruct (create e (sortGroupRecursively (generatedFilesGroup s1)));
        cbn [addError emit setGroup errors]; rewrite A, ?app_nil_r, <- ?app_assoc;
        reflexivity.
    + intros Wr Fc _. specialize (P Wr Fc). rewrite A in P.
      rewrite <- (app_nil_r (errors st)) in P at 2.
      apply app_inv_head in P. exact P.
  - exists [], [cantCreateFolder e]. cbn [addError emit trace errors flat_map].
    rewrite handedGroups_app. cbn [handedGroups]. rewrite !app_nil_r.
    split; [reflexivity|]. split; [reflexivity|]. intros _ _ H. discriminate.
Qed.

Lemma fold_thrown ms g0 l s :
  exists handed,
    handedGroups (trace (fold_left (fun st e => writeProject project os ms g0 e st) l s))
      = (handedGroups (trace s) ++ handed)%list /\
    (forall c message, In c handed -> In message (thrown c) ->
       In message (errors (fold_left (fun st e => writeProject project os ms g0 e st) l s))) /\
    ((forall f, canWriteFile os f = true) ->
     canCreateDirectory os (generatedCodeFolder project) = true ->
     (forall e, In e l -> targetFolderCreated os e = true) ->
     errors (fold_left (fun st e => writeProject project os ms g0 e st) l s)
       = (errors s ++ flat_map thrown handed)%list).
Proof.
  revert s. induction l as [|e l IH]; intros s; cbn [fold_left].
  - exists []. cbn [flat_map]. rewrite !app_nil_r.
    split; [reflexivity|]. split; [intros c m []|]. intros _ _ _. reflexivity.
  - destruct (writeProject_turn ms g0 e s) as (h & prep & T1 & E1 & P1).
    destruct (IH (writeProject project os ms g0 e s)) as (handed & T2 & R2 & X2).
    exists (h ++ handed)%list. split; [|split].
    + rewrite T2, T1, app_assoc. reflexivity.
    + intros c m Hc Hm. apply in_app_or in Hc as [Hc|Hc]; [|apply (R2 c m Hc Hm)].
      assert (S : steady (writeProject project os ms g0 e s)
                         (fold_left (fun st e0 => writeProject project os ms g0 e0 st) l
                            (writeProject project os ms g0 e s))).
      { apply steady_fold. intros e' s'. apply steady_writeProject. }
      destruct S as [_ [added A]]. rewrite A. apply in_or_app. left.
      rewrite E1. apply in_or_app. right. apply in_or_app. right.
      apply in_flat_map. exists c. auto.
    + intros Wr Fc Cr.
      rewrite X2 by (auto; intros e' He'; apply Cr; right; exact He').
      rewrite E1, (P1 Wr Fc (Cr e (or_introl eq_refl))), flat_map_app.
      cbn [app]. rewrite <- app_assoc. reflexivity.
Qed.

End Thrown.

(** X27 -- What an exporter throws is on record.  The message of a
    [SaveError] an exporter threw on the group it was handed is among the
    errors after [writeProjects].  When moreover every file can be written
    and every folder created, every exporter is called, from the last
    declared one to the first, and the errors [writeProjects] adds are
    exactly the messages thrown, in the order of the calls. *)
Theorem writeProjects_records_thrown_errors :
  forall (project : Project) (os : Permissions) (modules : list LibraryModule)
         (s : ProjectSaver) (handed : list (ProjectExporter * Item)),
    handedGroups (trace (writeProjects project os modules s))
      = (handedGroups (trace s) ++ handed)%list ->
    let s' := writeProjects project os modules s in
    (forall exporter group message,
        In (exporter, group) handed -> create exporter group = Some message ->
        In message (errors s'))
    /\ ((forall f, canWriteFile os f = true) ->
        canCreateDirectory os (generatedCodeFolder project) = true ->
        (forall e, In e (exporters project) -> targetFolderCreated os e = true) ->
        errors s' = (errors s ++ flat_map thrown handed)%list
        /\ map fst handed = rev (exporters project)).
Proof.
  intros project os modules s handed T s'. subst s'.
  rewrite writeProjects_fold in *.
  destruct (fold_thrown project os modules (generatedFilesGroup s) (rev (exporters project)) s)
    as (handed' & T' & R & X).
  rewrite T' in T. apply app_inv_head in T. subst handed'.
  split.
  - intros exporter group message Hin C. apply (R (exporter, group) message Hin).
    unfold thrown. cbn [fst snd]. rewrite C. left. reflexivity.
  - intros Wr Fc Cr. split.
    + apply X; auto. intros e He. apply Cr. apply in_rev. exact He.
    + destruct (writeProjects_handed project os modules s) as (h & Th & N & _).
      rewrite writeProjects_fold, T' in Th. apply app_inv_head in Th. subst h.
      rewrite N. apply filter_all. intros e He. apply Cr. apply in_rev. exact He.
Qed.

(* ===================================================================== *)
(** * The further properties on the projects of the examples *)
(* ===================================================================== *)

(** The constructor on the stale disk: the project file beside the
    generated-code folder is as it was. *)
Lemma newProjectSaver_outside_untouched_example :
  fs_find targetFile (disk (newProjectSaver exampleProject projectLocationBefore staleDisk))
  = Some (FsFile "Demo.jucer" "<OLD/>")
  /\ fs_find notesFile (disk (newProjectSaver exampleProject projectLocationBefore staleDisk))
     = fs_find notesFile staleDisk.
Proof.
  destruct (newProjectSaver_outside_untouched exampleProject projectLocationBefore staleDisk
              targetFile eq_refl) as (Same & _ & _).
  destruct (newProjectSaver_outside_untouched exampleProject projectLocationBefore staleDisk
              notesFile eq_refl) as (Notes & _ & _).
  split; [rewrite Same; reflexivity | exact Notes].
Defined.

(** The constructor on the stale disk: the file below .svn is as it was,
    also the one that bears the name of a generated file. *)
Lemma newProjectSaver_keeps_version_control_example :
  fs_find ["proj"; "JuceLibraryCode"; ".svn"; "old.h"]
          (disk (newProjectSaver exampleProject projectLocationBefore staleDisk))
  = Some (FsFile "old.h" "x").
Proof.
  exact (newProjectSaver_keeps_version_control exampleProject projectLocationBefore
           staleDisk ".svn" ["old.h"] eq_refl).
Defined.

(** The constructor on the stale disk: the stale AppConfig.h is gone. *)
Lemma newProjectSaver_clears_files_example :
  let f := ["proj"; "JuceLibraryCode"; "AppConfig.h"] in
  let after := disk (newProjectSaver exampleProject projectLocationBefore staleDisk) in
  fs_exists f staleDisk = true
  /\ fs_exists f after = fs_isDirectory f after
  /\ fs_exists f after = false.
Proof.
  cbv zeta. split; [reflexivity|]. split; [|vm_compute; reflexivity].
  apply (newProjectSaver_clears_files exampleProject projectLocationBefore staleDisk
           "AppConfig.h"); [discriminate | reflexivity].
Defined.

(** The project file cannot be written: [save] returns the error and does
    nothing. *)
Lemma save_project_file_unwritable_example :
  save exampleProject targetFile noProjectFileWrite freshSaver
  = ("Can't write to file: /proj/Demo.jucer",
     addError "Can't write to file: /proj/Demo.jucer" freshSaver).
Proof.
  rewrite (save_project_file_unwritable exampleProject targetFile noProjectFileWrite
             freshSaver eq_refl eq_refl).
  reflexivity.
Defined.

(** The generated-code folder cannot be created: one error, no exporter. *)
Lemma save_failure_before_exporters_example :
  let r := save twoExporters targetFile noGeneratedFolder freshSaver in
  (exists message,
      In message (errorsBeforeExporters twoExporters targetFile) /\
      errors (snd r) = [message] /\ fst r = message)
  /\ snd r = setFile (projectLocation freshSaver)
                     (saveBeforeProjects twoExporters targetFile noGeneratedFolder freshSaver)
  /\ handedGroups (trace (snd r)) = handedGroups (trace freshSaver).
Proof.
  apply (save_failure_before_exporters twoExporters targetFile noGeneratedFolder freshSaver);
    vm_compute; reflexivity.
Defined.

(** The generated-code folder cannot be created: the project file was
    written all the same. *)
Lemma save_folder_not_creatable_example :
  let r := save exampleProject targetFile noGeneratedFolder freshSaver in
  fst r = "Couldn't create folder: /proj/JuceLibraryCode"
  /\ errors (snd r) = ["Couldn't create folder: /proj/JuceLibraryCode"]
  /\ projectLocation (snd r) = projectLocationBefore
  /\ fs_find targetFile (disk (snd r)) = Some (FsFile "Demo.jucer" "<JUCERPROJECT/>").
Proof.
  destruct (save_folder_not_creatable exampleProject targetFile noGeneratedFolder freshSaver)
    as (Returned & Errors & Location & _ & OnDisk & _);
    [reflexivity | discriminate | reflexivity | reflexivity |].
  cbv zeta. repeat split; assumption.
Defined.

(** No folder can be created: three errors, from the last exporter to the
    first, and no call. *)
Lemma writeProjects_no_folder_created_example :
  let s' := writeProjects threeExporters noFolders [moduleM1] freshSaver in
  errors s' = [ "Can't create folder: /proj/Builds/Linux";
                "Can't create folder: /proj/Builds/VisualStudio";
                "Can't create folder: /proj/Builds/MacOSX" ]
  /\ generatedFilesGroup s' = generatedFilesGroup freshSaver
  /\ exporterCalls (trace s') = [].
Proof.
  destruct (writeProjects_no_folder_created threeExporters noFolders [moduleM1] freshSaver)
    as (Errors & Group & _ & Calls & _); [intros e _; reflexivity|].
  cbv zeta. split; [rewrite Errors; reflexivity|]. split; [exact Group | exact Calls].
Defined.

(** Two exporters, the Linux one with a file of its own: the group left is
    the one the XCode exporter, called last, was handed. *)
Lemma writeProjects_leaves_last_handed_group_example :
  let s := saveBeforeProjects twoExporters targetFile allowAll freshSaver in
  let s' := writeProjects twoExporters allowAll [moduleLinuxOnly] s in
  generatedFilesGroup s' = last (map snd (handedGroups (trace s'))) (generatedFilesGroup s)
  /\ containsFile (generatedFilesGroup s') linuxOnlyFile = false.
Proof.
  cbv zeta. split; [|vm_compute; reflexivity].
  apply (writeProjects_leaves_last_handed_group twoExporters allowAll [moduleLinuxOnly]).
  vm_compute. reflexivity.
Defined.

(** A generated file saved on the empty disk. *)
Lemma saveGeneratedFile_outcomes_example :
  let r := saveGeneratedFile exampleProject allowAll "juce_x.h" "// x" freshSaver in
  fst r = Some (ItemFile ["proj"; "JuceLibraryCode"; "juce_x.h"] true)
  /\ errors (snd r) = []
  /\ fs_find ["proj"; "JuceLibraryCode"; "juce_x.h"] (disk (snd r))
     = Some (FsFile "juce_x.h" "// x").
Proof.
  pose proof (saveGeneratedFile_outcomes exampleProject allowAll "juce_x.h" "// x" freshSaver
                eq_refl) as H.
  cbv zeta in H |- *.
  change (fst (saveGeneratedFile exampleProject allowAll "juce_x.h" "// x" freshSaver))
    with (Some (ItemFile ["proj"; "JuceLibraryCode"; "juce_x.h"] true)) in H |- *.
  cbv iota in H. destruct H as (Errors & OnDisk & _).
  split; [reflexivity|]. split; [exact Errors | exact OnDisk].
Defined.

(** A project without resources on a disk with stale BinaryData files. *)
Lemma writeBinaryDataFiles_no_resources_example :
  let s := setDisk [FsDir "proj" [FsDir "JuceLibraryCode"
                      [FsFile "BinaryData.cpp" "a"; FsFile "BinaryData.h" "b";
                       FsFile "AppConfig.h" "c"]]] freshSaver in
  let s' := writeBinaryDataFiles exampleProject allowAll s in
  fs_exists ["proj"; "JuceLibraryCode"; "BinaryData.cpp"] (disk s') = false
  /\ fs_exists ["proj"; "JuceLibraryCode"; "BinaryData.h"] (disk s') = false
  /\ fs_find ["proj"; "JuceLibraryCode"; "AppConfig.h"] (disk s')
     = Some (FsFile "AppConfig.h" "c")
  /\ errors s' = [].
Proof.
  intros s s'.
  destruct (writeBinaryDataFiles_no_resources exampleProject allowAll s eq_refl)
    as (Cpp & Header & Others & Errors & _).
  split; [exact Cpp|]. split; [exact Header|]. split; [|exact Errors].
  refine (eq_trans (Others "AppConfig.h" _ _) _); [discriminate | discriminate | reflexivity].
Defined.

(** A project with resources, on a group that has BinaryData.cpp already:
    the file has two Items afterwards. *)
Lemma writeBinaryDataFiles_registers_unchecked_example :
  let cpp := ["proj"; "JuceLibraryCode"; "BinaryData.cpp"] in
  let s := snd (addFileToGeneratedGroup cpp freshSaver) in
  let s' := writeBinaryDataFiles withResources allowAll s in
  countItemsFor cpp (generatedFilesGroup s) = 1
  /\ countItemsFor cpp (generatedFilesGroup s') = 2.
Proof.
  intros cpp s s'. split; [reflexivity|].
  destruct (writeBinaryDataFiles_registers_unchecked withResources allowAll s)
    as [(_ & _ & Count & _) | (Errors & _)]; [vm_compute; lia | reflexivity | |].
  - exact Count.
  - vm_compute in Errors. discriminate Errors.
Defined.

Lemma save_leaves_readme_example :
  fs_find readmeFile (disk (snd (save exampleProject targetFile allowAll freshSaver)))
  = Some (FsFile "ReadMe.txt" readmeText).
Proof.
  apply (save_leaves_readme exampleProject targetFile allowAll freshSaver);
    [discriminate | vm_compute; reflexivity].
Defined.

(** The module's extra content is in the header on the disk, without the
    white space at its end. *)
Lemma save_leaves_config_header_example :
  let final := snd (save withExtra targetFile allowAll freshSaver) in
  fs_find ["proj"; "JuceLibraryCode"; "AppConfig.h"] (disk final)
  = Some (FsFile "AppConfig.h" (writeAppConfig withExtra [moduleWithExtra] final EmptyString))
  /\ extraAppConfigContent final = "#define EXTRA 1  "
  /\ countLines "#define EXTRA 1"
       (writeAppConfig withExtra [moduleWithExtra] final EmptyString) = 1.
Proof.
  destruct (save_leaves_config_header withExtra targetFile allowAll freshSaver)
    as (OnDisk & Extra); [discriminate | vm_compute; reflexivity |].
  cbv zeta. split; [exact OnDisk|]. split; [rewrite Extra; reflexivity|].
  vm_compute. reflexivity.
Defined.

(** A project with resources: the umbrella header includes AppConfig.h,
    the two modules' headers and BinaryData.h. *)
Lemma save_writes_umbrella_header_example :
  let text := appHeaderText withResources [moduleM1; moduleM2] true true in
  fs_find ["proj"; "JuceLibraryCode"; "JuceHeader.h"]
          (disk (saveBeforeProjects withResources targetFile allowAll freshSaver))
  = Some (FsFile "JuceHeader.h" text)
  /\ countLines (createIncludeStatement "AppConfig.h") text = 1
  /\ countLines (createIncludeStatement "BinaryData.h") text = 1.
Proof.
  cbv zeta. split; [|split; vm_compute; reflexivity].
  apply (save_writes_umbrella_header withResources targetFile allowAll freshSaver).
  vm_compute. reflexivity.
Defined.

(** A save on the stale disk leaves the notes elsewhere alone. *)
Lemma save_works_at_its_places_example :
  let s := newProjectSaver twoExporters projectLocationBefore staleDisk in
  fs_find notesFile (disk (snd (save twoExporters targetFile allowAll s)))
  = Some (FsFile "notes.txt" "keep me").
Proof.
  intros s.
  rewrite (save_works_at_its_places twoExporters targetFile allowAll s notesFile)
    by (vm_compute; reflexivity).
  vm_compute. reflexivity.
Defined.

Lemma writeAppConfig_extra_whitespace_example :
  let render := fun extra =>
    writeAppConfig exampleProject [moduleM1; moduleM2]
                   (setExtraAppConfigFileContent extra freshSaver) EmptyString in
  render "#define X 1  " = render "#define X 1"
  /\ String.length (render "  ") = String.length (render EmptyString) + 4.
Proof.
  destruct (writeAppConfig_extra_whitespace exampleProject [moduleM1; moduleM2] freshSaver
              EmptyString "#define X 1" "  " eq_refl) as (Trailing & Only).
  cbv zeta. split; [exact (Trailing eq_refl) | exact (proj2 (Only eq_refl))].
Defined.

(** Registering the README leaves the Item of another file as it is. *)
Lemma addFileToGeneratedGroup_changes_group_only_example :
  let s := snd (addFileToGeneratedGroup linuxOnlyFile freshSaver) in
  let r := addFileToGeneratedGroup readmeFile s in
  findItemForFile (generatedFilesGroup (snd r)) linuxOnlyFile
  = Some (ItemFile linuxOnlyFile true)
  /\ disk (snd r) = disk s /\ errors (snd r) = errors s.
Proof.
  intros s r.
  destruct (addFileToGeneratedGroup_changes_group_only readmeFile linuxOnlyFile s eq_refl)
    as (Only & Other & _).
  fold r in Only, Other. split; [rewrite Other; reflexivity|].
  rewrite Only. split; reflexivity.
Defined.

(** Two exporters: the project file is on the disk at the end. *)
Lemma save_leaves_project_file_example :
  fs_find targetFile (disk (snd (save twoExporters targetFile allowAll freshSaver)))
  = Some (FsFile "Demo.jucer" "<JUCERPROJECT/>").
Proof.
  apply (save_leaves_project_file twoExporters targetFile allowAll freshSaver);
    [discriminate | vm_compute; reflexivity | reflexivity].
Defined.

(** The same bytes a second time, on a disk that has become read-only. *)
Lemma replaceFileIfDifferent_twice_example :
  let s' := snd (replaceFileIfDifferent allowAll readmeFile "text" freshSaver) in
  replaceFileIfDifferent readOnly readmeFile "text" s' = (true, s')
  /\ fst (replaceFileIfDifferent readOnly readmeFile "other" s') = false.
Proof.
  cbv zeta. split; [|vm_compute; reflexivity].
  apply (replaceFileIfDifferent_twice allowAll readOnly readmeFile "text" freshSaver);
    [discriminate | reflexivity].
Defined.

(** Everything is permitted: three exporters, all called, no error. *)
Lemma save_succeeds_when_permitted_example :
  let r := save threeExporters targetFile allowAll freshSaver in
  fst r = EmptyString
  /\ errors (snd r) = []
  /\ projectLocation (snd r) = targetFile
  /\ exporterCalls (trace (snd r)) = [exporterLinux; exporterVisualStudio; exporterXCode].
Proof.
  apply (save_succeeds_when_permitted threeExporters targetFile allowAll freshSaver).
  - reflexivity.
  - intros f. reflexivity.
  - reflexivity.
  - intros e [<-|[<-|[<-|[]]]]; split; try reflexivity; intros g; reflexivity.
Defined.

(** A project with resources: the XCode exporter is handed the four
    generated files. *)
Lemma exporters_are_handed_generated_files_example :
  let handed := handedGroups (trace (snd (save withResources targetFile allowAll freshSaver))) in
  let group := snd (nth 0 handed (exporterXCode, generatedFilesGroup freshSaver)) in
  map (fun call => getName (fst call)) handed = ["XCode"]
  /\ containsFile group ["proj"; "JuceLibraryCode"; "AppConfig.h"] = true
  /\ containsFile group ["proj"; "JuceLibraryCode"; "JuceHeader.h"] = true
  /\ containsFile group ["proj"; "JuceLibraryCode"; "BinaryData.cpp"] = true
  /\ containsFile group ["proj"; "JuceLibraryCode"; "BinaryData.h"] = true.
Proof.
  intros handed group.
  destruct (exporters_are_handed_generated_files withResources targetFile allowAll freshSaver
              exporterXCode group eq_refl eq_refl) as (_ & Config & Header & Binary).
  { vm_compute. left. reflexivity. }
  destruct Binary as [Cpp H]; [vm_compute; lia|].
  split; [vm_compute; reflexivity|]. repeat split; assumption.
Defined.

(** Two exporters, the second one throws: it runs first, its message is
    the one error, and the XCode exporter runs after it. *)
Lemma writeProjects_records_thrown_errors_example :
  let s := saveBeforeProjects withAndroid targetFile allowAll freshSaver in
  let s' := writeProjects withAndroid allowAll [moduleM1] s in
  errors s' = ["No SDK path"]
  /\ map getName (exporterCalls (trace s')) = ["Android"; "XCode"].
Proof.
  intros s s'.
  destruct (writeProjects_records_thrown_errors withAndroid allowAll [moduleM1] s
              (handedGroups (trace s'))) as (_ & Exact); [vm_compute; reflexivity|].
  destruct Exact as [Errors Calls];
    [intros f; reflexivity | reflexivity
     | intros e [<-|[<-|[]]]; reflexivity |].
  split; [unfold s'; rewrite Errors; vm_compute; reflexivity|].
  unfold exporterCalls. rewrite Calls. reflexivity.
Defined.
